(** * ZenStack: the ZModel to Prisma schema generator

    A shallow embedding of
    [packages/schema/src/plugins/prisma/schema-generator.ts]
    (class [PrismaSchemaGenerator]) and of [getIdFields] from the runtime,
    with the properties the specification states about them.

    Conventions.
    - A JavaScript exception is a value of [Error]; a method that may throw
      returns a [result].  The Prisma object model that the generator
      mutates is threaded explicitly: a method that pushes onto a builder
      object returns the new object.
    - JavaScript truthiness is written out ([truthy], [truthy_string]).
    - Number literals are integers ([Z]); fractional literals need floating
      point and are outside this model. *)

From Stdlib Require Import ZArith Ascii String List DecimalString DecimalZ.
From stdpp Require Import base option list strings gmap.

Set Warnings "-register-all".

Open Scope string_scope.
Open Scope list_scope.

(** ** Exceptions and the error monad *)

Inductive Error : Type :=
  | PluginError (plugin : string) (message : string)
      (* [new PluginError(name, message)] *)
  | JsError (message : string)
      (* [new Error(message)] *)
  | TypeError
      (* reading a property of [undefined] *)
  | SyntaxError.
      (* [JSON.parse] on malformed text *)

Inductive result (A : Type) : Type :=
  | Ok (a : A)
  | Err (e : Error).
Arguments Ok {A} a.
Arguments Err {A} e.

#[global] Instance result_ret : MRet result := fun A a => Ok a.
#[global] Instance result_bind : MBind result :=
  fun A B f m => match m with Ok a => f a | Err e => Err e end.

Definition is_Ok {A} (r : result A) : bool :=
  match r with Ok _ => true | Err _ => false end.

(** ** JavaScript values that the generator handles *)

Inductive JsValue : Type :=
  | JsNull
  | JsBoolean (b : bool)
  | JsNumber (z : Z)
  | JsString (s : string)
  | JsArray (items : list JsValue).

(** [if (v)] on a value. *)
Definition truthy (v : JsValue) : bool :=
  match v with
  | JsNull => false
  | JsBoolean b => b
  | JsNumber z => negb (Z.eqb z 0)
  | JsString s => negb (String.eqb s "")
  | JsArray _ => true
  end.

(** [if (s)] on a [string | undefined]. *)
Definition truthy_string (s : option string) : option string :=
  match s with
  | Some "" => None
  | Some s => Some s
  | None => None
  end.

(** [a || b] on [string | undefined] operands. *)
Definition js_or (a b : option string) : option string :=
  match truthy_string a with
  | Some s => Some s
  | None => b
  end.

(** Decimal rendering of an integer, as [Number.prototype.toString]. *)
Definition Z_toString (z : Z) : string := NilZero.string_of_int (Z.to_int z).

(** [Array.prototype.join]. *)
Fixpoint join (sep : string) (l : list string) : string :=
  match l with
  | [] => ""
  | [x] => x
  | x :: l' => x +:+ sep +:+ join sep l'
  end.

(** ** The ZModel abstract syntax tree (read only) *)

(** A langium cross reference: the text written in the source and the
    declaration it resolved to, if any. *)
Record Reference (T : Type) : Type := MkReference {
  refText : string;
  ref : option T
}.
Arguments MkReference {T} refText ref.
Arguments refText {T} r.
Arguments ref {T} r.

(** Modelled from the spec: the SDK helper [resolved], which is not among
    the sources.  Section 6: given a reference, return the resolved
    declaration; section 4.2: an unresolved reference is a hard error. *)
Definition resolved {T} (r : Reference T) : result T :=
  match ref r with
  | Some d => Ok d
  | None => Err (JsError ("Reference not resolved: " +:+ refText r))
  end.

Record FunctionDecl : Type := MkFunctionDecl {
  fn_name : string;
  fn_fromStdlib : bool
}.

(** The target of a [ReferenceExpr]: a field, an enum field or a function
    parameter; only its name is read. *)
Record ReferenceTarget : Type := MkReferenceTarget {
  rt_name : string
}.

Record ReferenceArg : Type := MkReferenceArg {
  ra_name : string;
  ra_value : string
}.

Inductive LiteralExpr : Type :=
  | StringLiteral (value : string)
  | NumberLiteral (value : Z)
  | BooleanLiteral (value : bool).

(** [expr.value] of a literal. *)
Definition literal_value (l : LiteralExpr) : JsValue :=
  match l with
  | StringLiteral s => JsString s
  | NumberLiteral z => JsNumber z
  | BooleanLiteral b => JsBoolean b
  end.

Inductive Expression : Type :=
  | ELiteral (l : LiteralExpr)
  | ArrayExpr (items : list Expression)
  | ReferenceExpr (target : Reference ReferenceTarget) (args : list ReferenceArg)
  | InvocationExpr (function : Reference FunctionDecl) (args : list Argument)
  | NullExpr
  | ThisExpr
  | MemberAccessExpr (operand : Expression) (member : Reference ReferenceTarget)
  | UnaryExpr (operator : string) (operand : Expression)
  | BinaryExpr (operator : string) (left right : Expression)
  | ObjectExpr (fields : list FieldInitializer)
with Argument : Type :=
  | MkArgument (name : option string) (value : Expression)
with FieldInitializer : Type :=
  | MkFieldInitializer (name : string) (value : Expression).

Definition arg_name (a : Argument) : option string :=
  match a with MkArgument n _ => n end.
Definition arg_value (a : Argument) : Expression :=
  match a with MkArgument _ v => v end.
Definition fi_value (f : FieldInitializer) : Expression :=
  match f with MkFieldInitializer _ v => v end.

Definition isLiteralExpr (e : Expression) : bool :=
  match e with ELiteral _ => true | _ => false end.
Definition isStringLiteral (e : Expression) : bool :=
  match e with ELiteral (StringLiteral _) => true | _ => false end.
Definition isNullExpr (e : Expression) : bool :=
  match e with NullExpr => true | _ => false end.
Definition isArrayExpr (e : Expression) : bool :=
  match e with ArrayExpr _ => true | _ => false end.
Definition isReferenceExpr (e : Expression) : bool :=
  match e with ReferenceExpr _ _ => true | _ => false end.
Definition isInvocationExpr (e : Expression) : bool :=
  match e with InvocationExpr _ _ => true | _ => false end.

Record AttributeArg : Type := MkAttributeArg {
  aa_name : option string;
  aa_value : Expression
}.

(** An attribute declaration ([attribute @id(...)]) with the
    meta-attributes it carries ([@@@prisma], [@@@targetField], ...). *)
Inductive Attribute : Type :=
  | MkAttribute (name : string) (attributes : list InternalAttribute)
with InternalAttribute : Type :=
  | MkInternalAttribute (decl : Reference Attribute) (args : list AttributeArg).

Definition attr_name (a : Attribute) : string :=
  match a with MkAttribute n _ => n end.
Definition attr_attributes (a : Attribute) : list InternalAttribute :=
  match a with MkAttribute _ l => l end.
Definition ia_decl (a : InternalAttribute) : Reference Attribute :=
  match a with MkInternalAttribute d _ => d end.

(** An attribute instance on a model, an enum or a field.  The source has
    two node types of the same shape, [DataModelAttribute] and
    [DataModelFieldAttribute]. *)
Record DataModelAttribute : Type := MkDataModelAttribute {
  decl : Reference Attribute;
  args : list AttributeArg
}.
Definition DataModelFieldAttribute : Type := DataModelAttribute.

(** ** The attribute classifier *)

Definition MODEL_PASSTHROUGH_ATTR : string := "@@prisma.passthrough".
Definition FIELD_PASSTHROUGH_ATTR : string := "@prisma.passthrough".

(** [a.decl.ref?.name === '@@@prisma'] *)
Definition is_prisma_marker (a : InternalAttribute) : bool :=
  match ref (ia_decl a) with
  | Some d => String.eqb (attr_name d) "@@@prisma"
  | None => false
  end.

Definition isPrismaAttribute (attr : DataModelAttribute) : bool :=
  match ref (decl attr) with
  | None => false
  | Some attrDecl =>
      existsb is_prisma_marker (attr_attributes attrDecl)
      || String.eqb (attr_name attrDecl) MODEL_PASSTHROUGH_ATTR
      || String.eqb (attr_name attrDecl) FIELD_PASSTHROUGH_ATTR
  end.

(** [attr.decl.ref && !this.isPrismaAttribute(attr)] *)
Definition isNonPrismaResolved (attr : DataModelAttribute) : bool :=
  match ref (decl attr) with
  | None => false
  | Some _ => negb (isPrismaAttribute attr)
  end.

(** ** The Prisma object model (prisma-builder)

    Modelled from the spec: the module [./prisma-builder] is not among the
    sources.  Section 3 lists its entities and section 4.1 its contract:
    every [add...] and [push] appends, and what was added is kept in the
    order added, with no reordering and no deduplication. *)

Record PrismaFieldReferenceArg : Type := MkPrismaFieldReferenceArg {
  fra_name : string;
  fra_value : string
}.

Record PrismaFieldReference : Type := MkPrismaFieldReference {
  fr_field : string;
  fr_args : list PrismaFieldReferenceArg
}.

Record PrismaFunctionCallArg : Type := MkPrismaFunctionCallArg {
  fca_name : option string;
  fca_value : string
}.

Record PrismaFunctionCall : Type := MkPrismaFunctionCall {
  fc_func : string;
  fc_args : list PrismaFunctionCallArg
}.

Inductive PrismaAttributeArgValue : Type :=
  | AVString (s : string)
  | AVNumber (z : Z)
  | AVBoolean (b : bool)
  | AVArray (items : list PrismaAttributeArgValue)
  | AVFieldReference (r : PrismaFieldReference)
  | AVFunctionCall (f : PrismaFunctionCall).

Record PrismaAttributeArg : Type := MkPrismaAttributeArg {
  paa_name : option string;
  paa_value : PrismaAttributeArgValue
}.

(** A target attribute: [FieldAttribute] and [ContainerAttribute] are
    structured (a name and translated arguments); [PassThroughAttribute]
    holds the text handed over by the schema author. *)
Inductive PrismaAttribute : Type :=
  | PrismaFieldAttribute (name : string) (args : list PrismaAttributeArg)
  | PrismaModelAttribute (name : string) (args : list PrismaAttributeArg)
  | PrismaPassThroughAttribute (text : JsValue).

Record ModelFieldType : Type := MkModelFieldType {
  mft_type : string;
  mft_array : bool;
  mft_optional : bool
}.

Record PrismaModelField : Type := MkPrismaModelField {
  pmf_name : string;
  pmf_type : ModelFieldType;
  pmf_attributes : list PrismaAttribute;
  pmf_documentations : list string
}.

Record PrismaEnumField : Type := MkPrismaEnumField {
  pef_name : string;
  pef_attributes : list PrismaAttribute;
  pef_documentations : list string
}.

Record PrismaDataModel : Type := MkPrismaDataModel {
  pm_name : string;
  pm_isView : bool;
  pm_fields : list PrismaModelField;
  pm_attributes : list PrismaAttribute;
  pm_documentations : list string
}.

Record PrismaEnum : Type := MkPrismaEnum {
  pe_name : string;
  pe_fields : list PrismaEnumField;
  pe_attributes : list PrismaAttribute;
  pe_documentations : list string
}.

Record SimpleField : Type := MkSimpleField {
  sf_name : string;
  sf_text : string
}.

Record PrismaDataSource : Type := MkPrismaDataSource {
  pds_name : string;
  pds_fields : list SimpleField
}.

Record PrismaGenerator : Type := MkPrismaGenerator {
  pg_name : string;
  pg_fields : list SimpleField
}.

Inductive PrismaDeclaration : Type :=
  | PDataSource (d : PrismaDataSource)
  | PGenerator (g : PrismaGenerator)
  | PEnum (e : PrismaEnum)
  | PModel (m : PrismaDataModel).

(** The target document: the declarations in the order added. *)
Record PrismaModel : Type := MkPrismaModel {
  declarations : list PrismaDeclaration
}.

Definition newPrismaModel : PrismaModel := MkPrismaModel [].

Definition addDeclaration (prisma : PrismaModel) (d : PrismaDeclaration) : PrismaModel :=
  MkPrismaModel (declarations prisma ++ [d]).

(** [model.addField(name, type, attributes, documentations)] *)
Definition addField (model : PrismaDataModel) (f : PrismaModelField) : PrismaDataModel :=
  MkPrismaDataModel (pm_name model) (pm_isView model) (pm_fields model ++ [f])
    (pm_attributes model) (pm_documentations model).

(** [container.attributes.push(a)] *)
Definition pushModelAttribute (model : PrismaDataModel) (a : PrismaAttribute) : PrismaDataModel :=
  MkPrismaDataModel (pm_name model) (pm_isView model) (pm_fields model)
    (pm_attributes model ++ [a]) (pm_documentations model).

(** [model.addComment(c)] *)
Definition addModelComment (model : PrismaDataModel) (c : string) : PrismaDataModel :=
  MkPrismaDataModel (pm_name model) (pm_isView model) (pm_fields model)
    (pm_attributes model) (pm_documentations model ++ [c]).

Definition addEnumField (e : PrismaEnum) (f : PrismaEnumField) : PrismaEnum :=
  MkPrismaEnum (pe_name e) (pe_fields e ++ [f]) (pe_attributes e) (pe_documentations e).

Definition pushEnumAttribute (e : PrismaEnum) (a : PrismaAttribute) : PrismaEnum :=
  MkPrismaEnum (pe_name e) (pe_fields e) (pe_attributes e ++ [a]) (pe_documentations e).

Definition addEnumComment (e : PrismaEnum) (c : string) : PrismaEnum :=
  MkPrismaEnum (pe_name e) (pe_fields e) (pe_attributes e) (pe_documentations e ++ [c]).

(** [result.addComment(c)] on a field handle. *)
Definition addFieldComment (f : PrismaModelField) (c : string) : PrismaModelField :=
  MkPrismaModelField (pmf_name f) (pmf_type f) (pmf_attributes f)
    (pmf_documentations f ++ [c]).

(** [FunctionCallArg.toString] and [FunctionCall.toString]: [name(args...)]. *)
Definition PrismaFunctionCallArg_toString (a : PrismaFunctionCallArg) : string :=
  match fca_name a with
  | Some n => if String.eqb n "" then fca_value a else n +:+ ": " +:+ fca_value a
  | None => fca_value a
  end.

Definition PrismaFunctionCall_toString (f : PrismaFunctionCall) : string :=
  fc_func f +:+ "(" +:+ join ", " (map PrismaFunctionCallArg_toString (fc_args f)) +:+ ")".

(** ** The expression translator *)

(** The name exported by the plugin's index module ([import { name } from '.']). *)
Definition plugin_name : string := "Prisma".

Definition dquote : string := String (ascii_of_nat 34) EmptyString.

(** [v.value.toString()] on a literal. *)
Definition literal_toString (l : LiteralExpr) : string :=
  match l with
  | StringLiteral v => v
  | NumberLiteral v => Z_toString v
  | BooleanLiteral v => if v then "true" else "false"
  end.

Definition makeFunctionCallArg (arg : Argument) : result PrismaFunctionCallArg :=
  val ← match arg_value arg with
        | ELiteral (StringLiteral v) => Ok (dquote +:+ v +:+ dquote)
        | ELiteral l => Ok (literal_toString l)
        | NullExpr => Ok "null"
        | _ => Err (PluginError plugin_name "Function call argument must be literal or null")
        end;
  Ok (MkPrismaFunctionCallArg (arg_name arg) val).

Definition makeFunctionCall (function : Reference FunctionDecl) (args : list Argument)
  : result PrismaFunctionCall :=
  f ← resolved function;
  args' ← mapM makeFunctionCallArg args;
  Ok (MkPrismaFunctionCall (fn_name f) args').

(** [node.$type] *)
Definition expr_type (e : Expression) : string :=
  match e with
  | ELiteral (StringLiteral _) => "StringLiteral"
  | ELiteral (NumberLiteral _) => "NumberLiteral"
  | ELiteral (BooleanLiteral _) => "BooleanLiteral"
  | ArrayExpr _ => "ArrayExpr"
  | ReferenceExpr _ _ => "ReferenceExpr"
  | InvocationExpr _ _ => "InvocationExpr"
  | NullExpr => "NullExpr"
  | ThisExpr => "ThisExpr"
  | MemberAccessExpr _ _ => "MemberAccessExpr"
  | UnaryExpr _ _ => "UnaryExpr"
  | BinaryExpr _ _ _ => "BinaryExpr"
  | ObjectExpr _ => "ObjectExpr"
  end.

Fixpoint makeAttributeArgValue (node : Expression) : result PrismaAttributeArgValue :=
  match node with
  | ELiteral (StringLiteral v) => Ok (AVString v)
  | ELiteral (NumberLiteral v) => Ok (AVNumber v)
  | ELiteral (BooleanLiteral v) => Ok (AVBoolean v)
  | ArrayExpr items =>
      items' ← mapM makeAttributeArgValue items;
      Ok (AVArray items')
  | ReferenceExpr target args =>
      t ← resolved target;
      Ok (AVFieldReference
            (MkPrismaFieldReference (rt_name t)
               (map (fun arg => MkPrismaFieldReferenceArg (ra_name arg) (ra_value arg)) args)))
  | InvocationExpr function args =>
      fc ← makeFunctionCall function args;
      Ok (AVFunctionCall fc)
  | _ =>
      Err (PluginError plugin_name
             ("Unsupported attribute argument expression type: " +:+ expr_type node))
  end.

Definition makeAttributeArg (arg : AttributeArg) : result PrismaAttributeArg :=
  v ← makeAttributeArgValue (aa_value arg);
  Ok (MkPrismaAttributeArg (aa_name arg) v).


(** ** Declarations of the ZModel document *)

Record UnsupportedFieldType : Type := MkUnsupportedFieldType {
  uft_value : Expression
}.

(** The declaration a field's type refers to (a model or an enum). *)
Record TypeDeclaration : Type := MkTypeDeclaration {
  td_name : string
}.

Record DataModelFieldType : Type := MkDataModelFieldType {
  type : option string;
  reference : option (Reference TypeDeclaration);
  unsupported : option UnsupportedFieldType;
  array : bool;
  optional : bool
}.

Record DataModelField : Type := MkDataModelField {
  field_container_name : string;          (* [field.$container.name] *)
  field_name : string;
  field_type : DataModelFieldType;
  field_attributes : list DataModelFieldAttribute;
  field_comments : list string
}.

Record DataModel : Type := MkDataModel {
  dm_name : string;
  dm_isView : bool;
  dm_fields : list DataModelField;
  dm_attributes : list DataModelAttribute;
  dm_comments : list string
}.

Record EnumField : Type := MkEnumField {
  ef_name : string;
  ef_attributes : list DataModelFieldAttribute;
  ef_comments : list string
}.

Record Enum : Type := MkEnum {
  enum_name : string;
  enum_fields : list EnumField;
  enum_attributes : list DataModelAttribute;
  enum_comments : list string
}.

Record ConfigInvocationArg : Type := MkConfigInvocationArg {
  cia_name : string;
  cia_value : LiteralExpr
}.

Inductive ConfigArrayItem : Type :=
  | ItemLiteral (l : LiteralExpr)
  | ItemInvocation (name : string) (args : list ConfigInvocationArg).

Inductive ConfigExpr : Type :=
  | ConfigLiteral (l : LiteralExpr)
  | ConfigInvocation (function : Reference FunctionDecl) (args : list Argument)
  | ConfigArrayExpr (items : list ConfigArrayItem).

Record ConfigField : Type := MkConfigField {
  cf_name : string;
  cf_value : ConfigExpr
}.

Record DataSource : Type := MkDataSource {
  ds_name : string;
  ds_fields : list ConfigField
}.

Record GeneratorDecl : Type := MkGeneratorDecl {
  gen_name : string;
  gen_fields : list ConfigField
}.

(** A top-level declaration, by its [$type]; the driver's [switch] has a
    case for four of them and falls through on the others (attribute and
    function declarations, plugins). *)
Inductive AbstractDeclaration : Type :=
  | DeclDataSource (d : DataSource)
  | DeclEnum (e : Enum)
  | DeclDataModel (m : DataModel)
  | DeclGenerator (g : GeneratorDecl)
  | DeclOther (type_name : string).

Record Model : Type := MkModel {
  model_declarations : list AbstractDeclaration
}.

(** ** SDK helpers

    Modelled from the spec: [getLiteral], [getStringLiteral], [getAttribute],
    [isAuthInvocation] (SDK and validator utilities) and langium's
    [streamAst] are not among the sources.  Section 6: the
    literal-extraction helper returns an expression's scalar literal value
    or undefined.  Section 3: the default-value expression "contains" the
    current-identity function. *)

Definition getLiteral (expr : Expression) : option JsValue :=
  match expr with
  | ELiteral l => Some (literal_value l)
  | _ => None
  end.

Definition getStringLiteral (node : Expression) : option string :=
  match node with
  | ELiteral (StringLiteral v) => Some v
  | _ => None
  end.

(** [decl.attributes.find((attr) => attr.decl.$refText === name)] *)
Definition getAttribute (attributes : list DataModelAttribute) (name : string)
  : option DataModelAttribute :=
  List.find (fun attr => String.eqb (refText (decl attr)) name) attributes.

(** The invocation of [auth()] from the standard library. *)
Definition isAuthInvocation (node : Expression) : bool :=
  match node with
  | InvocationExpr function _ =>
      match ref function with
      | Some f => String.eqb (fn_name f) "auth" && fn_fromStdlib f
      | None => false
      end
  | _ => false
  end.

(** All expression nodes contained in [root], the root included, in
    document order. *)
Fixpoint streamAst (root : Expression) : list Expression :=
  root ::
  match root with
  | ArrayExpr items => flat_map streamAst items
  | InvocationExpr _ args =>
      flat_map (fun a => match a with MkArgument _ v => streamAst v end) args
  | MemberAccessExpr operand _ => streamAst operand
  | UnaryExpr _ operand => streamAst operand
  | BinaryExpr _ lhs rhs => streamAst lhs ++ streamAst rhs
  | ObjectExpr fields =>
      flat_map (fun f => match f with MkFieldInitializer _ v => streamAst v end) fields
  | _ => []
  end.

(** ** The schema generator: models and enums *)

Section PrismaSchemaGenerator.

(** [this.zModelGenerator.generate]: the ZModel source text of an
    attribute instance.  [ZModelCodeGenerator] belongs to the SDK. *)
Variable zModelGenerator_generate : DataModelAttribute -> string.

Definition getUnsupportedFieldType (fieldType : DataModelFieldType) : option string :=
  match unsupported fieldType with
  | Some u =>
      match truthy_string (getStringLiteral (uft_value u)) with
      | Some value => Some ("Unsupported(" +:+ dquote +:+ value +:+ dquote +:+ ")")
      | None => None
      end
  | None => None
  end.

(** [field.type.reference?.ref?.name] *)
Definition referenceName (fieldType : DataModelFieldType) : option string :=
  match reference fieldType with
  | Some r => match ref r with Some d => Some (td_name d) | None => None end
  | None => None
  end.

(** [field.type.type || field.type.reference?.ref?.name ||
     this.getUnsupportedFieldType(field.type)] *)
Definition resolveFieldType (fieldType : DataModelFieldType) : option string :=
  truthy_string
    (js_or (js_or (type fieldType) (referenceName fieldType))
       (getUnsupportedFieldType fieldType)).

Definition hasDefaultWithAuth (field : DataModelField) : bool :=
  match getAttribute (field_attributes field) "@default" with
  | None => false
  | Some defaultAttr =>
      match args defaultAttr with
      | [] => false                          (* [args[0]?.value] is undefined *)
      | arg0 :: _ => existsb isAuthInvocation (streamAst (aa_value arg0))
      end
  end.

Definition makeFieldAttribute (attr : DataModelFieldAttribute) : result PrismaAttribute :=
  attrDecl ← resolved (decl attr);
  let attrName := attr_name attrDecl in
  if String.eqb attrName FIELD_PASSTHROUGH_ATTR then
    match args attr with
    | [] => Err TypeError                    (* [attr.args[0].value] *)
    | arg0 :: _ =>
        match getLiteral (aa_value arg0) with
        | Some text =>
            if truthy text then Ok (PrismaPassThroughAttribute text)
            else Err (PluginError plugin_name
                        ("Invalid arguments for " +:+ FIELD_PASSTHROUGH_ATTR +:+ " attribute"))
        | None =>
            Err (PluginError plugin_name
                   ("Invalid arguments for " +:+ FIELD_PASSTHROUGH_ATTR +:+ " attribute"))
        end
    end
  else
    args' ← mapM makeAttributeArg (args attr);
    Ok (PrismaFieldAttribute attrName args').

Definition getAttributesToGenerate (field : DataModelField) : result (list PrismaAttribute) :=
  if hasDefaultWithAuth field then Ok []
  else mapM makeFieldAttribute (List.filter isPrismaAttribute (field_attributes field)).

(** [generateContainerAttribute(container, attr)], on [container.attributes]:
    the attribute list after the call. *)
Definition generateContainerAttribute (attributes : list PrismaAttribute)
    (attr : DataModelAttribute) : result (list PrismaAttribute) :=
  attrDecl ← resolved (decl attr);
  let attrName := attr_name attrDecl in
  if String.eqb attrName MODEL_PASSTHROUGH_ATTR then
    match args attr with
    | [] => Err TypeError                    (* [attr.args[0].value] *)
    | arg0 :: _ =>
        match getLiteral (aa_value arg0) with
        | Some text =>
            if truthy text then Ok (attributes ++ [PrismaPassThroughAttribute text])
            else Ok attributes
        | None => Ok attributes
        end
    end
  else
    args' ← mapM makeAttributeArg (args attr);
    Ok (attributes ++ [PrismaModelAttribute attrName args']).

(** [for (const x of xs) { body }] over a state that [body] updates. *)
Fixpoint forEachM {S A : Type} (body : S -> A -> result S) (s : S) (xs : list A) : result S :=
  match xs with
  | [] => Ok s
  | x :: xs' => s' ← body s x; forEachM body s' xs'
  end.

Definition docLine (attr : DataModelAttribute) : string :=
  "/// " +:+ zModelGenerator_generate attr.

Definition generateModelField (model : PrismaDataModel) (field : DataModelField)
  : result PrismaDataModel :=
  match resolveFieldType (field_type field) with
  | None =>
      Err (PluginError plugin_name
             ("Field type is not resolved: " +:+ field_container_name field +:+ "."
                +:+ field_name field))
  | Some fieldType =>
      let type := MkModelFieldType fieldType (array (field_type field))
                    (optional (field_type field)) in
      attributes ← getAttributesToGenerate field;
      let nonPrismaAttributes := List.filter isNonPrismaResolved (field_attributes field) in
      let documentations := map docLine nonPrismaAttributes in
      let result := MkPrismaModelField (field_name field) type attributes documentations in
      Ok (addField model (fold_left addFieldComment (field_comments field) result))
  end.

Definition newModel (decl : DataModel) : PrismaDataModel :=
  MkPrismaDataModel (dm_name decl) (dm_isView decl) [] [] [].

Definition setModelAttributes (model : PrismaDataModel) (attributes : list PrismaAttribute)
  : PrismaDataModel :=
  MkPrismaDataModel (pm_name model) (pm_isView model) (pm_fields model)
    attributes (pm_documentations model).

Definition generateModel (prisma : PrismaModel) (decl : DataModel) : result PrismaModel :=
  let model := newModel decl in             (* [prisma.addView] / [prisma.addModel] *)
  model ← forEachM generateModelField model (dm_fields decl);
  attributes ← forEachM generateContainerAttribute (pm_attributes model)
                 (List.filter isPrismaAttribute (dm_attributes decl));
  let model := setModelAttributes model attributes in
  let model := fold_left addModelComment
                 (map docLine (List.filter isNonPrismaResolved (dm_attributes decl))) model in
  (* user defined comments pass-through *)
  let model := fold_left addModelComment (dm_comments decl) model in
  Ok (addDeclaration prisma (PModel model)).

Definition generateEnumField (_enum : PrismaEnum) (field : EnumField) : result PrismaEnum :=
  attributes ← mapM makeFieldAttribute (List.filter isPrismaAttribute (ef_attributes field));
  let nonPrismaAttributes := List.filter isNonPrismaResolved (ef_attributes field) in
  let documentations := map docLine nonPrismaAttributes in
  Ok (addEnumField _enum (MkPrismaEnumField (ef_name field) attributes documentations)).

Definition newEnum (decl : Enum) : PrismaEnum :=
  MkPrismaEnum (enum_name decl) [] [] [].

Definition setEnumAttributes (e : PrismaEnum) (attributes : list PrismaAttribute) : PrismaEnum :=
  MkPrismaEnum (pe_name e) (pe_fields e) attributes (pe_documentations e).

Definition generateEnum (prisma : PrismaModel) (decl : Enum) : result PrismaModel :=
  let _enum := newEnum decl in              (* [prisma.addEnum] *)
  _enum ← forEachM generateEnumField _enum (enum_fields decl);
  attributes ← forEachM generateContainerAttribute (pe_attributes _enum)
                 (List.filter isPrismaAttribute (enum_attributes decl));
  let _enum := setEnumAttributes _enum attributes in
  let _enum := fold_left addEnumComment
                 (map docLine (List.filter isNonPrismaResolved (enum_attributes decl))) _enum in
  (* user defined comments pass-through *)
  let _enum := fold_left addEnumComment (enum_comments decl) _enum in
  Ok (addDeclaration prisma (PEnum _enum)).

End PrismaSchemaGenerator.

(** ** JSON text

    [JSON.stringify] and [JSON.parse] on the values of [JsValue]: null,
    booleans, integers, strings and arrays.  This is the JSON that
    [configExprToText] can produce; objects, fractions and exponents, and
    [\u] escapes above the ASCII range, are outside the model and are
    reported as a syntax error. *)

Definition dq : ascii := ascii_of_nat 34.
Definition backslash : ascii := ascii_of_nat 92.

Definition hex_digit (n : N) : ascii :=
  if (n <? 10)%N then ascii_of_N (48 + n) else ascii_of_N (87 + n).

(** [QuoteJSONString] on one code unit. *)
Definition escape_char (c : ascii) : string :=
  let n := N_of_ascii c in
  if (n =? 8)%N then "\b"
  else if (n =? 9)%N then "\t"
  else if (n =? 10)%N then "\n"
  else if (n =? 12)%N then "\f"
  else if (n =? 13)%N then "\r"
  else if (n =? 34)%N then String backslash (String dq EmptyString)
  else if (n =? 92)%N then "\\"
  else if (n <? 32)%N then
    "\u00" +:+ String (hex_digit (n / 16)) (String (hex_digit (n mod 16)) EmptyString)
  else String c EmptyString.

Fixpoint escape_string (s : string) : string :=
  match s with
  | EmptyString => EmptyString
  | String c r => escape_char c +:+ escape_string r
  end.

Definition quote_string (s : string) : string :=
  String dq (escape_string s +:+ String dq EmptyString).

Fixpoint JSON_stringify (v : JsValue) : string :=
  match v with
  | JsNull => "null"
  | JsBoolean true => "true"
  | JsBoolean false => "false"
  | JsNumber z => Z_toString z
  | JsString s => quote_string s
  | JsArray items => "[" +:+ join "," (map JSON_stringify items) +:+ "]"
  end.

Definition is_ws (c : ascii) : bool :=
  let n := N_of_ascii c in
  ((n =? 32) || (n =? 9) || (n =? 10) || (n =? 13))%N.

Fixpoint skip_ws (s : string) : string :=
  match s with
  | String c r => if is_ws c then skip_ws r else s
  | EmptyString => s
  end.

Definition unhex (c : ascii) : option N :=
  let n := N_of_ascii c in
  if ((48 <=? n) && (n <=? 57))%N then Some (n - 48)%N
  else if ((97 <=? n) && (n <=? 102))%N then Some (n - 87)%N
  else if ((65 <=? n) && (n <=? 70))%N then Some (n - 55)%N
  else None.

Definition unhex4 (a b c d : ascii) : option ascii :=
  match unhex a, unhex b, unhex c, unhex d with
  | Some x, Some y, Some z, Some w =>
      let n := (((x * 16 + y) * 16 + z) * 16 + w)%N in
      if (n <? 128)%N then Some (ascii_of_N n) else None
  | _, _, _, _ => None
  end.

Definition unescape (e : ascii) : option ascii :=
  let n := N_of_ascii e in
  if (n =? 34)%N then Some dq
  else if (n =? 92)%N then Some backslash
  else if (n =? 47)%N then Some "/"%char
  else if (n =? 98)%N then Some (ascii_of_nat 8)
  else if (n =? 102)%N then Some (ascii_of_nat 12)
  else if (n =? 110)%N then Some (ascii_of_nat 10)
  else if (n =? 114)%N then Some (ascii_of_nat 13)
  else if (n =? 116)%N then Some (ascii_of_nat 9)
  else None.

Definition cons_char (c : ascii) (r : option (string * string)) : option (string * string) :=
  match r with
  | Some (t, rest) => Some (String c t, rest)
  | None => None
  end.

(** The characters of a string after its opening quote, up to the closing
    quote; returns the string and the text after it. *)
Fixpoint parse_chars (s : string) : option (string * string) :=
  match s with
  | EmptyString => None
  | String c r =>
      if Ascii.eqb c dq then Some (EmptyString, r)
      else if Ascii.eqb c backslash then
        match r with
        | String e r1 =>
            if Ascii.eqb e "u" then
              match r1 with
              | String h1 (String h2 (String h3 (String h4 r2))) =>
                  match unhex4 h1 h2 h3 h4 with
                  | Some ch => cons_char ch (parse_chars r2)
                  | None => None
                  end
              | _ => None
              end
            else
              match unescape e with
              | Some ch => cons_char ch (parse_chars r1)
              | None => None
              end
        | EmptyString => None
        end
      else if (N_of_ascii c <? 32)%N then None
      else cons_char c (parse_chars r)
  end.

Definition digit_of (c : ascii) : option (Decimal.uint -> Decimal.uint) :=
  let n := N_of_ascii c in
  if (n =? 48)%N then Some Decimal.D0
  else if (n =? 49)%N then Some Decimal.D1
  else if (n =? 50)%N then Some Decimal.D2
  else if (n =? 51)%N then Some Decimal.D3
  else if (n =? 52)%N then Some Decimal.D4
  else if (n =? 53)%N then Some Decimal.D5
  else if (n =? 54)%N then Some Decimal.D6
  else if (n =? 55)%N then Some Decimal.D7
  else if (n =? 56)%N then Some Decimal.D8
  else if (n =? 57)%N then Some Decimal.D9
  else None.

(** The longest prefix of decimal digits, and the text after it. *)
Fixpoint parse_digits (s : string) : Decimal.uint * string :=
  match s with
  | EmptyString => (Decimal.Nil, s)
  | String c r =>
      match digit_of c with
      | Some d => let '(u, rest) := parse_digits r in (d u, rest)
      | None => (Decimal.Nil, s)
      end
  end.

(** What may not follow the integer part in this model: a fraction or an
    exponent. *)
Definition starts_fraction (s : string) : bool :=
  match s with
  | String c _ => Ascii.eqb c "." || Ascii.eqb c "e" || Ascii.eqb c "E"
  | EmptyString => false
  end.

Definition parse_unsigned (s : string) : option (Decimal.uint * string) :=
  match parse_digits s with
  | (Decimal.Nil, _) => None
  | (Decimal.D0 Decimal.Nil, rest) =>
      if starts_fraction rest then None else Some (Decimal.D0 Decimal.Nil, rest)
  | (Decimal.D0 _, _) => None                      (* no leading zero *)
  | (u, rest) => if starts_fraction rest then None else Some (u, rest)
  end.

Definition parse_number (s : string) : option (JsValue * string) :=
  match s with
  | String c r =>
      if Ascii.eqb c "-" then
        match parse_unsigned r with
        | Some (u, rest) => Some (JsNumber (Z.of_int (Decimal.Neg u)), rest)
        | None => None
        end
      else
        match parse_unsigned s with
        | Some (u, rest) => Some (JsNumber (Z.of_int (Decimal.Pos u)), rest)
        | None => None
        end
  | EmptyString => None
  end.

Fixpoint strip_prefix (p s : string) : option string :=
  match p with
  | EmptyString => Some s
  | String a p' =>
      match s with
      | String b s' => if Ascii.eqb a b then strip_prefix p' s' else None
      | EmptyString => None
      end
  end.

(** A JSON value at the head of [s] (after white space) and the text after
    it.  [fuel] bounds the nesting and the number of elements; the length
    of the text is enough. *)
Fixpoint parse_value (fuel : nat) (s : string) : option (JsValue * string) :=
  match fuel with
  | O => None
  | S fuel' =>
      let s := skip_ws s in
      match s with
      | EmptyString => None
      | String c r =>
          if Ascii.eqb c "[" then
            match skip_ws r with
            | String c' r' =>
                if Ascii.eqb c' "]" then Some (JsArray [], r')
                else
                  match parse_elements fuel' r with
                  | Some (items, rest) => Some (JsArray items, rest)
                  | None => None
                  end
            | EmptyString => None
            end
          else if Ascii.eqb c dq then
            match parse_chars r with
            | Some (t, rest) => Some (JsString t, rest)
            | None => None
            end
          else if Ascii.eqb c "n" then
            match strip_prefix "null" s with
            | Some rest => Some (JsNull, rest)
            | None => None
            end
          else if Ascii.eqb c "t" then
            match strip_prefix "true" s with
            | Some rest => Some (JsBoolean true, rest)
            | None => None
            end
          else if Ascii.eqb c "f" then
            match strip_prefix "false" s with
            | Some rest => Some (JsBoolean false, rest)
            | None => None
            end
          else parse_number s
      end
  end
with parse_elements (fuel : nat) (s : string) : option (list JsValue * string) :=
  match fuel with
  | O => None
  | S fuel' =>
      match parse_value fuel' s with
      | Some (v, rest) =>
          match skip_ws rest with
          | String c r =>
              if Ascii.eqb c "," then
                match parse_elements fuel' r with
                | Some (vs, rest') => Some (v :: vs, rest')
                | None => None
                end
              else if Ascii.eqb c "]" then Some ([v], r)
              else None
          | EmptyString => None
          end
      | None => None
      end
  end.

(** [JSON.parse(text)]; [None] is the [SyntaxError]. *)
Definition JSON_parse (text : string) : option JsValue :=
  match parse_value (S (String.length text)) text with
  | Some (v, rest) =>
      match skip_ws rest with
      | EmptyString => Some v
      | _ => None
      end
  | None => None
  end.

(** [array.includes(s)] for a string [s]. *)
Definition includes (items : list JsValue) (s : string) : bool :=
  existsb (fun v => match v with JsString t => String.eqb t s | _ => false end) items.

(** ** Semantic versions

    Modelled from the spec: [semver.lt] belongs to the [semver] package.
    Section 4.5: major.minor.patch ordering, per the standard precedence
    rules (a pre-release precedes its release; numeric identifiers precede
    alphanumeric ones). *)

Inductive PrereleaseId : Type :=
  | NumericId (n : N)
  | AlphaId (s : string).

Record SemVer : Type := MkSemVer {
  major : N;
  minor : N;
  patch : N;
  prerelease : list PrereleaseId
}.

Definition compareIdentifiers (a b : PrereleaseId) : comparison :=
  match a, b with
  | NumericId x, NumericId y => N.compare x y
  | NumericId _, AlphaId _ => Lt
  | AlphaId _, NumericId _ => Gt
  | AlphaId x, AlphaId y => String.compare x y
  end.

Fixpoint comparePre (a b : list PrereleaseId) : comparison :=
  match a, b with
  | [], [] => Eq
  | [], _ :: _ => Lt
  | _ :: _, [] => Gt
  | x :: a', y :: b' =>
      match compareIdentifiers x y with
      | Eq => comparePre a' b'
      | c => c
      end
  end.

Definition semver_compare (a b : SemVer) : comparison :=
  match N.compare (major a) (major b) with
  | Eq =>
      match N.compare (minor a) (minor b) with
      | Eq =>
          match N.compare (patch a) (patch b) with
          | Eq =>
              match prerelease a, prerelease b with
              | [], [] => Eq
              | _ :: _, [] => Lt
              | [], _ :: _ => Gt
              | pa, pb => comparePre pa pb
              end
          | c => c
          end
      | c => c
      end
  | c => c
  end.

Definition semver_lt (a b : SemVer) : bool :=
  match semver_compare a b with Lt => true | _ => false end.

Definition v5_0_0 : SemVer := MkSemVer 5 0 0 [].

(** ** The schema generator: configuration blocks and the driver *)

Section Driver.

Variable zModelGenerator_generate : DataModelAttribute -> string.

(** [getPrismaVersion()]: the installed Prisma version, if detected. *)
Variable getPrismaVersion : option SemVer.

Definition literalToText (expr : LiteralExpr) : string :=
  JSON_stringify (literal_value expr).

Definition configInvocationArgToText (arg : ConfigInvocationArg) : string :=
  cia_name arg +:+ ": " +:+ literalToText (cia_value arg).

Definition configArrayItemToText (item : ConfigArrayItem) : string :=
  match item with
  | ItemLiteral l => literalToText l
  | ItemInvocation name args =>
      name +:+
      (if (0 <? length args)%nat
       then "(" +:+ join ", " (map configInvocationArgToText args) +:+ ")"
       else "")
  end.

Definition configArrayToText (items : list ConfigArrayItem) : string :=
  "[" +:+ join ", " (map configArrayItemToText items) +:+ "]".

Definition configExprToText (expr : ConfigExpr) : result string :=
  match expr with
  | ConfigLiteral l => Ok (literalToText l)
  | ConfigInvocation function args =>
      fc ← makeFunctionCall function args;
      Ok (PrismaFunctionCall_toString fc)
  | ConfigArrayExpr items => Ok (configArrayToText items)
  end.

Definition configFieldToSimpleField (f : ConfigField) : result SimpleField :=
  text ← configExprToText (cf_value f);
  Ok (MkSimpleField (cf_name f) text).

Definition generateDataSource (prisma : PrismaModel) (dataSource : DataSource)
  : result PrismaModel :=
  fields ← mapM configFieldToSimpleField (ds_fields dataSource);
  Ok (addDeclaration prisma (PDataSource (MkPrismaDataSource (ds_name dataSource) fields))).

(** [fields.find((f) => f.name === name)] *)
Definition findField (name : string) (fields : list SimpleField) : option SimpleField :=
  List.find (fun f => String.eqb (sf_name f) name) fields.

(** [curr.text = text] on the first field called [name]. *)
Fixpoint setFieldText (name text : string) (fields : list SimpleField) : list SimpleField :=
  match fields with
  | [] => []
  | f :: fields' =>
      if String.eqb (sf_name f) name then MkSimpleField (sf_name f) text :: fields'
      else f :: setFieldText name text fields'
  end.

(** [if (!a.includes(flag)) a.push(flag)] *)
Definition pushIfAbsent (previewFeatures : list JsValue) (flag : string) : list JsValue :=
  if includes previewFeatures flag then previewFeatures
  else previewFeatures ++ [JsString flag].

(** The two pre-V5 opt-in features, under their version guards. *)
Definition addPreviewFeatures (prismaVersion : SemVer) (previewFeatures : list JsValue)
  : list JsValue :=
  let previewFeatures :=
    if semver_lt prismaVersion v5_0_0
    then pushIfAbsent previewFeatures "extendedWhereUnique" else previewFeatures in
  if semver_lt prismaVersion v5_0_0
  then pushIfAbsent previewFeatures "fieldReference" else previewFeatures.

(** The configuration of the PrismaClient preview features, on the fields
    of the generator that was just added (lines 229 to 265). *)
Definition configurePreviewFeatures (fields : list SimpleField) : result (list SimpleField) :=
  match findField "provider" fields with
  | None => Ok fields
  | Some provider =>
      if String.eqb (sf_text provider) (JSON_stringify (JsString "prisma-client-js")) then
        match getPrismaVersion with
        | None => Ok fields
        | Some prismaVersion =>
            let text := match findField "previewFeatures" fields with
                        | Some f => sf_text f
                        | None => "[]"
                        end in
            match JSON_parse text with
            | None => Err SyntaxError
            | Some (JsArray previewFeatures) =>
                let previewFeatures := addPreviewFeatures prismaVersion previewFeatures in
                if (0 <? length previewFeatures)%nat then
                  match findField "previewFeatures" fields with
                  | None =>
                      Ok (fields ++ [MkSimpleField "previewFeatures"
                                       (JSON_stringify (JsArray previewFeatures))])
                  | Some _ =>
                      Ok (setFieldText "previewFeatures"
                            (JSON_stringify (JsArray previewFeatures)) fields)
                  end
                else Ok fields
            | Some _ =>
                Err (PluginError plugin_name
                       ("option " +:+ dquote +:+ "previewFeatures" +:+ dquote
                          +:+ " must be an array"))
            end
        end
      else Ok fields
  end.

Definition generateGenerator (prisma : PrismaModel) (decl : GeneratorDecl)
  : result PrismaModel :=
  fields ← mapM configFieldToSimpleField (gen_fields decl);
  fields ← configurePreviewFeatures fields;
  Ok (addDeclaration prisma (PGenerator (MkPrismaGenerator (gen_name decl) fields))).

Definition generateDeclaration (prisma : PrismaModel) (decl : AbstractDeclaration)
  : result PrismaModel :=
  match decl with
  | DeclDataSource d => generateDataSource prisma d
  | DeclEnum e => generateEnum zModelGenerator_generate prisma e
  | DeclDataModel m => generateModel zModelGenerator_generate prisma m
  | DeclGenerator g => generateGenerator prisma g
  | DeclOther _ => Ok prisma
  end.

(** The object model that [generate] builds (lines 99 to 119), before it
    is serialised and written. *)
Definition generate (model : Model) : result PrismaModel :=
  forEachM generateDeclaration newPrismaModel (model_declarations model).

End Driver.

(** ** Runtime: id fields of a model *)

Record FieldInfo : Type := MkFieldInfo {
  fi_name : string;
  fi_type : string;
  isId : bool
}.

(** [modelMeta.fields]: per model (by lower-case-first name) the fields in
    property order. *)
Record ModelMeta : Type := MkModelMeta {
  fields : gmap string (list (string * FieldInfo))
}.

Definition toLowerCase (c : ascii) : ascii :=
  let n := N_of_ascii c in
  if ((65 <=? n) && (n <=? 90))%N then ascii_of_N (n + 32) else c.

(** [lowerCaseFirst] of the [lower-case-first] package, on ASCII. *)
Definition lowerCaseFirst (s : string) : string :=
  match s with
  | EmptyString => EmptyString
  | String c r => String (toLowerCase c) r
  end.

(** [Object.values(o)] *)
Definition Object_values {A} (o : list (string * A)) : list A := map snd o.

Definition getIdFields (modelMeta : ModelMeta) (model : string) (throwIfNotFound : bool)
  : result (list FieldInfo) :=
  fields ← match fields modelMeta !! lowerCaseFirst model with
           | Some fields => Ok fields
           | None =>
               if throwIfNotFound
               then Err (JsError ("Unable to load fields for " +:+ model))
               else Ok []
           end;
  let result := List.filter isId (Object_values fields) in
  if (length result =? 0)%nat && throwIfNotFound
  then Err (JsError ("model " +:+ model +:+ " does not have an id field"))
  else Ok result.

(** ** Definitions used by the properties

    Relations and functions that follow the specification's words, and
    sample inputs. *)

(** The resolved declaration carries the marker attribute [@@@prisma]. *)
Definition carries_prisma_marker (d : Attribute) : Prop :=
  exists a m, In a (attr_attributes d) /\ ref (ia_decl a) = Some m /\ attr_name m = "@@@prisma".

(** The classifier as section 4.3 words it. *)
Definition emittable (attr : DataModelAttribute) : Prop :=
  exists d, ref (decl attr) = Some d /\
    (carries_prisma_marker d
     \/ attr_name d = "@@prisma.passthrough"
     \/ attr_name d = "@prisma.passthrough").

(** The argument of a pass-through attribute gives a text to emit. *)
Definition yields_text (e : Expression) : bool :=
  match getLiteral e with
  | Some v => truthy v
  | None => false
  end.

Definition invalidPassThrough : Error :=
  PluginError plugin_name "Invalid arguments for @prisma.passthrough attribute".

Definition passThroughInstance (refText : string) (d : Attribute) (args : list AttributeArg)
  : DataModelAttribute :=
  MkDataModelAttribute (MkReference refText (Some d)) args.

(** The unsupported-type escape, [Unsupported("...")], of a field type. *)
Definition unsupportedEscape (fieldType : DataModelFieldType) : option string :=
  match unsupported fieldType with
  | Some (MkUnsupportedFieldType (ELiteral (StringLiteral (String c r)))) =>
      Some ("Unsupported(" +:+ dquote +:+ String c r +:+ dquote +:+ ")")
  | _ => None
  end.

(** The target type by priority: the scalar type name if present, otherwise
    the resolved reference name, otherwise the unsupported-type escape. *)
Definition targetTypeName (fieldType : DataModelFieldType) : option string :=
  match type fieldType with
  | Some (String c r) => Some (String c r)
  | _ =>
      match reference fieldType with
      | Some (MkReference _ (Some (MkTypeDeclaration (String c r)))) => Some (String c r)
      | _ => unsupportedEscape fieldType
      end
  end.

Definition fieldTypeNotResolved (field : DataModelField) : Error :=
  PluginError plugin_name
    ("Field type is not resolved: " +:+ field_container_name field +:+ "." +:+ field_name field).

(** [child e c]: [c] is a direct sub-expression of [e]. *)
Inductive child : Expression -> Expression -> Prop :=
  | child_array items c : In c items -> child (ArrayExpr items) c
  | child_invocation function args a :
      In a args -> child (InvocationExpr function args) (arg_value a)
  | child_member operand member : child (MemberAccessExpr operand member) operand
  | child_unary operator operand : child (UnaryExpr operator operand) operand
  | child_binary_left operator lhs rhs : child (BinaryExpr operator lhs rhs) lhs
  | child_binary_right operator lhs rhs : child (BinaryExpr operator lhs rhs) rhs
  | child_object fields f : In f fields -> child (ObjectExpr fields) (fi_value f).

(** [contains root node]: [node] occurs in the subtree of [root]. *)
Inductive contains : Expression -> Expression -> Prop :=
  | contains_root root : contains root root
  | contains_child root c node : child root c -> contains c node -> contains root node.

Definition authInvocation : Expression :=
  InvocationExpr (MkReference "auth" (Some (MkFunctionDecl "auth" true))) [].

Definition fieldWithAuthDefault : DataModelField :=
  MkDataModelField "Post" "ownerId"
    (MkDataModelFieldType (Some "Int") None None false false)
    [ MkDataModelAttribute
        (MkReference "@unique" (Some (MkAttribute "@unique" [MkInternalAttribute
           (MkReference "@@@prisma" (Some (MkAttribute "@@@prisma" []))) []]))) [];
      MkDataModelAttribute
        (MkReference "@default" (Some (MkAttribute "@default" [MkInternalAttribute
           (MkReference "@@@prisma" (Some (MkAttribute "@@@prisma" []))) []])))
        [MkAttributeArg None
           (MemberAccessExpr authInvocation (MkReference "id" (Some (MkReferenceTarget "id"))))] ]
    [].

(** The text of a function-call argument, by the shape of the argument. *)
Inductive argumentText : Expression -> string -> Prop :=
  | text_string v : argumentText (ELiteral (StringLiteral v)) (dquote +:+ v +:+ dquote)
  | text_number v : argumentText (ELiteral (NumberLiteral v)) (Z_toString v)
  | text_boolean v :
      argumentText (ELiteral (BooleanLiteral v)) (if v then "true" else "false")
  | text_null : argumentText NullExpr "null".

Definition literalOrNull (a : Argument) : bool :=
  isLiteralExpr (arg_value a) || isNullExpr (arg_value a).

Definition translatedArgument (a : Argument) (a' : PrismaFunctionCallArg) : Prop :=
  fca_name a' = arg_name a /\ argumentText (arg_value a) (fca_value a').

Definition argumentNotLiteral : Error :=
  PluginError plugin_name "Function call argument must be literal or null".

Definition envFunction : Reference FunctionDecl :=
  MkReference "env" (Some (MkFunctionDecl "env" true)).

(** The field table of a model, if the metadata has one. *)
Definition fieldTable (modelMeta : ModelMeta) (model : string)
  : option (list (string * FieldInfo)) :=
  fields modelMeta !! lowerCaseFirst model.

(** The fields of the model in the metadata; none when the model is absent. *)
Definition fieldsOf (modelMeta : ModelMeta) (model : string) : list FieldInfo :=
  match fieldTable modelMeta model with
  | Some table => Object_values table
  | None => []
  end.

Definition noIdField (modelMeta : ModelMeta) (model : string) : Prop :=
  forall f, In f (fieldsOf modelMeta model) -> isId f = false.

Definition sampleMeta : ModelMeta :=
  MkModelMeta
    {[ "user" := [("id", MkFieldInfo "id" "Int" true); ("email", MkFieldInfo "email" "String" false)];
       "log" := [("text", MkFieldInfo "text" "String" false)] ]}.

Definition isResolved (attr : DataModelAttribute) : bool :=
  match ref (decl attr) with Some _ => true | None => false end.

(** The attributes that get a documentation line: not emittable, resolved. *)
Definition documented (attr : DataModelAttribute) : bool :=
  negb (isPrismaAttribute attr) && isResolved attr.

(** What one emittable container attribute adds to the target container:
    a structured attribute with its name and translated arguments, or, for
    [@@prisma.passthrough], the text of its first argument if it gives
    one. *)
Definition containerEmits (attr : DataModelAttribute) (out : list PrismaAttribute) : Prop :=
  exists d, ref (decl attr) = Some d /\
    if String.eqb (attr_name d) "@@prisma.passthrough"
    then exists arg0 rest,
           args attr = arg0 :: rest /\
           out = match getLiteral (aa_value arg0) with
                 | Some text => if truthy text then [PrismaPassThroughAttribute text] else []
                 | None => []
                 end
    else exists args',
           mapM makeAttributeArg (args attr) = Ok args' /\
           out = [PrismaModelAttribute (attr_name d) args'].

(** A field of the source and the target field generated for it. *)
Definition fieldGenerated (field : DataModelField) (f : PrismaModelField) : Prop :=
  pmf_name f = field_name field /\
  targetTypeName (field_type field) = Some (mft_type (pmf_type f)) /\
  getAttributesToGenerate field = Ok (pmf_attributes f).

Definition enumFieldGenerated (field : EnumField) (f : PrismaEnumField) : Prop :=
  pef_name f = ef_name field /\
  mapM makeFieldAttribute (List.filter isPrismaAttribute (ef_attributes field))
  = Ok (pef_attributes f).

Definition prismaMarker : InternalAttribute :=
  MkInternalAttribute (MkReference "@@@prisma" (Some (MkAttribute "@@@prisma" []))) [].

(** [@@map("users")], emittable. *)
Definition mapAttr : DataModelAttribute :=
  MkDataModelAttribute (MkReference "@@map" (Some (MkAttribute "@@map" [prismaMarker])))
    [MkAttributeArg None (ELiteral (StringLiteral "users"))].

(** [@@allow('all', true)], resolved and not emittable. *)
Definition allowAttr : DataModelAttribute :=
  MkDataModelAttribute (MkReference "@@allow" (Some (MkAttribute "@@allow" [])))
    [MkAttributeArg None (ELiteral (StringLiteral "all"));
     MkAttributeArg None (ELiteral (BooleanLiteral true))].

(** An attribute whose declaration did not resolve. *)
Definition danglingAttr : DataModelAttribute :=
  MkDataModelAttribute (MkReference "@@custom" None) [].

(** [@@prisma.passthrough("@@index([name])")] *)
Definition passthroughAttr : DataModelAttribute :=
  MkDataModelAttribute
    (MkReference "@@prisma.passthrough" (Some (MkAttribute "@@prisma.passthrough" [])))
    [MkAttributeArg None (ELiteral (StringLiteral "@@index([name])"))].

Definition sampleModel : DataModel :=
  MkDataModel "User" false
    [MkDataModelField "User" "id" (MkDataModelFieldType (Some "Int") None None false false) [] []]
    [allowAttr; danglingAttr; mapAttr; passthroughAttr]
    ["// the users"].

Definition sampleEnum : Enum :=
  MkEnum "Role" [MkEnumField "ADMIN" [] []; MkEnumField "USER" [] []]
    [allowAttr; mapAttr] ["// the roles"].

Definition sampleGen (attr : DataModelAttribute) : string := refText (decl attr).

Definition sampleTargetModel : PrismaDataModel :=
  MkPrismaDataModel "User" false
    [MkPrismaModelField "id" (MkModelFieldType "Int" false false) [] []]
    [PrismaModelAttribute "@@map" [MkPrismaAttributeArg None (AVString "users")];
     PrismaPassThroughAttribute (JsString "@@index([name])")]
    ["/// @@allow"; "// the users"].

(** The declarations the driver's [switch] has a case for. *)
Definition hasCase (d : AbstractDeclaration) : bool :=
  match d with DeclOther _ => false | _ => true end.

(** A source declaration and the target declaration built for it: same
    kind and name, the fields one for one in order, and the container
    attributes those of the emittable source attributes, in order. *)
Definition declarationGenerated (d : AbstractDeclaration) (d' : PrismaDeclaration) : Prop :=
  match d, d' with
  | DeclDataSource s, PDataSource s' =>
      pds_name s' = ds_name s /\ map sf_name (pds_fields s') = map cf_name (ds_fields s)
  | DeclEnum e, PEnum e' =>
      pe_name e' = enum_name e /\
      Forall2 enumFieldGenerated (enum_fields e) (pe_fields e') /\
      exists outs,
        Forall2 containerEmits (List.filter isPrismaAttribute (enum_attributes e)) outs /\
        pe_attributes e' = concat outs
  | DeclDataModel m, PModel m' =>
      pm_name m' = dm_name m /\ pm_isView m' = dm_isView m /\
      Forall2 fieldGenerated (dm_fields m) (pm_fields m') /\
      exists outs,
        Forall2 containerEmits (List.filter isPrismaAttribute (dm_attributes m)) outs /\
        pm_attributes m' = concat outs
  | DeclGenerator g, PGenerator g' => pg_name g' = gen_name g
  | _, _ => False
  end.

(** The kind and name of a declaration, on the source and on the target
    side. *)
Definition sourceKey (d : AbstractDeclaration) : string * string :=
  match d with
  | DeclDataSource s => ("datasource", ds_name s)
  | DeclEnum e => ("enum", enum_name e)
  | DeclDataModel m => ("model", dm_name m)
  | DeclGenerator g => ("generator", gen_name g)
  | DeclOther t => ("other", t)
  end.

Definition targetKey (d : PrismaDeclaration) : string * string :=
  match d with
  | PDataSource s => ("datasource", pds_name s)
  | PEnum e => ("enum", pe_name e)
  | PModel m => ("model", pm_name m)
  | PGenerator g => ("generator", pg_name g)
  end.

(** The text after a number does not continue it. *)
Definition terminated (rest : string) : bool :=
  match rest with
  | EmptyString => true
  | String c _ =>
      match digit_of c with
      | Some _ => false
      | None => negb (starts_fraction rest)
      end
  end.

Fixpoint JsValue_nested_ind (P : JsValue -> Prop)
    (Hnull : P JsNull) (Hbool : forall b, P (JsBoolean b))
    (Hnum : forall z, P (JsNumber z)) (Hstr : forall s, P (JsString s))
    (Harr : forall items, Forall P items -> P (JsArray items))
    (v : JsValue) {struct v} : P v :=
  match v with
  | JsNull => Hnull
  | JsBoolean b => Hbool b
  | JsNumber z => Hnum z
  | JsString s => Hstr s
  | JsArray items =>
      Harr items
        ((fix go (l : list JsValue) : Forall P l :=
            match l with
            | [] => @List.Forall_nil _ P
            | x :: l' =>
                @List.Forall_cons _ P x l'
                  (JsValue_nested_ind P Hnull Hbool Hnum Hstr Harr x) (go l')
            end) items)
  end.

(** The fuel that parsing the printed value needs. *)
Fixpoint weight (v : JsValue) : nat :=
  match v with
  | JsArray items => S (fold_right (fun x acc => S (Nat.max (weight x) acc)) 0%nat items)
  | _ => 0%nat
  end.

Definition elements_weight (l : list JsValue) : nat :=
  fold_right (fun x acc => S (Nat.max (weight x) acc)) 0%nat l.

Definition starts_number (s : string) : bool :=
  match s with
  | String c _ => Ascii.eqb c "-" || match digit_of c with Some _ => true | None => false end
  | EmptyString => false
  end.

Definition parses_back (v : JsValue) : Prop :=
  forall fuel rest,
    (weight v < fuel)%nat -> terminated rest = true ->
    parse_value fuel (JSON_stringify v +:+ rest) = Some (v, rest).

(** The generator's [provider] field is the client-codegen provider. *)
Definition isClientProvider (fields : list SimpleField) : bool :=
  match findField "provider" fields with
  | Some provider => String.eqb (sf_text provider) (JSON_stringify (JsString "prisma-client-js"))
  | None => false
  end.

(** The [previewFeatures] array of a generator: its field's text parsed,
    the empty array when it has no such field. *)
Definition previewFeaturesOf (fields : list SimpleField) : option JsValue :=
  JSON_parse (match findField "previewFeatures" fields with
              | Some f => sf_text f
              | None => "[]"
              end).

(** The array with each of the two flags appended if absent. *)
Definition withFlags (previewFeatures : list JsValue) : list JsValue :=
  previewFeatures
    ++ (if includes previewFeatures "extendedWhereUnique"
        then [] else [JsString "extendedWhereUnique"])
    ++ (if includes previewFeatures "fieldReference"
        then [] else [JsString "fieldReference"]).

Definition isFlag (flag : string) (v : JsValue) : bool :=
  match v with JsString t => String.eqb t flag | _ => false end.

(** How many entries of the array are the flag. *)
Definition countFlag (flag : string) (previewFeatures : list JsValue) : nat :=
  length (List.filter (isFlag flag) previewFeatures).

(** The generator's fields with the [previewFeatures] text set: the field
    is updated in place if present and appended otherwise. *)
Definition updatePreviewFeatures (fields : list SimpleField) (text : string)
  : list SimpleField :=
  match findField "previewFeatures" fields with
  | None => fields ++ [MkSimpleField "previewFeatures" text]
  | Some _ => setFieldText "previewFeatures" text fields
  end.

Definition previewFeaturesNotArray : Error :=
  PluginError plugin_name
    ("option " +:+ dquote +:+ "previewFeatures" +:+ dquote +:+ " must be an array").

Definition prisma_4_16_2 : SemVer := MkSemVer 4 16 2 [].

(** [generator client { provider = "prisma-client-js"
                        previewFeatures = ["extendedWhereUnique", "views"] }] *)
Definition sampleGenerator : GeneratorDecl :=
  MkGeneratorDecl "client"
    [MkConfigField "provider" (ConfigLiteral (StringLiteral "prisma-client-js"));
     MkConfigField "previewFeatures"
       (ConfigArrayExpr [ItemLiteral (StringLiteral "extendedWhereUnique");
                         ItemLiteral (StringLiteral "views")])].

Definition sampleGeneratorFields : list SimpleField :=
  Eval vm_compute in
    match mapM configFieldToSimpleField (gen_fields sampleGenerator) with
    | Ok fields => fields
    | Err _ => []
    end.

Definition sampleDataSource : DataSource :=
  MkDataSource "db"
    [MkConfigField "provider" (ConfigLiteral (StringLiteral "postgresql"));
     MkConfigField "url"
       (ConfigInvocation (MkReference "env" (Some (MkFunctionDecl "env" true)))
          [MkArgument None (ELiteral (StringLiteral "DATABASE_URL"))])].

Definition sampleDocument : Model :=
  MkModel [DeclDataModel sampleModel; DeclOther "Attribute"; DeclGenerator sampleGenerator;
           DeclEnum sampleEnum; DeclDataSource sampleDataSource; DeclDataModel sampleModel].

(** ** Further definitions used by the properties *)

Fixpoint Expression_nested_ind (P : Expression -> Prop)
    (Hlit : forall l, P (ELiteral l))
    (Harr : forall items, Forall P items -> P (ArrayExpr items))
    (Href : forall target args, P (ReferenceExpr target args))
    (Hinv : forall function args,
        Forall (fun a => P (arg_value a)) args -> P (InvocationExpr function args))
    (Hnull : P NullExpr) (Hthis : P ThisExpr)
    (Hmem : forall operand member, P operand -> P (MemberAccessExpr operand member))
    (Hun : forall operator operand, P operand -> P (UnaryExpr operator operand))
    (Hbin : forall operator lhs rhs, P lhs -> P rhs -> P (BinaryExpr operator lhs rhs))
    (Hobj : forall fields, Forall (fun f => P (fi_value f)) fields -> P (ObjectExpr fields))
    (e : Expression) {struct e} : P e :=
  let rec := Expression_nested_ind P Hlit Harr Href Hinv Hnull Hthis Hmem Hun Hbin Hobj in
  match e with
  | ELiteral l => Hlit l
  | ArrayExpr items =>
      Harr items
        ((fix go (l : list Expression) : Forall P l :=
            match l with
            | [] => @List.Forall_nil _ P
            | x :: l' => @List.Forall_cons _ P x l' (rec x) (go l')
            end) items)
  | ReferenceExpr target args => Href target args
  | InvocationExpr function args =>
      Hinv function args
        ((fix go (l : list Argument) : Forall (fun a => P (arg_value a)) l :=
            match l with
            | [] => @List.Forall_nil _ _
            | x :: l' =>
                @List.Forall_cons _ (fun a => P (arg_value a)) x l'
                  (match x as a return P (arg_value a) with MkArgument _ v => rec v end)
                  (go l')
            end) args)
  | NullExpr => Hnull
  | ThisExpr => Hthis
  | MemberAccessExpr operand member => Hmem operand member (rec operand)
  | UnaryExpr operator operand => Hun operator operand (rec operand)
  | BinaryExpr operator lhs rhs => Hbin operator lhs rhs (rec lhs) (rec rhs)
  | ObjectExpr fields =>
      Hobj fields
        ((fix go (l : list FieldInitializer) : Forall (fun f => P (fi_value f)) l :=
            match l with
            | [] => @List.Forall_nil _ _
            | x :: l' =>
                @List.Forall_cons _ (fun f => P (fi_value f)) x l'
                  (match x as f return P (fi_value f) with MkFieldInitializer _ v => rec v end)
                  (go l')
            end) fields)
  end.

(** The expressions that attribute arguments can be made of: literals,
    arrays of such expressions, references to a resolved target, and calls
    of a resolved function on literals and null. *)
Inductive Translatable : Expression -> Prop :=
  | tr_literal l : Translatable (ELiteral l)
  | tr_array items : Forall Translatable items -> Translatable (ArrayExpr items)
  | tr_reference target args t :
      ref target = Some t -> Translatable (ReferenceExpr target args)
  | tr_invocation function args f :
      ref function = Some f -> forallb literalOrNull args = true ->
      Translatable (InvocationExpr function args).

(** What one emittable field attribute becomes: a structured attribute
    with the declaration's name and the translated arguments, names kept,
    or, for [@prisma.passthrough], the text of its first argument. *)
Definition fieldEmits (attr : DataModelAttribute) (out : PrismaAttribute) : Prop :=
  exists d, ref (decl attr) = Some d /\
    if String.eqb (attr_name d) "@prisma.passthrough"
    then exists arg0 rest text,
           args attr = arg0 :: rest /\
           getLiteral (aa_value arg0) = Some text /\ truthy text = true /\
           out = PrismaPassThroughAttribute text
    else exists args',
           mapM makeAttributeArg (args attr) = Ok args' /\
           map paa_name args' = map aa_name (args attr) /\
           out = PrismaFieldAttribute (attr_name d) args'.

(** The first configuration field of that name. *)
Definition findConfigField (name : string) (fields : list ConfigField) : option ConfigField :=
  List.find (fun f => String.eqb (cf_name f) name) fields.

Definition clientProviderValue : ConfigExpr :=
  ConfigLiteral (StringLiteral "prisma-client-js").

(** [id Int @id @default(autoincrement()) @allow('read', true)
       @prisma.passthrough("@db.Integer")], with a comment. *)
Definition sampleField : DataModelField :=
  MkDataModelField "User" "id" (MkDataModelFieldType (Some "Int") None None false false)
    [ MkDataModelAttribute (MkReference "@id" (Some (MkAttribute "@id" [prismaMarker]))) [];
      MkDataModelAttribute (MkReference "@default" (Some (MkAttribute "@default" [prismaMarker])))
        [MkAttributeArg (Some "value")
           (InvocationExpr
              (MkReference "autoincrement" (Some (MkFunctionDecl "autoincrement" true))) [])];
      MkDataModelAttribute (MkReference "@allow" (Some (MkAttribute "@allow" [])))
        [MkAttributeArg None (ELiteral (StringLiteral "read"));
         MkAttributeArg None (ELiteral (BooleanLiteral true))];
      MkDataModelAttribute
        (MkReference "@prisma.passthrough" (Some (MkAttribute "@prisma.passthrough" [])))
        [MkAttributeArg None (ELiteral (StringLiteral "@db.Integer"))] ]
    ["// the key"].

Definition sampleFieldAttributes : list PrismaAttribute :=
  [ PrismaFieldAttribute "@id" [];
    PrismaFieldAttribute "@default"
      [MkPrismaAttributeArg (Some "value")
         (AVFunctionCall (MkPrismaFunctionCall "autoincrement" []))];
    PrismaPassThroughAttribute (JsString "@db.Integer") ].

(** [ADMIN @map("admin") @deprecated], with a comment. *)
Definition sampleEnumField : EnumField :=
  MkEnumField "ADMIN"
    [ MkDataModelAttribute (MkReference "@map" (Some (MkAttribute "@map" [prismaMarker])))
        [MkAttributeArg None (ELiteral (StringLiteral "admin"))];
      MkDataModelAttribute (MkReference "@deprecated" (Some (MkAttribute "@deprecated" []))) [] ]
    ["// administrators"].

(** The two flags, as the array they form. *)
Definition bothFlags : list JsValue :=
  [JsString "extendedWhereUnique"; JsString "fieldReference"].

(** The target generator that [generateGenerator] adds. *)
Definition generatorAdded (prisma : PrismaModel) (decl : GeneratorDecl)
    (fields : list SimpleField) : result PrismaModel :=
  Ok (addDeclaration prisma (PGenerator (MkPrismaGenerator (gen_name decl) fields))).

(** ** Runtime: the Prisma error classes

    The module keeps the three error classes it has looked up in
    module-level variables; they are threaded here as [ErrorClasses]. *)

(** A class (constructor function) exported by a Prisma module. *)
Record ErrorClass : Type := MkErrorClass {
  class_name : string
}.

(** The Prisma module handed to the helpers ([prismaModule: any]): a
    property that is not there reads as [undefined]. *)
Record PrismaModule : Type := MkPrismaModule {
  PrismaClientValidationError : option ErrorClass;
  PrismaClientKnownRequestError : option ErrorClass;
  PrismaClientUnknownRequestError : option ErrorClass;
  _clientVersion : string
}.

(** [let _PrismaClientValidationError], [let _PrismaClientKnownRequestError],
    [let _PrismaClientUnknownRequestError]; [None] while unset. *)
Record ErrorClasses : Type := MkErrorClasses {
  _PrismaClientValidationError : option ErrorClass;
  _PrismaClientKnownRequestError : option ErrorClass;
  _PrismaClientUnknownRequestError : option ErrorClass
}.

Definition noErrorClasses : ErrorClasses := MkErrorClasses None None None.

(** [new C(...args)]: the class and the arguments it was given. *)
Inductive Constructed (A : Type) : Type :=
  | New (cls : ErrorClass) (args : A).
Arguments New {A} cls args.

(** How a call ends: it returns a value, throws one, or fails because
    what follows [new] is [undefined]. *)
Inductive Outcome (A : Type) : Type :=
  | Returned (v : Constructed A)
  | Thrown (v : Constructed A)
  | NotAConstructor.
Arguments Returned {A} v.
Arguments Thrown {A} v.
Arguments NotAConstructor {A}.

(** [(message, { clientVersion })] *)
Record ValidationArgs : Type := MkValidationArgs {
  va_message : string;
  va_clientVersion : string
}.

Definition prismaClientValidationError (st : ErrorClasses) (prismaModule : PrismaModule)
    (message : string) : ErrorClasses * Outcome ValidationArgs :=
  let st :=
    match _PrismaClientValidationError st with
    | None =>
        MkErrorClasses (PrismaClientValidationError prismaModule)
          (_PrismaClientKnownRequestError st) (_PrismaClientUnknownRequestError st)
    | Some _ => st
    end in
  match _PrismaClientValidationError st with
  | Some cls => (st, Thrown (New cls (MkValidationArgs message (_clientVersion prismaModule))))
  | None => (st, NotAConstructor)
  end.

Definition prismaClientKnownRequestError {A : Type} (st : ErrorClasses)
    (prismaModule : PrismaModule) (args : A) : ErrorClasses * Outcome A :=
  let st :=
    match _PrismaClientKnownRequestError st with
    | None =>
        MkErrorClasses (_PrismaClientValidationError st)
          (PrismaClientKnownRequestError prismaModule) (_PrismaClientUnknownRequestError st)
    | Some _ => st
    end in
  match _PrismaClientKnownRequestError st with
  | Some cls => (st, Returned (New cls args))
  | None => (st, NotAConstructor)
  end.

Definition prismaClientUnknownRequestError {A : Type} (st : ErrorClasses)
    (prismaModule : PrismaModule) (args : A) : ErrorClasses * Outcome A :=
  let st :=
    match _PrismaClientUnknownRequestError st with
    | None =>
        MkErrorClasses (_PrismaClientValidationError st)
          (_PrismaClientKnownRequestError st) (PrismaClientUnknownRequestError prismaModule)
    | Some _ => st
    end in
  match _PrismaClientUnknownRequestError st with
  | Some cls => (st, Thrown (New cls args))
  | None => (st, NotAConstructor)
  end.

(** One call of the three helpers. *)
Inductive ErrorCall : Type :=
  | CallValidation (prismaModule : PrismaModule) (message : string)
  | CallKnown (prismaModule : PrismaModule) (args : list string)
  | CallUnknown (prismaModule : PrismaModule) (args : list string).

Definition runErrorCall (st : ErrorClasses) (c : ErrorCall) : ErrorClasses :=
  match c with
  | CallValidation m message => fst (prismaClientValidationError st m message)
  | CallKnown m args => fst (prismaClientKnownRequestError st m args)
  | CallUnknown m args => fst (prismaClientUnknownRequestError st m args)
  end.

Definition sampleModuleA : PrismaModule :=
  MkPrismaModule (Some (MkErrorClass "A.PrismaClientValidationError"))
    (Some (MkErrorClass "A.PrismaClientKnownRequestError"))
    (Some (MkErrorClass "A.PrismaClientUnknownRequestError")) "4.16.2".

Definition sampleModuleB : PrismaModule :=
  MkPrismaModule (Some (MkErrorClass "B.PrismaClientValidationError")) None None "5.7.1".

(** ** The tRPC plugin helpers ([packages/plugins/trpc/src/helpers.ts])

    The [CodeBlockWriter] that the helpers write to is the sequence of the
    calls made on it; [console.log] is the list of the lines logged. *)

Definition nl : string := String (ascii_of_nat 10) EmptyString.

Definition toUpperCase (c : ascii) : ascii :=
  let n := N_of_ascii c in
  if ((97 <=? n) && (n <=? 122))%N then ascii_of_N (n - 32) else c.

(** [upperCaseFirst] of the [upper-case-first] package, on ASCII. *)
Definition upperCaseFirst (s : string) : string :=
  match s with
  | EmptyString => EmptyString
  | String c r => String (toUpperCase c) r
  end.

(** [s.replace(pattern, replacement)] with a string pattern: the first
    occurrence is replaced. *)
Fixpoint replaceFirst (pattern replacement s : string) : string :=
  match strip_prefix pattern s with
  | Some rest => replacement +:+ rest
  | None =>
      match s with
      | EmptyString => EmptyString
      | String c r => String c (replaceFirst pattern replacement r)
      end
  end.

(** [case a: case b: ...]: the value is one of the labels. *)
Definition oneOf (s : string) (labels : list string) : bool :=
  existsb (String.eqb s) labels.

Inductive WriterCall : Type :=
  | Write (text : string)
  | WriteLine (text : string)
  | Block (body : list WriterCall).

(** A line of [console.log('getProcedureTypeByOpName: ', { opName })]. *)
Record ConsoleLine : Type := MkConsoleLine {
  logged_opName : string
}.

(** [procType === s] *)
Definition procTypeIs (procType : option string) (s : string) : bool :=
  match procType with
  | Some p => String.eqb p s
  | None => false
  end.

Definition queryOps : list string :=
  ["findUnique"; "findFirst"; "findMany"; "findRaw"; "aggregate"; "aggregateRaw";
   "groupBy"; "count"].

Definition mutationOps : list string :=
  ["createOne"; "createMany"; "deleteOne"; "updateOne"; "deleteMany"; "updateMany";
   "upsertOne"].

(** The procedure type, [undefined] for an unknown operation, and what was
    logged. *)
Definition getProcedureTypeByOpName (opName : string) : option string * list ConsoleLine :=
  if oneOf opName queryOps then (Some "query", [])
  else if oneOf opName mutationOps then (Some "mutation", [])
  else (None, [MkConsoleLine opName]).

Definition getInputSchemaByOpName (opName modelName : string) : option string :=
  let capModelName := upperCaseFirst modelName in
  if String.eqb opName "findUnique" then
    Some (String.concat ""
      ["$Schema."; capModelName; "InputSchema.findUnique"])
  else if String.eqb opName "findFirst" then
    Some (String.concat ""
      ["$Schema."; capModelName; "InputSchema.findFirst"])
  else if String.eqb opName "findMany" then
    Some (String.concat ""
      ["$Schema."; capModelName; "InputSchema.findMany"])
  else if String.eqb opName "findRaw" then
    Some (String.concat ""
      ["$Schema."; capModelName; "InputSchema.findRawObject"])
  else if String.eqb opName "createOne" then
    Some (String.concat ""
      ["$Schema."; capModelName; "InputSchema.create"])
  else if String.eqb opName "createMany" then
    Some (String.concat ""
      ["$Schema."; capModelName; "InputSchema.createMany"])
  else if String.eqb opName "deleteOne" then
    Some (String.concat ""
      ["$Schema."; capModelName; "InputSchema.delete"])
  else if String.eqb opName "updateOne" then
    Some (String.concat ""
      ["$Schema."; capModelName; "InputSchema.update"])
  else if String.eqb opName "deleteMany" then
    Some (String.concat ""
      ["$Schema."; capModelName; "InputSchema.deleteMany"])
  else if String.eqb opName "updateMany" then
    Some (String.concat ""
      ["$Schema."; capModelName; "InputSchema.updateMany"])
  else if String.eqb opName "upsertOne" then
    Some (String.concat ""
      ["$Schema."; capModelName; "InputSchema.upsert"])
  else if String.eqb opName "aggregate" then
    Some (String.concat ""
      ["$Schema."; capModelName; "InputSchema.aggregate"])
  else if String.eqb opName "aggregateRaw" then
    Some (String.concat ""
      ["$Schema."; capModelName; "InputSchema.aggregateRawObject"])
  else if String.eqb opName "groupBy" then
    Some (String.concat ""
      ["$Schema."; capModelName; "InputSchema.groupBy"])
  else if String.eqb opName "count" then
    Some (String.concat ""
      ["$Schema."; capModelName; "InputSchema.count"])
  else None.

Definition generateProcedure (writer : list WriterCall)
    (opType typeName modelName baseOpType : string)
  : list WriterCall * list ConsoleLine :=
  let '(procType, console) := getProcedureTypeByOpName baseOpType in
  let prismaMethod := replaceFirst "One" "" opType in
  if procTypeIs procType "query" then
    (writer ++ [Write (String.concat ""
           [nl;
            "        "; opType; ": procedure.input("; typeName; ").query(({ctx, input}) => checkRead(db(ctx)."; lowerCaseFirst modelName; "."; prismaMethod; "(input as any))),"; nl;
            "    "])], console)
  else if procTypeIs procType "mutation" then
    (writer ++ [Write (String.concat ""
           [nl;
            "        "; opType; ": procedure.input("; typeName; ").mutation(async ({ctx, input}) => checkMutate(db(ctx)."; lowerCaseFirst modelName; "."; prismaMethod; "(input as any))),"; nl;
            "    "])], console)
  else (writer, console).

Record OperationTypes : Type := MkOperationTypes {
  genericBase : string;
  argsType : string;
  resultType : string
}.

Section Trpc.

(** The plugin's name ([import { name } from '.']). *)
Variable name : string.

Definition getPrismaOperationTypes (model operation : string) : result OperationTypes :=
  let capModel := upperCaseFirst model in
  let capOperation := upperCaseFirst operation in
  let genericBase := String.concat ""
      ["Prisma."; capModel; capOperation; "Args"] in
  let getPayload := String.concat ""
      ["Prisma."; capModel; "GetPayload<T>"] in
  let selectSubset := String.concat ""
      ["Prisma.SelectSubset<T, "; genericBase; ">"] in
  if oneOf operation ["findUnique"; "findUniqueOrThrow"; "findFirst"; "findFirstOrThrow"] then
    Ok (MkOperationTypes genericBase selectSubset getPayload)
  else if String.eqb operation "findMany" then
    Ok (MkOperationTypes genericBase selectSubset (String.concat ""
         ["Array<"; getPayload; ">"]))
  else if String.eqb operation "create" then
    Ok (MkOperationTypes genericBase selectSubset getPayload)
  else if String.eqb operation "createMany" then
    Ok (MkOperationTypes genericBase selectSubset "Prisma.BatchPayload")
  else if String.eqb operation "update" then
    Ok (MkOperationTypes genericBase selectSubset getPayload)
  else if String.eqb operation "updateMany" then
    Ok (MkOperationTypes genericBase selectSubset "Prisma.BatchPayload")
  else if String.eqb operation "upsert" then
    Ok (MkOperationTypes genericBase selectSubset getPayload)
  else if String.eqb operation "delete" then
    Ok (MkOperationTypes genericBase selectSubset getPayload)
  else if String.eqb operation "deleteMany" then
    Ok (MkOperationTypes genericBase selectSubset "Prisma.BatchPayload")
  else if String.eqb operation "count" then
    Ok (MkOperationTypes genericBase
          (String.concat ""
           ["Prisma.Subset<T, "; genericBase; ">"])
          (String.concat ""
           ["'select' extends keyof T"; nl;
            "            ? T['select'] extends true"; nl;
            "              ? number"; nl;
            "              : Prisma.GetScalarType<T['select'], Prisma."; capModel; "CountAggregateOutputType>"; nl;
            "            : number"]))
  else if String.eqb operation "aggregate" then
    Ok (MkOperationTypes genericBase
          (String.concat ""
           ["Prisma.Subset<T, "; genericBase; ">"])
          (String.concat ""
           ["Prisma.Get"; capModel; "AggregateType<T>"]))
  else if String.eqb operation "groupBy" then
    let genericBase := String.concat ""
        ["Prisma."; capModel; "GroupByArgs,"; nl;
         "            HasSelectOrTake extends Prisma.Or<"; nl;
         "              Prisma.Extends<'skip', Prisma.Keys<T>>,"; nl;
         "              Prisma.Extends<'take', Prisma.Keys<T>>"; nl;
         "            >,"; nl;
         "            OrderByArg extends Prisma.True extends HasSelectOrTake"; nl;
         "              ? { orderBy: Prisma."; capModel; "GroupByArgs['orderBy'] }"; nl;
         "              : { orderBy?: Prisma."; capModel; "GroupByArgs['orderBy'] },"; nl;
         "            OrderFields extends Prisma.ExcludeUnderscoreKeys<Prisma.Keys<Prisma.MaybeTupleToUnion<T['orderBy']>>>,"; nl;
         "            ByFields extends Prisma.MaybeTupleToUnion<T['by']>,"; nl;
         "            ByValid extends Prisma.Has<ByFields, OrderFields>,"; nl;
         "            HavingFields extends Prisma.GetHavingFields<T['having']>,"; nl;
         "            HavingValid extends Prisma.Has<ByFields, HavingFields>,"; nl;
         "            ByEmpty extends T['by'] extends never[] ? Prisma.True : Prisma.False,"; nl;
         "            InputErrors extends ByEmpty extends Prisma.True"; nl;
         "            ? `Error: "; dquote; "by"; dquote; " must not be empty.`"; nl;
         "            : HavingValid extends Prisma.False"; nl;
         "            ? {"; nl;
         "                [P in HavingFields]: P extends ByFields"; nl;
         "                  ? never"; nl;
         "                  : P extends string"; nl;
         "                  ? `Error: Field "; dquote; "${P}"; dquote; " used in "; dquote; "having"; dquote; " needs to be provided in "; dquote; "by"; dquote; ".`"; nl;
         "                  : ["; nl;
         "                      Error,"; nl;
         "                      'Field ',"; nl;
         "                      P,"; nl;
         "                      ` in "; dquote; "having"; dquote; " needs to be provided in "; dquote; "by"; dquote; "`,"; nl;
         "                    ]"; nl;
         "              }[HavingFields]"; nl;
         "            : 'take' extends Prisma.Keys<T>"; nl;
         "            ? 'orderBy' extends Prisma.Keys<T>"; nl;
         "              ? ByValid extends Prisma.True"; nl;
         "                ? {}"; nl;
         "                : {"; nl;
         "                    [P in OrderFields]: P extends ByFields"; nl;
         "                      ? never"; nl;
         "                      : `Error: Field "; dquote; "${P}"; dquote; " in "; dquote; "orderBy"; dquote; " needs to be provided in "; dquote; "by"; dquote; "`"; nl;
         "                  }[OrderFields]"; nl;
         "              : 'Error: If you provide "; dquote; "take"; dquote; ", you also need to provide "; dquote; "orderBy"; dquote; "'"; nl;
         "            : 'skip' extends Prisma.Keys<T>"; nl;
         "            ? 'orderBy' extends Prisma.Keys<T>"; nl;
         "              ? ByValid extends Prisma.True"; nl;
         "                ? {}"; nl;
         "                : {"; nl;
         "                    [P in OrderFields]: P extends ByFields"; nl;
         "                      ? never"; nl;
         "                      : `Error: Field "; dquote; "${P}"; dquote; " in "; dquote; "orderBy"; dquote; " needs to be provided in "; dquote; "by"; dquote; "`"; nl;
         "                  }[OrderFields]"; nl;
         "              : 'Error: If you provide "; dquote; "skip"; dquote; ", you also need to provide "; dquote; "orderBy"; dquote; "'"; nl;
         "            : ByValid extends Prisma.True"; nl;
         "            ? {}"; nl;
         "            : {"; nl;
         "                [P in OrderFields]: P extends ByFields"; nl;
         "                  ? never"; nl;
         "                  : `Error: Field "; dquote; "${P}"; dquote; " in "; dquote; "orderBy"; dquote; " needs to be provided in "; dquote; "by"; dquote; "`"; nl;
         "              }[OrderFields]"; nl;
         "          "] in
    Ok (MkOperationTypes genericBase
          (String.concat ""
           ["Prisma.SubsetIntersection<T, Prisma."; capModel; "GroupByArgs, OrderByArg> & InputErrors"])
          (String.concat ""
           ["{} extends InputErrors ? Prisma.Get"; capModel; "GroupByPayload<T> : InputErrors"]))
  else
    Err (PluginError name (String.concat ""
           ["Unsupported operation: "; dquote; operation; dquote])).

Definition generateRouterTyping (writer : list WriterCall)
    (opType modelName baseOpType : string)
  : list ConsoleLine * result (list WriterCall) :=
  let '(procType, console) := getProcedureTypeByOpName baseOpType in
  (console,
   match getPrismaOperationTypes modelName opType with
   | Err e => Err e
   | Ok (MkOperationTypes genericBase argsType resultType) =>
       let errorType := String.concat ""
         ["TRPCClientErrorLike<AppRouter>"] in
       Ok (writer ++
           [Block
              (if procTypeIs procType "query" then
                 [WriteLine (String.concat ""
                     [nl;
                      "                useQuery: <T extends "; genericBase; ", TData = "; resultType; ">("; nl;
                      "                    input: "; argsType; ","; nl;
                      "                    opts?: UseTRPCQueryOptions<string, T, "; resultType; ", TData, Error>"; nl;
                      "                    ) => UseTRPCQueryResult<"; nl;
                      "                        TData,"; nl;
                      "                        "; errorType; nl;
                      "                    >;"; nl;
                      "                useInfiniteQuery: <T extends "; genericBase; ">("; nl;
                      "                    input: Omit<"; argsType; ", 'cursor'>,"; nl;
                      "                    opts?: UseTRPCInfiniteQueryOptions<string, T, "; resultType; ", Error>"; nl;
                      "                    ) => UseTRPCInfiniteQueryResult<"; nl;
                      "                        "; resultType; ","; nl;
                      "                        "; errorType; nl;
                      "                    >;"; nl;
                      "                    "])]
               else if procTypeIs procType "mutation" then
                 [WriteLine (String.concat ""
                     [nl;
                      "                useMutation: <T extends "; genericBase; ">(opts?: UseTRPCMutationOptions<"; nl;
                      "                    "; genericBase; ","; nl;
                      "                    "; errorType; ","; nl;
                      "                    "; resultType; ","; nl;
                      "                    Context"; nl;
                      "                >,) =>"; nl;
                      "                Omit<UseTRPCMutationResult<"; resultType; ", "; errorType; ", "; argsType; ", Context>, 'mutateAsync'> & {"; nl;
                      "                    mutateAsync:"; nl;
                      "                        <T extends "; genericBase; ">(variables: T, opts?: UseTRPCMutationOptions<T, "; errorType; ", "; resultType; ", Context>) => Promise<"; resultType; ">"; nl;
                      "                };"; nl;
                      "                "])]
               else [])])
   end).

End Trpc.

(** ** The TanStack Query plugin generator ([packages/plugins/tanstack-query/src/generator.ts])

    A ts-morph [SourceFile] is the list of what was added to it, in order; a
    function declaration is the structure given to [addFunction] with the
    statements added to it afterwards.  A [Project] maps a path to the file
    created there ([createSourceFile] with [overwrite: true]).  When a
    generator throws, the partly written file is not modelled: the result is
    the exception. *)

Definition supportedTargets : list string := ["react"; "vue"; "svelte"].

(** [type TanStackVersion = 'v4' | 'v5'] *)
Inductive TanStackVersion : Type := v4 | v5.

(** [version === 'v5'] *)
Definition isV5 (version : TanStackVersion) : bool :=
  match version with v5 => true | v4 => false end.

(** [version === 'v4'] *)
Definition isV4 (version : TanStackVersion) : bool :=
  match version with v4 => true | v5 => false end.

Record ParameterDeclaration : Type := MkParameterDeclaration {
  param_name : string;
  param_type : string;
  param_initializer : option string
}.

Inductive FunctionStatement : Type :=
  | Statement (text : string)
      (* [func.addStatements] *)
  | ConstStatement (name initializer : string).
      (* [func.addVariableStatement] of one [const] declaration *)

Record FunctionDeclaration : Type := MkFunctionDeclaration {
  func_name : string;
  func_typeParameters : list string;
  func_parameters : list ParameterDeclaration;
  func_isExported : bool;
  func_statements : list FunctionStatement
}.

Inductive SourceItem : Type :=
  | SourceStatement (text : string)
  | ImportDeclaration (namedImports : list string) (isTypeOnly : bool)
      (moduleSpecifier : string)
  | SourceFunction (func : FunctionDeclaration).

Definition SourceFile : Type := list SourceItem.

Definition Project : Type := gmap string SourceFile.

(** [func.addStatements(texts)] *)
Definition func_addStatements (func : FunctionDeclaration) (texts : list string)
  : FunctionDeclaration :=
  MkFunctionDeclaration (func_name func) (func_typeParameters func) (func_parameters func)
    (func_isExported func) (func_statements func ++ map Statement texts).

(** [func.addVariableStatement({ declarationKind: Const, declarations: [{ name, initializer }] })] *)
Definition func_addVariableStatement (func : FunctionDeclaration) (name initializer : string)
  : FunctionDeclaration :=
  MkFunctionDeclaration (func_name func) (func_typeParameters func) (func_parameters func)
    (func_isExported func) (func_statements func ++ [ConstStatement name initializer]).

(** [sf.addStatements(texts)] *)
Definition sf_addStatements (sf : SourceFile) (texts : list string) : SourceFile :=
  sf ++ map SourceStatement texts.

(** [s.includes(sub)] on strings. *)
Fixpoint String_includes (sub s : string) : bool :=
  match strip_prefix sub s with
  | Some _ => true
  | None =>
      match s with
      | EmptyString => false
      | String _ r => String_includes sub r
      end
  end.

(** [s.toUpperCase()], on ASCII. *)
Fixpoint String_toUpperCase (s : string) : string :=
  match s with
  | EmptyString => EmptyString
  | String c r => String (toUpperCase c) (String_toUpperCase r)
  end.

(** A boolean inside a template literal. *)
Definition Boolean_toString (b : bool) : string := if b then "true" else "false".

(** [if (s)] on a [string | null | undefined] entry of the DMMF mapping. *)
Definition mapped (s : option string) : bool :=
  match truthy_string s with Some _ => true | None => false end.

(** The operations of [DMMF.ModelMapping] that the generator reads. *)
Record ModelMapping : Type := MkModelMapping {
  mapping_create : option string;
  mapping_createOne : option string;
  mapping_createMany : option string;
  mapping_findMany : option string;
  mapping_findUnique : option string;
  mapping_findFirst : option string;
  mapping_update : option string;
  mapping_updateOne : option string;
  mapping_updateMany : option string;
  mapping_upsert : option string;
  mapping_upsertOne : option string;
  mapping_delete : option string;
  mapping_deleteOne : option string;
  mapping_deleteMany : option string;
  mapping_aggregate : option string;
  mapping_groupBy : option string
}.

Section TanstackQuery.

(** [name] of the plugin, imported from the package's index. *)
Variable name : string.
(** [paramCase] of [change-case], [path.join], and the SDK's
    [getPrismaClientImportSpec] (for the schema at hand, by output directory)
    and [getPrismaVersion]. *)
Variable paramCase : string -> string.
Variable path_join : string -> string -> string.
Variable getPrismaClientImportSpec : string -> string.
Variable getPrismaVersion : option SemVer.

Definition makeRuntimeImportBase (version : TanStackVersion) : string :=
  String.concat ""
  ["@zenstackhq/tanstack-query/runtime"; (if isV5 version then "-v5" else "")].

Definition makeMutationOptions (target returnType argsType : string) : result string :=
  if String.eqb target "react" then
    Ok (String.concat ""
      ["UseMutationOptions<"; returnType; ", DefaultError, "; argsType; ">"])
  else if String.eqb target "vue" then
    let baseOption := String.concat ""
      ["UseMutationOptions<"; returnType; ", DefaultError, "; argsType; ", unknown>"] in
    Ok (String.concat ""
      ["MaybeRefOrGetter<"; baseOption; "> | ComputedRef<"; baseOption; ">"])
  else if String.eqb target "svelte" then
    Ok (String.concat ""
      ["MutationOptions<"; returnType; ", DefaultError, "; argsType; ">"])
  else Err (PluginError name (String.concat ""
      ["Unsupported target: "; target])).

Definition makeQueryOptions (target returnType dataType : string) (infinite suspense : bool)
  (version : TanStackVersion) : result string :=
  if String.eqb target "react" then
    Ok (if infinite then
          if isV4 version then
            String.concat ""
            ["Omit<UseInfiniteQueryOptions<"; returnType; ", TError, "; dataType; ">, 'queryKey'>"]
          else
            String.concat ""
            ["Omit<Use"; (if suspense then "Suspense" else ""); "InfiniteQueryOptions<"; returnType; ", TError, InfiniteData<"; dataType; ">>, 'queryKey'>"]
        else
          String.concat ""
          ["Omit<Use"; (if suspense then "Suspense" else ""); "QueryOptions<"; returnType; ", TError, "; dataType; ">, 'queryKey'>"])
  else if String.eqb target "vue" then
    let baseOption := String.concat ""
      ["Omit<Use"; (if infinite then "Infinite" else ""); "QueryOptions<"; returnType; ", TError, "; dataType; ">, 'queryKey'>"] in
    Ok (String.concat ""
      ["MaybeRefOrGetter<"; baseOption; "> | ComputedRef<"; baseOption; ">"])
  else if String.eqb target "svelte" then
    Ok (if infinite then
          if isV4 version then
            String.concat ""
            ["Omit<CreateInfiniteQueryOptions<"; returnType; ", TError, "; dataType; ">, 'queryKey'>"]
          else
            String.concat ""
            ["StoreOrVal<Omit<CreateInfiniteQueryOptions<"; returnType; ", TError, InfiniteData<"; dataType; ">>, 'queryKey'>>"]
        else if isV4 version then
          String.concat ""
          ["Omit<CreateQueryOptions<"; returnType; ", TError, "; dataType; ">, 'queryKey'>"]
        else
          String.concat ""
          ["StoreOrVal<Omit<CreateQueryOptions<"; returnType; ", TError, "; dataType; ">, 'queryKey'>>"])
  else Err (PluginError name (String.concat ""
      ["Unsupported target: "; target])).

Definition makeQueryArgsType (target argsType : string) : string :=
  let type := String.concat ""
    ["Prisma.SelectSubset<TArgs, "; argsType; ">"] in
  if String.eqb target "vue" then
    String.concat ""
    ["MaybeRefOrGetter<"; type; "> | ComputedRef<"; type; ">"]
  else type.

Definition makeBaseImports (target : string) (version : TanStackVersion) : result (list string) :=
  let runtimeImportBase := makeRuntimeImportBase version in
  let shared :=
    [String.concat ""
     ["import { useModelQuery, useInfiniteModelQuery, useModelMutation } from '"; runtimeImportBase; "/"; target; "';"];
     String.concat ""
     ["import type { PickEnumerable, CheckSelect, QueryError } from '"; runtimeImportBase; "';"];
     String.concat ""
     ["import metadata from './__model_meta';"];
     String.concat ""
     ["type DefaultError = QueryError;"]] in
  if String.eqb target "react" then
    let suspense :=
      if isV5 version then
        [String.concat ""
         ["import { useSuspenseModelQuery, useSuspenseInfiniteModelQuery } from '"; runtimeImportBase; "/"; target; "';"];
         String.concat ""
         ["import type { UseSuspenseQueryOptions, UseSuspenseInfiniteQueryOptions } from '@tanstack/react-query';"]]
      else [] in
    Ok ([String.concat ""
         ["import type { UseMutationOptions, UseQueryOptions, UseInfiniteQueryOptions, InfiniteData } from '@tanstack/react-query';"];
         String.concat ""
         ["import { getHooksContext } from '"; runtimeImportBase; "/"; target; "';"]]
        ++ shared ++ suspense)
  else if String.eqb target "vue" then
    Ok ([String.concat ""
         ["import type { UseMutationOptions, UseQueryOptions, UseInfiniteQueryOptions, InfiniteData } from '@tanstack/vue-query';"];
         String.concat ""
         ["import { getHooksContext } from '"; runtimeImportBase; "/"; target; "';"];
         String.concat ""
         ["import type { MaybeRefOrGetter, ComputedRef } from 'vue';"]]
        ++ shared)
  else if String.eqb target "svelte" then
    Ok ([String.concat ""
         ["import { derived } from 'svelte/store';"];
         String.concat ""
         ["import type { MutationOptions, CreateQueryOptions, CreateInfiniteQueryOptions } from '@tanstack/svelte-query';"]]
        ++ (if isV5 version then
              [String.concat ""
               ["import type { InfiniteData, StoreOrVal } from '@tanstack/svelte-query';"]]
            else [])
        ++ [String.concat ""
         ["import { getHooksContext } from '"; runtimeImportBase; "/"; target; "';"]]
        ++ shared)
  else Err (PluginError name (String.concat ""
      ["Unsupported target: "; target])).

Definition makeGetContext (target : string) : result string :=
  if String.eqb target "react" then
    Ok (String.concat ""
      ["const { endpoint, fetch } = getHooksContext();"])
  else if String.eqb target "vue" then
    Ok (String.concat ""
      ["const { endpoint, fetch } = getHooksContext();"])
  else if String.eqb target "svelte" then
    Ok (String.concat ""
      ["const { endpoint, fetch } = getHooksContext();"])
  else Err (PluginError name (String.concat ""
      ["Unsupported target "; dquote; target; dquote])).

(** The body of the loop of [generateQueryHook], for one of the modes. *)
Definition generateQueryHookMode (target : string) (version : TanStackVersion)
  (model operation : string) (returnArray optionalInput : bool)
  (overrideReturnType overrideInputType : option string)
  (overrideTypeParameters : option (list string)) (supportOptimistic : bool)
  (sf : SourceFile) (generateMode : string) : result SourceFile :=
  let capOperation := upperCaseFirst operation in
  let argsType :=
    default (String.concat ""
       ["Prisma."; model; capOperation; "Args"]) overrideInputType in
  let inputType := makeQueryArgsType target argsType in
  let infinite := String_includes "Infinite" generateMode in
  let suspense := String_includes "Suspense" generateMode in
  let optimistic := supportOptimistic && negb infinite in
  let defaultReturnType := String.concat ""
      ["Prisma."; model; "GetPayload<TArgs>"] in
  let defaultReturnType :=
    if optimistic then defaultReturnType +:+ "& { $optimistic?: boolean }" else defaultReturnType in
  let defaultReturnType :=
    if returnArray then String.concat ""
      ["Array<"; defaultReturnType; ">"]
    else defaultReturnType in
  let returnType := default defaultReturnType overrideReturnType in
  optionsType ← makeQueryOptions target "TQueryFnData" "TData" infinite suspense version;
  let func :=
    MkFunctionDeclaration
      (String.concat ""
         ["use"; generateMode; capOperation; model])
      (default
         [String.concat ""
           ["TArgs extends "; argsType];
          String.concat ""
           ["TQueryFnData = "; returnType; " "];
          "TData = TQueryFnData";
          "TError = DefaultError"]
         overrideTypeParameters)
      ([MkParameterDeclaration (if optionalInput then "args?" else "args") inputType None;
        MkParameterDeclaration "options?" optionsType None]
       ++ (if optimistic
           then [MkParameterDeclaration "optimisticUpdate" "boolean" (Some "true")]
           else []))
      true [] in
  let func :=
    if isV5 version && infinite && oneOf target ["react"; "svelte"] then
      func_addStatements func
        [String.concat ""
           ["options = options ?? { initialPageParam: undefined, getNextPageParam: () => null };"]]
    else func in
  context ← makeGetContext target;
  let func :=
    func_addStatements func
      [context;
       String.concat ""
         ["return use"; generateMode; "ModelQuery<TQueryFnData, TData, TError>('"; model; "', `${endpoint}/"; lowerCaseFirst model; "/"; operation; "`, args, options, fetch"; (if optimistic then ", optimisticUpdate" else ""); ");"]] in
  Ok (sf ++ [SourceFunction func]).

Definition generateQueryHook (target : string) (version : TanStackVersion) (sf : SourceFile)
  (model operation : string) (returnArray optionalInput : bool)
  (overrideReturnType overrideInputType : option string)
  (overrideTypeParameters : option (list string)) (supportInfinite supportOptimistic : bool)
  : result SourceFile :=
  let generateModes := [""] in
  let generateModes :=
    if supportInfinite then generateModes ++ ["Infinite"] else generateModes in
  let generateModes :=
    if String.eqb target "react" && isV5 version then
      let generateModes := generateModes ++ ["Suspense"] in
      if supportInfinite then generateModes ++ ["SuspenseInfinite"] else generateModes
    else generateModes in
  forEachM
    (generateQueryHookMode target version model operation returnArray optionalInput
       overrideReturnType overrideInputType overrideTypeParameters supportOptimistic)
    sf generateModes.

Definition generateMutationHook (target : string) (sf : SourceFile) (model operation : string)
  (httpVerb : string) (checkReadBack : bool) (overrideReturnType : option string)
  : result SourceFile :=
  let capOperation := upperCaseFirst operation in
  let argsType := String.concat ""
    ["Prisma."; model; capOperation; "Args"] in
  let inputType := String.concat ""
    ["Prisma.SelectSubset<T, "; argsType; ">"] in
  let returnType :=
    default (String.concat ""
       ["CheckSelect<T, "; model; ", Prisma."; model; "GetPayload<T>>"]) overrideReturnType in
  let returnType :=
    if checkReadBack then String.concat ""
      ["("; returnType; " | undefined )"]
    else returnType in
  options ← makeMutationOptions target
    (if checkReadBack
     then String.concat ""
       ["("; default model overrideReturnType; " | undefined)"]
     else default model overrideReturnType)
    argsType;
  let nonGenericOptionsType := String.concat "" ["Omit<"; options; ", 'mutationFn'>"] in
  options ← makeMutationOptions target returnType inputType;
  let optionsType := String.concat ""
    ["Omit<"; options; ", 'mutationFn'>"] in
  let func :=
    MkFunctionDeclaration
      (String.concat ""
         ["use"; capOperation; model])
      []
      [MkParameterDeclaration "options?" nonGenericOptionsType None;
       MkParameterDeclaration "invalidateQueries" "boolean" (Some "true");
       MkParameterDeclaration "optimisticUpdate" "boolean" (Some "false")]
      true [] in
  context ← makeGetContext target;
  let func := func_addStatements func [context] in
  let func :=
    func_addVariableStatement func "_mutation"
      (String.concat ""
         [nl;
          "                    useModelMutation<"; argsType; ", DefaultError, "; default model overrideReturnType; ", "; Boolean_toString checkReadBack; ">('"; model; "', '"; String_toUpperCase httpVerb; "', `${endpoint}/"; lowerCaseFirst model; "/"; operation; "`, metadata, options, fetch, invalidateQueries, "; Boolean_toString checkReadBack; ", optimisticUpdate)"; nl;
          "                "]) in
  func ←
    (if oneOf target ["react"; "vue"] then
       Ok (func_addVariableStatement func "mutation"
             (String.concat ""
                ["{"; nl;
                 "                    ..._mutation,"; nl;
                 "                    mutateAsync: async <T extends "; argsType; ">("; nl;
                 "                        args: Prisma.SelectSubset<T, "; argsType; ">,"; nl;
                 "                        options?: "; optionsType; nl;
                 "                      ) => {"; nl;
                 "                        return (await _mutation.mutateAsync("; nl;
                 "                          args,"; nl;
                 "                          options as any"; nl;
                 "                        )) as "; returnType; ";"; nl;
                 "                    },"; nl;
                 "                }"]))
     else if String.eqb target "svelte" then
       Ok (func_addVariableStatement func "mutation"
             (String.concat ""
                ["derived(_mutation, value => ({"; nl;
                 "                    ...value,"; nl;
                 "                    mutateAsync: async <T extends "; argsType; ">("; nl;
                 "                        args: Prisma.SelectSubset<T, "; argsType; ">,"; nl;
                 "                        options?: "; optionsType; nl;
                 "                      ) => {"; nl;
                 "                        return (await value.mutateAsync("; nl;
                 "                          args,"; nl;
                 "                          options as any"; nl;
                 "                        )) as "; returnType; ";"; nl;
                 "                    },"; nl;
                 "                }))"]))
     else Err (PluginError name (String.concat ""
          ["Unsupported target "; dquote; target; dquote])));
  let func := func_addStatements func ["return mutation;"] in
  Ok (sf ++ [SourceFunction func]).

(** [if (c) { step }] *)
Definition ifMapped (c : bool) (step : SourceFile -> result SourceFile) (sf : SourceFile)
  : result SourceFile :=
  if c then step sf else Ok sf.

Definition generateModelHooks (target : string) (version : TanStackVersion) (project : Project)
  (outDir : string) (model : DataModel) (mapping : ModelMapping) : result Project :=
  let modelNameCap := upperCaseFirst (dm_name model) in
  let prismaVersion := getPrismaVersion in
  let fileName := paramCase (dm_name model) in
  let path := path_join outDir (String.concat ""
    [fileName; ".ts"]) in
  let sf : SourceFile := [] in
  let sf := sf_addStatements sf ["/* eslint-disable */"] in
  let prismaImport := getPrismaClientImportSpec outDir in
  let sf := sf ++ [ImportDeclaration ["Prisma"; dm_name model] true prismaImport] in
  imports ← makeBaseImports target version;
  let sf := sf_addStatements sf imports in
  sf ← ifMapped (mapped (mapping_create mapping) || mapped (mapping_createOne mapping))
    (fun sf => generateMutationHook target sf (dm_name model) "create" "post" true None) sf;
  sf ← ifMapped (mapped (mapping_createMany mapping))
    (fun sf => generateMutationHook target sf (dm_name model) "createMany" "post" false
                 (Some "Prisma.BatchPayload")) sf;
  sf ← ifMapped (mapped (mapping_findMany mapping))
    (fun sf => generateQueryHook target version sf (dm_name model) "findMany" true true
                 None None None true true) sf;
  sf ← ifMapped (mapped (mapping_findUnique mapping))
    (fun sf => generateQueryHook target version sf (dm_name model) "findUnique" false false
                 None None None false true) sf;
  sf ← ifMapped (mapped (mapping_findFirst mapping))
    (fun sf => generateQueryHook target version sf (dm_name model) "findFirst" false true
                 None None None false true) sf;
  sf ← ifMapped (mapped (mapping_update mapping) || mapped (mapping_updateOne mapping))
    (fun sf => generateMutationHook target sf (dm_name model) "update" "put" true None) sf;
  sf ← ifMapped (mapped (mapping_updateMany mapping))
    (fun sf => generateMutationHook target sf (dm_name model) "updateMany" "put" false
                 (Some "Prisma.BatchPayload")) sf;
  sf ← ifMapped (mapped (mapping_upsert mapping) || mapped (mapping_upsertOne mapping))
    (fun sf => generateMutationHook target sf (dm_name model) "upsert" "post" true None) sf;
  sf ← ifMapped (mapped (mapping_delete mapping) || mapped (mapping_deleteOne mapping))
    (fun sf => generateMutationHook target sf (dm_name model) "delete" "delete" true None) sf;
  sf ← ifMapped (mapped (mapping_deleteMany mapping))
    (fun sf => generateMutationHook target sf (dm_name model) "deleteMany" "delete" false
                 (Some "Prisma.BatchPayload")) sf;
  sf ← ifMapped (mapped (mapping_aggregate mapping))
    (fun sf => generateQueryHook target version sf modelNameCap "aggregate" false false
                 (Some (String.concat ""
                   ["Prisma.Get"; modelNameCap; "AggregateType<TArgs>"]))
                 None None false false) sf;
  sf ← ifMapped (mapped (mapping_groupBy mapping))
    (fun sf =>
       let useName :=
         match prismaVersion with
         | Some v => if negb (semver_lt v v5_0_0) then dm_name model else modelNameCap
         | None => modelNameCap
         end in
       let returnType := String.concat ""
         ["{} extends InputErrors ? "; nl;
          "        Array<PickEnumerable<Prisma."; modelNameCap; "GroupByOutputType, TArgs['by']> &"; nl;
          "          {"; nl;
          "            [P in ((keyof TArgs) & (keyof Prisma."; modelNameCap; "GroupByOutputType))]: P extends '_count'"; nl;
          "              ? TArgs[P] extends boolean"; nl;
          "                ? number"; nl;
          "                : Prisma.GetScalarType<TArgs[P], Prisma."; modelNameCap; "GroupByOutputType[P]>"; nl;
          "              : Prisma.GetScalarType<TArgs[P], Prisma."; modelNameCap; "GroupByOutputType[P]>"; nl;
          "          }"; nl;
          "        > : InputErrors"] in
       let typeParameters :=
         [String.concat ""
       ["TArgs extends Prisma."; useName; "GroupByArgs"];
          String.concat ""
       ["HasSelectOrTake extends Prisma.Or<Prisma.Extends<'skip', Prisma.Keys<TArgs>>, Prisma.Extends<'take', Prisma.Keys<TArgs>>>"];
          String.concat ""
       ["OrderByArg extends Prisma.True extends HasSelectOrTake ? { orderBy: Prisma."; useName; "GroupByArgs['orderBy'] }: { orderBy?: Prisma."; useName; "GroupByArgs['orderBy'] },"];
          String.concat ""
       ["OrderFields extends Prisma.ExcludeUnderscoreKeys<Prisma.Keys<Prisma.MaybeTupleToUnion<TArgs['orderBy']>>>"];
          String.concat ""
       ["ByFields extends Prisma.MaybeTupleToUnion<TArgs['by']>"];
          String.concat ""
       ["ByValid extends Prisma.Has<ByFields, OrderFields>"];
          String.concat ""
       ["HavingFields extends Prisma.GetHavingFields<TArgs['having']>"];
          String.concat ""
       ["HavingValid extends Prisma.Has<ByFields, HavingFields>"];
          String.concat ""
       ["ByEmpty extends TArgs['by'] extends never[] ? Prisma.True : Prisma.False"];
          String.concat ""
       ["InputErrors extends ByEmpty extends Prisma.True"; nl;
        "            ? `Error: "; dquote; "by"; dquote; " must not be empty.`"; nl;
        "            : HavingValid extends Prisma.False"; nl;
        "            ? {"; nl;
        "                [P in HavingFields]: P extends ByFields"; nl;
        "                ? never"; nl;
        "                : P extends string"; nl;
        "                ? `Error: Field "; dquote; "${P}"; dquote; " used in "; dquote; "having"; dquote; " needs to be provided in "; dquote; "by"; dquote; ".`"; nl;
        "                : ["; nl;
        "                    Error,"; nl;
        "                    'Field ',"; nl;
        "                    P,"; nl;
        "                    ` in "; dquote; "having"; dquote; " needs to be provided in "; dquote; "by"; dquote; "`,"; nl;
        "                    ]"; nl;
        "            }[HavingFields]"; nl;
        "            : 'take' extends Prisma.Keys<TArgs>"; nl;
        "            ? 'orderBy' extends Prisma.Keys<TArgs>"; nl;
        "            ? ByValid extends Prisma.True"; nl;
        "                ? {}"; nl;
        "                : {"; nl;
        "                    [P in OrderFields]: P extends ByFields"; nl;
        "                    ? never"; nl;
        "                    : `Error: Field "; dquote; "${P}"; dquote; " in "; dquote; "orderBy"; dquote; " needs to be provided in "; dquote; "by"; dquote; "`"; nl;
        "                }[OrderFields]"; nl;
        "            : 'Error: If you provide "; dquote; "take"; dquote; ", you also need to provide "; dquote; "orderBy"; dquote; "'"; nl;
        "            : 'skip' extends Prisma.Keys<TArgs>"; nl;
        "            ? 'orderBy' extends Prisma.Keys<TArgs>"; nl;
        "            ? ByValid extends Prisma.True"; nl;
        "                ? {}"; nl;
        "                : {"; nl;
        "                    [P in OrderFields]: P extends ByFields"; nl;
        "                    ? never"; nl;
        "                    : `Error: Field "; dquote; "${P}"; dquote; " in "; dquote; "orderBy"; dquote; " needs to be provided in "; dquote; "by"; dquote; "`"; nl;
        "                }[OrderFields]"; nl;
        "            : 'Error: If you provide "; dquote; "skip"; dquote; ", you also need to provide "; dquote; "orderBy"; dquote; "'"; nl;
        "            : ByValid extends Prisma.True"; nl;
        "            ? {}"; nl;
        "            : {"; nl;
        "                [P in OrderFields]: P extends ByFields"; nl;
        "                ? never"; nl;
        "                : `Error: Field "; dquote; "${P}"; dquote; " in "; dquote; "orderBy"; dquote; " needs to be provided in "; dquote; "by"; dquote; "`"; nl;
        "            }[OrderFields]"];
          String.concat ""
       ["TQueryFnData = "; returnType];
          String.concat ""
       ["TData = TQueryFnData"];
          String.concat ""
       ["TError = DefaultError"]] in
       generateQueryHook target version sf (dm_name model) "groupBy" false false
         (Some returnType)
         (Some (String.concat ""
            ["Prisma.SubsetIntersection<TArgs, Prisma."; useName; "GroupByArgs, OrderByArg> & InputErrors"]))
         (Some typeParameters) false false) sf;
  sf ← generateQueryHook target version sf (dm_name model) "count" false true
         (Some (String.concat ""
            ["TArgs extends { select: any; } ? TArgs['select'] extends true ? number : Prisma.GetScalarType<TArgs['select'], Prisma."; modelNameCap; "CountAggregateOutputType> : number"]))
         None None false false;
  Ok (<[path := sf]> project).

Definition generateIndex (project : Project) (outDir : string) (models : list DataModel)
  (target : string) (version : TanStackVersion) : Project :=
  let runtimeImportBase := makeRuntimeImportBase version in
  let path := path_join outDir "index.ts" in
  let sf : SourceFile := [] in
  let sf :=
    sf_addStatements sf
      (map (fun d => String.concat ""
                    ["export * from './"; paramCase (dm_name d); "';"]) models) in
  let sf :=
    sf_addStatements sf
      [String.concat ""
       ["export { getQueryKey } from '"; runtimeImportBase; "';"]] in
  let sf :=
    if String.eqb target "react" then
      sf_addStatements sf
        [String.concat ""
         ["export { Provider } from '"; runtimeImportBase; "/react';"]]
    else if String.eqb target "vue" then
      sf_addStatements sf
        [String.concat ""
         ["export { VueQueryContextKey, provideHooksContext } from '"; runtimeImportBase; "/vue';"]]
    else if String.eqb target "svelte" then
      sf_addStatements sf
        [String.concat ""
         ["export { SvelteQueryContextKey, setHooksContext } from '"; runtimeImportBase; "/svelte';"]]
    else sf in
  <[path := sf]> project.

End TanstackQuery.

(** The operations that [getPrismaOperationTypes] has a case for. *)
Definition typedOperations : list string :=
  ["findUnique"; "findUniqueOrThrow"; "findFirst"; "findFirstOrThrow"; "findMany";
   "create"; "createMany"; "update"; "updateMany"; "upsert"; "delete"; "deleteMany";
   "count"; "aggregate"; "groupBy"].

Definition unsupportedOperation (name operation : string) : Error :=
  PluginError name (String.concat "" ["Unsupported operation: "; dquote; operation; dquote]).

Definition isSome {A : Type} (o : option A) : bool :=
  match o with Some _ => true | None => false end.

(** [s.endsWith(suffix)] on strings. *)
Fixpoint String_endsWith (s suffix : string) : bool :=
  String.eqb s suffix ||
  match s with
  | EmptyString => false
  | String _ r => String_endsWith r suffix
  end.

(** The function declares a parameter [optimisticUpdate]. *)
Definition declaresOptimisticUpdate (func : FunctionDeclaration) : bool :=
  existsb (fun p => String.eqb (param_name p) "optimisticUpdate") (func_parameters func).

(** The last statement of the function is a call that ends with the argument
    [optimisticUpdate]. *)
Definition passesOptimisticUpdate (func : FunctionDeclaration) : bool :=
  match last (func_statements func) with
  | Some (Statement text) => String_endsWith text ", optimisticUpdate);"
  | _ => false
  end.

Definition allModes : list string := [""; "Infinite"; "Suspense"; "SuspenseInfinite"].

(** An infinite mode needs [supportInfinite], a suspense mode needs React
    with TanStack Query v5. *)
Definition modeGenerated (target : string) (version : TanStackVersion) (supportInfinite : bool)
  (mode : string) : bool :=
  implb (String_includes "Infinite" mode) supportInfinite
  && implb (String_includes "Suspense" mode) (String.eqb target "react" && isV5 version).

Definition queryHookName (model operation mode : string) : string :=
  String.concat "" ["use"; mode; upperCaseFirst operation; model].

Definition unsupportedTarget (name target : string) : Error :=
  PluginError name (String.concat "" ["Unsupported target: "; target]).

(** What a query hook of the given mode looks like. *)
Definition queryHookOf (model operation : string) (supportOptimistic : bool)
  (mode : string) (func : FunctionDeclaration) : Prop :=
  func_name func = queryHookName model operation mode /\
  func_isExported func = true /\
  declaresOptimisticUpdate func = supportOptimistic && negb (String_includes "Infinite" mode) /\
  passesOptimisticUpdate func = declaresOptimisticUpdate func.

(** What a mutation hook looks like. *)
Definition mutationHookOf (model operation : string) (func : FunctionDeclaration) : Prop :=
  func_name func = String.concat "" ["use"; upperCaseFirst operation; model] /\
  func_isExported func = true /\
  map (fun p => (param_name p, param_initializer p)) (func_parameters func)
    = [("options?", None); ("invalidateQueries", Some "true");
       ("optimisticUpdate", Some "false")] /\
  exists context initializer override,
    func_statements func
      = [Statement context; ConstStatement "_mutation" initializer;
         ConstStatement "mutation" override; Statement "return mutation;"].

(** The path of the file that [generateModelHooks] creates, and what the
    file starts with. *)
Definition hooksFilePath (paramCase : string -> string) (path_join : string -> string -> string)
  (outDir : string) (model : DataModel) : string :=
  path_join outDir (String.concat "" [paramCase (dm_name model); ".ts"]).

Definition hooksFileHeader (getPrismaClientImportSpec : string -> string) (outDir : string)
  (model : DataModel) : list SourceItem :=
  [SourceStatement "/* eslint-disable */";
   ImportDeclaration ["Prisma"; dm_name model] true (getPrismaClientImportSpec outDir)].

(** [paramCase] on a name of one word, and [path.join] on two plain
    segments. *)
Fixpoint String_toLowerCase (s : string) : string :=
  match s with
  | EmptyString => EmptyString
  | String c r => String (toLowerCase c) (String_toLowerCase r)
  end.

Definition joinSegments (a b : string) : string := String.concat "/" [a; b].

Definition samplePlugin : string := "@zenstackhq/tanstack-query".

Definition sampleDataModel (name : string) : DataModel := MkDataModel name false [] [] [].

Definition sampleMapping : ModelMapping :=
  MkModelMapping None (Some "createOnePost") None (Some "findManyPost") None None
    None None None None None None None None (Some "aggregatePost") None.

(** * Properties *)

(** ** The attribute classifier *)

Lemma is_prisma_marker_spec (a : InternalAttribute) :
  is_prisma_marker a = true <->
  exists m, ref (ia_decl a) = Some m /\ attr_name m = "@@@prisma".
Proof.
  unfold is_prisma_marker. destruct (ref (ia_decl a)) as [m|].
  - rewrite String.eqb_eq. split.
    + intros H. exists m. auto.
    + intros (m' & Hm & Hn). congruence.
  - split; [discriminate | intros (m & Hm & _); discriminate].
Qed.

Lemma existsb_marker_spec (d : Attribute) :
  existsb is_prisma_marker (attr_attributes d) = true <-> carries_prisma_marker d.
Proof.
  unfold carries_prisma_marker. rewrite existsb_exists. split.
  - intros (a & Hin & Ha). apply is_prisma_marker_spec in Ha as (m & Hm & Hn).
    exists a, m. auto.
  - intros (a & m & Hin & Hm & Hn). exists a. split; [exact Hin|].
    apply is_prisma_marker_spec. eauto.
Qed.

(** C1. The classifier returns true exactly when the attribute's declaration
    is resolved and either carries the [@@@prisma] marker or is named
    [@@prisma.passthrough] or [@prisma.passthrough]; it returns false when
    the reference is unresolved and in every other case. *)
Theorem isPrismaAttribute_spec (attr : DataModelAttribute) :
  (isPrismaAttribute attr = true <-> emittable attr) /\
  (isPrismaAttribute attr = false <-> ~ emittable attr) /\
  (ref (decl attr) = None -> isPrismaAttribute attr = false).
Proof.
  assert (Hiff : isPrismaAttribute attr = true <-> emittable attr).
  { unfold isPrismaAttribute, emittable.
    destruct (ref (decl attr)) as [d|].
    - rewrite !orb_true_iff, !String.eqb_eq, existsb_marker_spec.
      unfold MODEL_PASSTHROUGH_ATTR, FIELD_PASSTHROUGH_ATTR. split.
      + intros H. exists d. split; [reflexivity | tauto].
      + intros (d' & Hd & H). injection Hd as <-. tauto.
    - split; [discriminate | intros (d & Hd & _); discriminate]. }
  split; [exact Hiff|]. split.
  - rewrite <- Hiff. destruct (isPrismaAttribute attr); split; congruence.
  - intros Hnone. unfold isPrismaAttribute. rewrite Hnone. reflexivity.
Qed.

Lemma isPrismaAttribute_spec_witness :
  let attr := MkDataModelAttribute (MkReference "@@allow" None) [] in
  ref (decl attr) = None /\ isPrismaAttribute attr = false.
Proof.
  intros attr. split; [reflexivity|].
  apply (proj2 (proj2 (isPrismaAttribute_spec attr))). reflexivity.
Defined.

(** ** Pass-through attributes *)

Lemma makeFieldAttribute_passthrough (t : string) (d : Attribute) (args : list AttributeArg) :
  attr_name d = FIELD_PASSTHROUGH_ATTR ->
  makeFieldAttribute (passThroughInstance t d args) =
  match args with
  | [] => Err TypeError
  | arg0 :: _ =>
      if yields_text (aa_value arg0)
      then match getLiteral (aa_value arg0) with
           | Some text => Ok (PrismaPassThroughAttribute text)
           | None => Err invalidPassThrough
           end
      else Err invalidPassThrough
  end.
Proof.
  intros Hname. unfold makeFieldAttribute, passThroughInstance, resolved. cbn.
  rewrite Hname. cbn. destruct args as [|arg0 rest]; [reflexivity|].
  unfold yields_text. destruct (getLiteral (aa_value arg0)) as [v|]; [|reflexivity].
  destruct (truthy v); reflexivity.
Qed.

Lemma generateContainerAttribute_passthrough
    (t : string) (d : Attribute) (args : list AttributeArg) (attributes : list PrismaAttribute) :
  attr_name d = MODEL_PASSTHROUGH_ATTR ->
  generateContainerAttribute attributes (passThroughInstance t d args) =
  match args with
  | [] => Err TypeError
  | arg0 :: _ =>
      if yields_text (aa_value arg0)
      then match getLiteral (aa_value arg0) with
           | Some text => Ok (attributes ++ [PrismaPassThroughAttribute text])
           | None => Ok attributes
           end
      else Ok attributes
  end.
Proof.
  intros Hname. unfold generateContainerAttribute, passThroughInstance, resolved. cbn.
  rewrite Hname. cbn. destruct args as [|arg0 rest]; [reflexivity|].
  unfold yields_text. destruct (getLiteral (aa_value arg0)) as [v|]; [|reflexivity].
  destruct (truthy v); reflexivity.
Qed.

(** C2, as the code has it.  For a pass-through attribute whose first
    argument is present but gives no text (it is not a literal, or it is an
    empty string, zero or false): the field-level attribute
    [@prisma.passthrough] fails with the plugin error "Invalid arguments for
    @prisma.passthrough attribute", and the container-level attribute
    [@@prisma.passthrough] silently adds no attribute. *)
Theorem passthrough_without_text
    (fieldDecl modelDecl : Attribute) (t1 t2 : string)
    (arg0 : AttributeArg) (rest : list AttributeArg) (attributes : list PrismaAttribute) :
  attr_name fieldDecl = "@prisma.passthrough" ->
  attr_name modelDecl = "@@prisma.passthrough" ->
  yields_text (aa_value arg0) = false ->
  makeFieldAttribute (passThroughInstance t1 fieldDecl (arg0 :: rest)) = Err invalidPassThrough /\
  generateContainerAttribute attributes (passThroughInstance t2 modelDecl (arg0 :: rest))
  = Ok attributes.
Proof.
  intros Hf Hm Htext. split.
  - rewrite makeFieldAttribute_passthrough by exact Hf. rewrite Htext. reflexivity.
  - rewrite generateContainerAttribute_passthrough by exact Hm. rewrite Htext. reflexivity.
Qed.

Lemma passthrough_without_text_witness :
  let arg0 := MkAttributeArg None (ArrayExpr []) in
  makeFieldAttribute
    (passThroughInstance "@prisma.passthrough" (MkAttribute "@prisma.passthrough" []) [arg0])
  = Err invalidPassThrough /\
  generateContainerAttribute []
    (passThroughInstance "@@prisma.passthrough" (MkAttribute "@@prisma.passthrough" []) [arg0])
  = Ok [].
Proof.
  intros arg0.
  apply (passthrough_without_text
           (MkAttribute "@prisma.passthrough" []) (MkAttribute "@@prisma.passthrough" [])
           "@prisma.passthrough" "@@prisma.passthrough" arg0 [] []);
    reflexivity.
Defined.

(** C2, as stated, fails: with an array as its only argument, the
    container-level pass-through attribute does not fail (it returns the
    attribute list unchanged) and the field-level one is not silent (it
    throws). *)
Lemma passthrough_asymmetry_counterexample :
  let arg0 := MkAttributeArg None (ArrayExpr []) in
  let containerAttr :=
    passThroughInstance "@@prisma.passthrough" (MkAttribute "@@prisma.passthrough" []) [arg0] in
  let fieldAttr :=
    passThroughInstance "@prisma.passthrough" (MkAttribute "@prisma.passthrough" []) [arg0] in
  isStringLiteral (aa_value arg0) = false /\
  is_Ok (generateContainerAttribute [] containerAttr) = true /\
  is_Ok (makeFieldAttribute fieldAttr) = false.
Proof. cbv zeta. repeat split. Qed.

(** C9. Both pass-through handlers read [attr.args[0].value] unguarded.
    With no argument the read fails with a [TypeError], which is not the
    plugin error of the invalid-argument path; with at least one argument
    neither handler raises it: the field-level handler returns the
    pass-through attribute or the plugin error, the container-level handler
    returns normally. *)
Theorem passthrough_first_argument_unguarded
    (fieldDecl modelDecl : Attribute) (t1 t2 : string) (attributes : list PrismaAttribute) :
  attr_name fieldDecl = "@prisma.passthrough" ->
  attr_name modelDecl = "@@prisma.passthrough" ->
  (makeFieldAttribute (passThroughInstance t1 fieldDecl []) = Err TypeError /\
   generateContainerAttribute attributes (passThroughInstance t2 modelDecl []) = Err TypeError /\
   Err (A := PrismaAttribute) TypeError <> Err invalidPassThrough) /\
  (forall (arg0 : AttributeArg) (rest : list AttributeArg),
      (makeFieldAttribute (passThroughInstance t1 fieldDecl (arg0 :: rest)) = Err invalidPassThrough
       \/ exists text,
            makeFieldAttribute (passThroughInstance t1 fieldDecl (arg0 :: rest))
            = Ok (PrismaPassThroughAttribute text)) /\
      is_Ok (generateContainerAttribute attributes
               (passThroughInstance t2 modelDecl (arg0 :: rest))) = true).
Proof.
  intros Hf Hm. split.
  - split; [|split].
    + rewrite makeFieldAttribute_passthrough by exact Hf. reflexivity.
    + rewrite generateContainerAttribute_passthrough by exact Hm. reflexivity.
    + discriminate.
  - intros arg0 rest. split.
    + rewrite makeFieldAttribute_passthrough by exact Hf.
      destruct (yields_text (aa_value arg0)); [|left; reflexivity].
      destruct (getLiteral (aa_value arg0)) as [v|]; [right; eauto | left; reflexivity].
    + rewrite generateContainerAttribute_passthrough by exact Hm.
      destruct (yields_text (aa_value arg0)); [|reflexivity].
      destruct (getLiteral (aa_value arg0)); reflexivity.
Qed.

Lemma passthrough_first_argument_unguarded_witness :
  makeFieldAttribute
    (passThroughInstance "@prisma.passthrough" (MkAttribute "@prisma.passthrough" []) [])
  = Err TypeError /\
  generateContainerAttribute []
    (passThroughInstance "@@prisma.passthrough" (MkAttribute "@@prisma.passthrough" []) [])
  = Err TypeError.
Proof.
  pose proof (passthrough_first_argument_unguarded
                (MkAttribute "@prisma.passthrough" []) (MkAttribute "@@prisma.passthrough" [])
                "@prisma.passthrough" "@@prisma.passthrough" [] eq_refl eq_refl) as [(H1 & H2 & _) _].
  split; assumption.
Defined.

(** ** Field types *)

Lemma getUnsupportedFieldType_escape (fieldType : DataModelFieldType) :
  getUnsupportedFieldType fieldType = unsupportedEscape fieldType.
Proof.
  unfold getUnsupportedFieldType, unsupportedEscape.
  destruct (unsupported fieldType) as [[e]|]; [|reflexivity]. cbn.
  destruct e as [[[|c r]| |]| | | | | | | | |]; reflexivity.
Qed.

Lemma unsupportedEscape_nonempty (fieldType : DataModelFieldType) (t : string) :
  unsupportedEscape fieldType = Some t -> t <> "".
Proof.
  unfold unsupportedEscape.
  destruct (unsupported fieldType) as [[e]|]; [|discriminate].
  destruct e as [[[|c r]| |]| | | | | | | | |]; try discriminate.
  intros [= <-]. discriminate.
Qed.

Lemma truthy_string_nonempty (s t : string) : truthy_string (Some s) = Some t -> t <> "".
Proof. destruct s; cbn; [discriminate | intros [= <-]; discriminate]. Qed.

Lemma truthy_string_id (t : string) : t <> "" -> truthy_string (Some t) = Some t.
Proof. destruct t; [congruence | reflexivity]. Qed.

Lemma resolveFieldType_targetTypeName (fieldType : DataModelFieldType) :
  resolveFieldType fieldType = targetTypeName fieldType.
Proof.
  unfold resolveFieldType, targetTypeName, js_or, referenceName.
  rewrite getUnsupportedFieldType_escape.
  assert (Hu : truthy_string (unsupportedEscape fieldType) = unsupportedEscape fieldType).
  { destruct (unsupportedEscape fieldType) as [u|] eqn:Hu; [|reflexivity].
    apply truthy_string_id. eapply unsupportedEscape_nonempty; eassumption. }
  destruct (type fieldType) as [ty|]; [destruct ty as [|c r]; [|reflexivity]|];
    (destruct (reference fieldType) as [rf|]; [|exact Hu];
     destruct rf as [rt rd]; cbn; destruct rd as [td|]; [|exact Hu];
     destruct td as [n]; cbn; destruct n as [|c' r']; [exact Hu | reflexivity]).
Qed.

Lemma targetTypeName_nonempty (fieldType : DataModelFieldType) (t : string) :
  targetTypeName fieldType = Some t -> t <> "".
Proof.
  rewrite <- resolveFieldType_targetTypeName. unfold resolveFieldType.
  destruct (js_or _ _) as [s|]; [apply truthy_string_nonempty | discriminate].
Qed.

Lemma fold_addFieldComment (cs : list string) (f : PrismaModelField) :
  fold_left addFieldComment cs f =
  MkPrismaModelField (pmf_name f) (pmf_type f) (pmf_attributes f) (pmf_documentations f ++ cs).
Proof.
  revert f. induction cs as [|c cs IH]; intros f; cbn.
  - rewrite app_nil_r. destruct f; reflexivity.
  - rewrite IH. cbn. rewrite <- app_assoc. reflexivity.
Qed.

(** C3. [generateModelField] gives the target field the scalar type name if
    present, otherwise the resolved reference name, otherwise the
    [Unsupported("...")] escape.  When none of the three gives a non-empty
    type it throws the plugin error that names the container and the field.
    The field is never dropped: the call either throws or appends exactly
    one field of that name and type to the model. *)
Theorem generateModelField_type
    (gen : DataModelAttribute -> string) (model : PrismaDataModel) (field : DataModelField) :
  match targetTypeName (field_type field) with
  | None => generateModelField gen model field = Err (fieldTypeNotResolved field)
  | Some t =>
      t <> "" /\
      match getAttributesToGenerate field with
      | Err e => generateModelField gen model field = Err e
      | Ok attributes =>
          exists f,
            generateModelField gen model field = Ok (addField model f) /\
            pm_fields (addField model f) = pm_fields model ++ [f] /\
            pmf_name f = field_name field /\
            pmf_type f = MkModelFieldType t (array (field_type field)) (optional (field_type field)) /\
            pmf_attributes f = attributes
      end
  end.
Proof.
  unfold generateModelField. rewrite resolveFieldType_targetTypeName.
  destruct (targetTypeName (field_type field)) as [t|] eqn:Ht; [|reflexivity].
  split; [eapply targetTypeName_nonempty; eassumption|].
  destruct (getAttributesToGenerate field) as [attributes|e]; cbn; [|reflexivity].
  rewrite fold_addFieldComment. cbn.
  eexists. split; [reflexivity|]. cbn. auto.
Qed.

(** ** Defaults that depend on [auth()] *)

Lemma streamAst_root (root : Expression) : In root (streamAst root).
Proof. destruct root; cbn; auto. Qed.

Lemma streamAst_child (root c node : Expression) :
  child root c -> In node (streamAst c) -> In node (streamAst root).
Proof.
  intros Hc Hin. destruct Hc as [items c Hi|function args a Hi| | | | |fields f Hi];
    cbn; right.
  - apply in_flat_map. exists c. auto.
  - apply in_flat_map. exists a. split; [exact Hi|]. destruct a; exact Hin.
  - exact Hin.
  - exact Hin.
  - apply in_or_app. left. exact Hin.
  - apply in_or_app. right. exact Hin.
  - apply in_flat_map. exists f. split; [exact Hi|]. destruct f; exact Hin.
Qed.

Lemma streamAst_contains (root node : Expression) :
  contains root node -> In node (streamAst root).
Proof.
  induction 1 as [root|root c node Hc _ IH].
  - apply streamAst_root.
  - eapply streamAst_child; eassumption.
Qed.

Lemma getAttribute_first (pre post : list DataModelAttribute) (a : DataModelAttribute)
    (name : string) :
  Forall (fun x => refText (decl x) <> name) pre ->
  refText (decl a) = name ->
  getAttribute (pre ++ a :: post) name = Some a.
Proof.
  intros Hpre Ha. unfold getAttribute.
  induction Hpre as [|x pre Hx _ IH]; cbn.
  - apply String.eqb_eq in Ha. rewrite Ha. reflexivity.
  - apply String.eqb_neq in Hx. rewrite Hx. exact IH.
Qed.

(** C4. When the first argument of a field's [@default] attribute contains
    an [auth()] invocation anywhere in its subtree, no attribute is
    generated for the field, whatever its other attributes: the generated
    target field has an empty attribute list. *)
Theorem auth_default_suppression
    (gen : DataModelAttribute -> string) (model : PrismaDataModel) (field : DataModelField)
    (pre post : list DataModelAttribute) (defaultAttr : DataModelAttribute)
    (arg0 : AttributeArg) (rest : list AttributeArg) (node : Expression) :
  field_attributes field = pre ++ defaultAttr :: post ->
  Forall (fun a => refText (decl a) <> "@default") pre ->
  refText (decl defaultAttr) = "@default" ->
  args defaultAttr = arg0 :: rest ->
  contains (aa_value arg0) node ->
  isAuthInvocation node = true ->
  getAttributesToGenerate field = Ok [] /\
  match generateModelField gen model field with
  | Ok model' =>
      exists f, model' = addField model f /\
                pmf_name f = field_name field /\ pmf_attributes f = []
  | Err e => e = fieldTypeNotResolved field
  end.
Proof.
  intros Hattrs Hpre Hdef Hargs Hsub Hauth.
  assert (Hh : hasDefaultWithAuth field = true).
  { unfold hasDefaultWithAuth. rewrite Hattrs.
    rewrite (getAttribute_first pre post defaultAttr "@default" Hpre Hdef), Hargs.
    apply existsb_exists. exists node. split; [|exact Hauth].
    apply streamAst_contains. exact Hsub. }
  assert (Hg : getAttributesToGenerate field = Ok []).
  { unfold getAttributesToGenerate. rewrite Hh. reflexivity. }
  split; [exact Hg|].
  unfold generateModelField. rewrite Hg.
  destruct (resolveFieldType (field_type field)) as [t|]; [|reflexivity].
  cbn. rewrite fold_addFieldComment. cbn.
  eexists. split; [reflexivity|]. cbn. auto.
Qed.

Lemma auth_default_suppression_witness :
  getAttributesToGenerate fieldWithAuthDefault = Ok [] /\
  match generateModelField (fun _ => "") (MkPrismaDataModel "Post" false [] [] [])
          fieldWithAuthDefault with
  | Ok model' =>
      exists f, model' = addField (MkPrismaDataModel "Post" false [] [] []) f /\
                pmf_name f = "ownerId" /\ pmf_attributes f = []
  | Err e => e = fieldTypeNotResolved fieldWithAuthDefault
  end.
Proof.
  apply (auth_default_suppression (fun _ => "") (MkPrismaDataModel "Post" false [] [] [])
           fieldWithAuthDefault
           [List.hd (MkDataModelAttribute (MkReference "" None) [])
              (field_attributes fieldWithAuthDefault)]
           []
           (List.nth 1 (field_attributes fieldWithAuthDefault)
              (MkDataModelAttribute (MkReference "" None) []))
           (MkAttributeArg None
              (MemberAccessExpr authInvocation (MkReference "id" (Some (MkReferenceTarget "id")))))
           [] authInvocation).
  - reflexivity.
  - repeat constructor. cbn. discriminate.
  - reflexivity.
  - reflexivity.
  - cbn. eapply contains_child; [apply child_member | apply contains_root].
  - reflexivity.
Defined.

(** ** Function calls *)

Lemma mapM_result_cons {A B : Type} (f : A -> result B) (x : A) (l : list A) :
  mapM f (x :: l) =
  match f x with
  | Ok y => match mapM f l with Ok k => Ok (y :: k) | Err e => Err e end
  | Err e => Err e
  end.
Proof. reflexivity. Qed.

Lemma makeFunctionCallArg_literalOrNull (a : Argument) :
  if literalOrNull a
  then exists a', makeFunctionCallArg a = Ok a' /\ translatedArgument a a'
  else makeFunctionCallArg a = Err argumentNotLiteral.
Proof.
  unfold literalOrNull, makeFunctionCallArg, translatedArgument.
  destruct a as [n v]. cbn.
  destruct v as [[s|z|b]| | | | | | | | |]; cbn; try reflexivity;
    (eexists; split; [reflexivity|]; cbn; split; [reflexivity|]).
  - constructor.
  - constructor.
  - exact (text_boolean b).
  - constructor.
Qed.

Lemma mapM_makeFunctionCallArg (args : list Argument) :
  if forallb literalOrNull args
  then exists args', mapM makeFunctionCallArg args = Ok args' /\
                     Forall2 translatedArgument args args'
  else mapM makeFunctionCallArg args = Err argumentNotLiteral.
Proof.
  induction args as [|a args IH].
  - exists []. split; [reflexivity | constructor].
  - rewrite mapM_result_cons. cbn [forallb].
    pose proof (makeFunctionCallArg_literalOrNull a) as Ha.
    destruct (literalOrNull a); cbn [andb].
    + destruct Ha as (a' & -> & Ht).
      destruct (forallb literalOrNull args).
      * destruct IH as (args' & -> & Hall). exists (a' :: args').
        split; [reflexivity | constructor; assumption].
      * rewrite IH. reflexivity.
    + rewrite Ha. reflexivity.
Qed.

(** C6. [makeFunctionCall], on an invocation whose function reference is
    resolved, translates each argument by its shape: a string literal is
    re-quoted, any other literal is rendered by [toString], a
    null literal becomes [null]; if some argument has another shape (a
    nested invocation, an array, ...) the call throws "Function call
    argument must be literal or null". *)
Theorem makeFunctionCall_arguments
    (function : Reference FunctionDecl) (f : FunctionDecl) (args : list Argument) :
  ref function = Some f ->
  if forallb literalOrNull args
  then exists args',
         makeFunctionCall function args = Ok (MkPrismaFunctionCall (fn_name f) args') /\
         Forall2 translatedArgument args args'
  else makeFunctionCall function args
       = Err (PluginError plugin_name "Function call argument must be literal or null").
Proof.
  intros Hf. unfold makeFunctionCall, resolved. rewrite Hf. cbn.
  pose proof (mapM_makeFunctionCallArg args) as Hargs.
  destruct (forallb literalOrNull args).
  - destruct Hargs as (args' & -> & Hall). exists args'. split; [reflexivity | exact Hall].
  - rewrite Hargs. reflexivity.
Qed.

Lemma makeFunctionCall_arguments_witness :
  (exists args',
      makeFunctionCall envFunction
        [MkArgument None (ELiteral (StringLiteral "DATABASE_URL"));
         MkArgument (Some "length") (ELiteral (NumberLiteral 12));
         MkArgument None NullExpr]
      = Ok (MkPrismaFunctionCall "env" args') /\
      Forall2 translatedArgument
        [MkArgument None (ELiteral (StringLiteral "DATABASE_URL"));
         MkArgument (Some "length") (ELiteral (NumberLiteral 12));
         MkArgument None NullExpr] args') /\
  makeFunctionCall envFunction [MkArgument None (InvocationExpr envFunction [])]
  = Err (PluginError plugin_name "Function call argument must be literal or null") /\
  makeFunctionCall envFunction [MkArgument None (ArrayExpr [])]
  = Err (PluginError plugin_name "Function call argument must be literal or null").
Proof.
  split; [|split].
  - apply (makeFunctionCall_arguments envFunction (MkFunctionDecl "env" true)
             [MkArgument None (ELiteral (StringLiteral "DATABASE_URL"));
              MkArgument (Some "length") (ELiteral (NumberLiteral 12));
              MkArgument None NullExpr]).
    reflexivity.
  - apply (makeFunctionCall_arguments envFunction (MkFunctionDecl "env" true)
             [MkArgument None (InvocationExpr envFunction [])]).
    reflexivity.
  - apply (makeFunctionCall_arguments envFunction (MkFunctionDecl "env" true)
             [MkArgument None (ArrayExpr [])]).
    reflexivity.
Defined.

(** ** Id fields *)

Lemma filter_isId_nil (l : list FieldInfo) :
  List.filter isId l = [] <-> (forall f, In f l -> isId f = false).
Proof.
  induction l as [|x l IH]; cbn.
  - split; [intros _ f [] | reflexivity].
  - destruct (isId x) eqn:Hx.
    + split; [discriminate|]. intros H. specialize (H x (or_introl eq_refl)). congruence.
    + rewrite IH. split.
      * intros H f [<-|Hin]; auto.
      * intros H f Hin. apply H. right. exact Hin.
Qed.

Lemma length_eqb_0 {A : Type} (l : list A) : (length l =? 0)%nat = true <-> l = [].
Proof. destruct l; cbn; split; congruence. Qed.

(** C10. With [throwIfNotFound = false], [getIdFields] never throws and
    returns exactly the fields of the model whose [isId] flag is set (none
    when the model is absent from the metadata).  It throws if and only if
    [throwIfNotFound] is true and either the model has no field table or no
    field of it has [isId] set; when it returns, it returns the same list. *)
Theorem getIdFields_spec (modelMeta : ModelMeta) (model : string) :
  getIdFields modelMeta model false = Ok (List.filter isId (fieldsOf modelMeta model)) /\
  (forall f, In f (List.filter isId (fieldsOf modelMeta model)) <->
             In f (fieldsOf modelMeta model) /\ isId f = true) /\
  (fieldTable modelMeta model = None -> getIdFields modelMeta model false = Ok []) /\
  (forall throwIfNotFound,
      is_Ok (getIdFields modelMeta model throwIfNotFound) = false <->
      throwIfNotFound = true /\
      (fieldTable modelMeta model = None \/ noIdField modelMeta model)) /\
  (forall throwIfNotFound r,
      getIdFields modelMeta model throwIfNotFound = Ok r ->
      r = List.filter isId (fieldsOf modelMeta model)).
Proof.
  unfold getIdFields, noIdField, fieldsOf, fieldTable.
  split; [|split; [|split; [|split]]].
  - destruct (fields modelMeta !! lowerCaseFirst model) as [table|]; cbn;
      rewrite ?andb_false_r; reflexivity.
  - intros f. apply filter_In.
  - intros ->. reflexivity.
  - intros [|]; destruct (fields modelMeta !! lowerCaseFirst model) as [table|]; cbn.
    + rewrite ?andb_true_r.
      destruct (length (List.filter isId (Object_values table)) =? 0)%nat eqn:Hlen; cbn.
      * apply length_eqb_0 in Hlen. pose proof (proj1 (filter_isId_nil _) Hlen) as Hno.
        split; [intros _; split; [reflexivity | right; exact Hno] | reflexivity].
      * split; [discriminate|]. intros [_ [Hnone|Hno]]; [discriminate|].
        apply (proj2 (filter_isId_nil _)) in Hno. apply (proj2 (length_eqb_0 _)) in Hno.
        congruence.
    + split; auto.
    + rewrite ?andb_false_r. cbn. split; [discriminate | intros [? _]; discriminate].
    + split; [discriminate | intros [? _]; discriminate].
  - intros [|] r; destruct (fields modelMeta !! lowerCaseFirst model) as [table|]; cbn.
    + rewrite ?andb_true_r.
      destruct (length (List.filter isId (Object_values table)) =? 0)%nat; [discriminate|].
      intros [= <-]. reflexivity.
    + discriminate.
    + rewrite ?andb_false_r. intros [= <-]. reflexivity.
    + intros [= <-]. reflexivity.
Qed.

Lemma getIdFields_spec_witness :
  getIdFields sampleMeta "Missing" false = Ok [].
Proof.
  apply (proj1 (proj2 (proj2 (getIdFields_spec sampleMeta "Missing")))).
  vm_compute. reflexivity.
Defined.

Example getIdFields_user :
  getIdFields sampleMeta "User" true = Ok [MkFieldInfo "id" "Int" true].
Proof. vm_compute. reflexivity. Qed.

Example getIdFields_log_throws :
  getIdFields sampleMeta "Log" true = Err (JsError "model Log does not have an id field").
Proof. vm_compute. reflexivity. Qed.

(** ** Models and enums: attributes, comments and order *)

Lemma isNonPrismaResolved_documented (attr : DataModelAttribute) :
  isNonPrismaResolved attr = documented attr.
Proof.
  unfold isNonPrismaResolved, documented, isResolved.
  destruct (ref (decl attr)); [rewrite andb_true_r | rewrite andb_false_r]; reflexivity.
Qed.

Lemma filter_isNonPrismaResolved (l : list DataModelAttribute) :
  List.filter isNonPrismaResolved l = List.filter documented l.
Proof. apply filter_ext. intros a. apply isNonPrismaResolved_documented. Qed.

Lemma generateContainerAttribute_emits
    (attributes attributes' : list PrismaAttribute) (attr : DataModelAttribute) :
  generateContainerAttribute attributes attr = Ok attributes' ->
  exists out, containerEmits attr out /\ attributes' = attributes ++ out.
Proof.
  unfold generateContainerAttribute, containerEmits, resolved.
  destruct (ref (decl attr)) as [d|]; cbn; [|discriminate].
  unfold MODEL_PASSTHROUGH_ATTR.
  destruct (String.eqb (attr_name d) "@@prisma.passthrough") eqn:Hname.
  - destruct (args attr) as [|arg0 rest] eqn:Hargs; [discriminate|].
    intros H. eexists. split.
    + exists d. split; [reflexivity|]. rewrite Hname. exists arg0, rest. split; reflexivity.
    + destruct (getLiteral (aa_value arg0)) as [text|].
      * destruct (truthy text); injection H as <-; [reflexivity | apply eq_sym, app_nil_r].
      * injection H as <-. apply eq_sym, app_nil_r.
  - destruct (mapM makeAttributeArg (args attr)) as [args'|e] eqn:Hargs; cbn; [|discriminate].
    intros [= <-]. eexists. split; [|reflexivity].
    exists d. split; [reflexivity|]. rewrite Hname. exists args'. split; reflexivity.
Qed.

Lemma forEachM_generateContainerAttribute
    (l : list DataModelAttribute) (attributes attributes' : list PrismaAttribute) :
  forEachM generateContainerAttribute attributes l = Ok attributes' ->
  exists outs, Forall2 containerEmits l outs /\ attributes' = attributes ++ concat outs.
Proof.
  revert attributes. induction l as [|attr l IH]; intros attributes; cbn.
  - intros [= <-]. exists []. split; [constructor | apply eq_sym, app_nil_r].
  - destruct (generateContainerAttribute attributes attr) as [attributes1|e] eqn:H1;
      cbn; [|discriminate].
    intros H2. apply generateContainerAttribute_emits in H1 as (out & Hout & ->).
    apply IH in H2 as (outs & Houts & ->).
    exists (out :: outs). split; [constructor; assumption|].
    cbn. rewrite app_assoc. reflexivity.
Qed.

Lemma fold_addModelComment (cs : list string) (m : PrismaDataModel) :
  fold_left addModelComment cs m =
  MkPrismaDataModel (pm_name m) (pm_isView m) (pm_fields m) (pm_attributes m)
    (pm_documentations m ++ cs).
Proof.
  revert m. induction cs as [|c cs IH]; intros m; cbn.
  - rewrite app_nil_r. destruct m; reflexivity.
  - rewrite IH. cbn. rewrite <- app_assoc. reflexivity.
Qed.

Lemma fold_addEnumComment (cs : list string) (e : PrismaEnum) :
  fold_left addEnumComment cs e =
  MkPrismaEnum (pe_name e) (pe_fields e) (pe_attributes e) (pe_documentations e ++ cs).
Proof.
  revert e. induction cs as [|c cs IH]; intros e; cbn.
  - rewrite app_nil_r. destruct e; reflexivity.
  - rewrite IH. cbn. rewrite <- app_assoc. reflexivity.
Qed.

Lemma generateModelField_appends
    (gen : DataModelAttribute -> string) (model model' : PrismaDataModel)
    (field : DataModelField) :
  generateModelField gen model field = Ok model' ->
  exists f, fieldGenerated field f /\ model' = addField model f.
Proof.
  unfold generateModelField. rewrite resolveFieldType_targetTypeName.
  destruct (targetTypeName (field_type field)) as [t|] eqn:Ht; [|discriminate].
  destruct (getAttributesToGenerate field) as [attributes|e] eqn:Ha; cbn; [|discriminate].
  rewrite fold_addFieldComment. cbn. intros [= <-].
  eexists. split; [|reflexivity]. unfold fieldGenerated. cbn. auto.
Qed.

Lemma forEachM_generateModelField
    (gen : DataModelAttribute -> string) (l : list DataModelField)
    (model model' : PrismaDataModel) :
  forEachM (generateModelField gen) model l = Ok model' ->
  exists fs, Forall2 fieldGenerated l fs /\
             model' = MkPrismaDataModel (pm_name model) (pm_isView model)
                        (pm_fields model ++ fs) (pm_attributes model)
                        (pm_documentations model).
Proof.
  revert model. induction l as [|field l IH]; intros model; cbn.
  - intros [= <-]. exists []. split; [constructor|].
    rewrite app_nil_r. destruct model; reflexivity.
  - destruct (generateModelField gen model field) as [model1|e] eqn:H1; cbn; [|discriminate].
    intros H2. apply generateModelField_appends in H1 as (f & Hf & ->).
    apply IH in H2 as (fs & Hfs & ->).
    exists (f :: fs). split; [constructor; assumption|].
    cbn. rewrite <- app_assoc. reflexivity.
Qed.

Lemma generateEnumField_appends
    (gen : DataModelAttribute -> string) (e e' : PrismaEnum) (field : EnumField) :
  generateEnumField gen e field = Ok e' ->
  exists f, enumFieldGenerated field f /\ e' = addEnumField e f.
Proof.
  unfold generateEnumField.
  destruct (mapM makeFieldAttribute (List.filter isPrismaAttribute (ef_attributes field)))
    as [attributes|err] eqn:Ha; cbn; [|discriminate].
  intros [= <-]. eexists. split; [|reflexivity].
  unfold enumFieldGenerated. cbn. auto.
Qed.

Lemma forEachM_generateEnumField
    (gen : DataModelAttribute -> string) (l : list EnumField) (e e' : PrismaEnum) :
  forEachM (generateEnumField gen) e l = Ok e' ->
  exists fs, Forall2 enumFieldGenerated l fs /\
             e' = MkPrismaEnum (pe_name e) (pe_fields e ++ fs) (pe_attributes e)
                    (pe_documentations e).
Proof.
  revert e. induction l as [|field l IH]; intros e; cbn.
  - intros [= <-]. exists []. split; [constructor|].
    rewrite app_nil_r. destruct e; reflexivity.
  - destruct (generateEnumField gen e field) as [e1|err] eqn:H1; cbn; [|discriminate].
    intros H2. apply generateEnumField_appends in H1 as (f & Hf & ->).
    apply IH in H2 as (fs & Hfs & ->).
    exists (f :: fs). split; [constructor; assumption|].
    cbn. rewrite <- app_assoc. reflexivity.
Qed.

(** The shape of what [generateModel] adds. *)
Lemma generateModel_shape
    (gen : DataModelAttribute -> string) (prisma prisma' : PrismaModel) (decl : DataModel) :
  generateModel gen prisma decl = Ok prisma' ->
  exists fs outs,
    Forall2 fieldGenerated (dm_fields decl) fs /\
    Forall2 containerEmits (List.filter isPrismaAttribute (dm_attributes decl)) outs /\
    prisma' = addDeclaration prisma
                (PModel (MkPrismaDataModel (dm_name decl) (dm_isView decl) fs (concat outs)
                           (map (docLine gen) (List.filter documented (dm_attributes decl))
                              ++ dm_comments decl))).
Proof.
  unfold generateModel.
  destruct (forEachM (generateModelField gen) (newModel decl) (dm_fields decl))
    as [model1|e] eqn:H1; cbn; [|discriminate].
  apply forEachM_generateModelField in H1 as (fs & Hfs & ->). cbn.
  destruct (forEachM generateContainerAttribute [] _) as [attributes|e] eqn:H2;
    cbn; [|discriminate].
  apply forEachM_generateContainerAttribute in H2 as (outs & Houts & ->).
  rewrite !fold_addModelComment. cbn. rewrite filter_isNonPrismaResolved.
  intros [= <-]. exists fs, outs. auto.
Qed.

(** The shape of what [generateEnum] adds. *)
Lemma generateEnum_shape
    (gen : DataModelAttribute -> string) (prisma prisma' : PrismaModel) (decl : Enum) :
  generateEnum gen prisma decl = Ok prisma' ->
  exists fs outs,
    Forall2 enumFieldGenerated (enum_fields decl) fs /\
    Forall2 containerEmits (List.filter isPrismaAttribute (enum_attributes decl)) outs /\
    prisma' = addDeclaration prisma
                (PEnum (MkPrismaEnum (enum_name decl) fs (concat outs)
                          (map (docLine gen) (List.filter documented (enum_attributes decl))
                             ++ enum_comments decl))).
Proof.
  unfold generateEnum.
  destruct (forEachM (generateEnumField gen) (newEnum decl) (enum_fields decl))
    as [e1|e] eqn:H1; cbn; [|discriminate].
  apply forEachM_generateEnumField in H1 as (fs & Hfs & ->). cbn.
  destruct (forEachM generateContainerAttribute [] _) as [attributes|e] eqn:H2;
    cbn; [|discriminate].
  apply forEachM_generateContainerAttribute in H2 as (outs & Houts & ->).
  rewrite !fold_addEnumComment. cbn. rewrite filter_isNonPrismaResolved.
  intros [= <-]. exists fs, outs. auto.
Qed.

(** C5, as the code has it.  For a model or enum declaration, every
    container attribute that the classifier marks non-emittable produces
    exactly one documentation line, [/// ] followed by its source text, in
    attribute order and before the author's comments, unless its
    declaration reference is unresolved, in which case it is skipped.  A
    container attribute reaches the target attribute list only if the
    classifier marks it emittable: every emittable attribute other than
    [@@prisma.passthrough] yields one structured attribute (its name and
    translated arguments), and [@@prisma.passthrough] yields the opaque
    text of its first argument, or nothing when that gives no text. *)
Theorem container_attributes_documented
    (gen : DataModelAttribute -> string)
    (prisma1 prisma1' prisma2 prisma2' : PrismaModel) (m : DataModel) (e : Enum) :
  generateModel gen prisma1 m = Ok prisma1' ->
  generateEnum gen prisma2 e = Ok prisma2' ->
  (exists model,
      prisma1' = addDeclaration prisma1 (PModel model) /\
      pm_documentations model
      = map (fun a => "/// " +:+ gen a) (List.filter documented (dm_attributes m))
          ++ dm_comments m /\
      exists outs,
        Forall2 containerEmits (List.filter isPrismaAttribute (dm_attributes m)) outs /\
        pm_attributes model = concat outs) /\
  (exists enum,
      prisma2' = addDeclaration prisma2 (PEnum enum) /\
      pe_documentations enum
      = map (fun a => "/// " +:+ gen a) (List.filter documented (enum_attributes e))
          ++ enum_comments e /\
      exists outs,
        Forall2 containerEmits (List.filter isPrismaAttribute (enum_attributes e)) outs /\
        pe_attributes enum = concat outs).
Proof.
  intros Hm He. split.
  - apply generateModel_shape in Hm as (fs & outs & _ & Houts & ->).
    eexists. split; [reflexivity|]. cbn. split; [reflexivity|].
    exists outs. split; [exact Houts | reflexivity].
  - apply generateEnum_shape in He as (fs & outs & _ & Houts & ->).
    eexists. split; [reflexivity|]. cbn. split; [reflexivity|].
    exists outs. split; [exact Houts | reflexivity].
Qed.

Lemma container_attributes_documented_witness :
  exists model,
    MkPrismaModel [PModel sampleTargetModel] = addDeclaration newPrismaModel (PModel model) /\
    pm_documentations model
    = map (fun a => "/// " +:+ sampleGen a) (List.filter documented (dm_attributes sampleModel))
        ++ dm_comments sampleModel /\
    exists outs,
      Forall2 containerEmits (List.filter isPrismaAttribute (dm_attributes sampleModel)) outs /\
      pm_attributes model = concat outs.
Proof.
  refine (proj1 (container_attributes_documented sampleGen
                   newPrismaModel (MkPrismaModel [PModel sampleTargetModel])
                   newPrismaModel
                   (MkPrismaModel [PEnum (MkPrismaEnum "Role"
                      [MkPrismaEnumField "ADMIN" [] []; MkPrismaEnumField "USER" [] []]
                      [PrismaModelAttribute "@@map" [MkPrismaAttributeArg None (AVString "users")]]
                      ["/// @@allow"; "// the roles"])])
                   sampleModel sampleEnum _ _)).
  - vm_compute. reflexivity.
  - vm_compute. reflexivity.
Defined.

(** C5, as stated, fails.  In [sampleModel] the attribute [@@allow] is not
    emittable and its reference is resolved (no unresolved reference exists
    for it), yet it is not skipped: it is the one that gets the
    documentation line, while the attribute whose reference is unresolved
    gets none.  And [@@prisma.passthrough] is emittable, yet what is emitted
    for it is not a structured attribute but its opaque text. *)
Lemma container_attributes_counterexample :
  isPrismaAttribute allowAttr = false /\ isResolved allowAttr = true /\
  isPrismaAttribute danglingAttr = false /\ isResolved danglingAttr = false /\
  isPrismaAttribute passthroughAttr = true /\
  generateModel sampleGen newPrismaModel sampleModel
  = Ok (MkPrismaModel [PModel sampleTargetModel]) /\
  pm_documentations sampleTargetModel = ["/// @@allow"; "// the users"] /\
  pm_attributes sampleTargetModel
  = [PrismaModelAttribute "@@map" [MkPrismaAttributeArg None (AVString "users")];
     PrismaPassThroughAttribute (JsString "@@index([name])")].
Proof. repeat split; vm_compute; reflexivity. Qed.

(** ** Declaration order *)

Lemma mapM_configFieldToSimpleField_names (l : list ConfigField) (fs : list SimpleField) :
  mapM configFieldToSimpleField l = Ok fs -> map sf_name fs = map cf_name l.
Proof.
  revert fs. induction l as [|f l IH]; intros fs.
  - intros [= <-]. reflexivity.
  - rewrite mapM_result_cons. unfold configFieldToSimpleField at 1.
    destruct (configExprToText (cf_value f)) as [text|e]; cbn; [|discriminate].
    destruct (mapM configFieldToSimpleField l) as [k|e]; [|discriminate].
    intros [= <-]. cbn. rewrite (IH k eq_refl). reflexivity.
Qed.

Lemma generateDeclaration_appends
    (gen : DataModelAttribute -> string) (version : option SemVer)
    (prisma prisma' : PrismaModel) (d : AbstractDeclaration) :
  generateDeclaration gen version prisma d = Ok prisma' ->
  if hasCase d
  then exists d', declarationGenerated d d' /\ prisma' = addDeclaration prisma d'
  else prisma' = prisma.
Proof.
  destruct d as [s|e|m|g|t]; cbn.
  - unfold generateDataSource.
    destruct (mapM configFieldToSimpleField (ds_fields s)) as [fs|err] eqn:Hfs;
      cbn; [|discriminate].
    intros [= <-]. eexists. split; [|reflexivity]. cbn.
    split; [reflexivity | eapply mapM_configFieldToSimpleField_names; eassumption].
  - intros H. apply generateEnum_shape in H as (fs & outs & Hfs & Houts & ->).
    eexists. split; [|reflexivity]. cbn. split; [reflexivity|]. split; [exact Hfs|].
    exists outs. split; [exact Houts | reflexivity].
  - intros H. apply generateModel_shape in H as (fs & outs & Hfs & Houts & ->).
    eexists. split; [|reflexivity]. cbn. repeat (split; [reflexivity|]). split; [exact Hfs|].
    exists outs. split; [exact Houts | reflexivity].
  - unfold generateGenerator.
    destruct (mapM configFieldToSimpleField (gen_fields g)) as [fs|err]; cbn; [|discriminate].
    destruct (configurePreviewFeatures version fs) as [fs'|err]; cbn; [|discriminate].
    intros [= <-]. eexists. split; [|reflexivity]. reflexivity.
  - intros [= <-]. reflexivity.
Qed.

Lemma forEachM_generateDeclaration
    (gen : DataModelAttribute -> string) (version : option SemVer)
    (l : list AbstractDeclaration) (prisma prisma' : PrismaModel) :
  forEachM (generateDeclaration gen version) prisma l = Ok prisma' ->
  exists ds, Forall2 declarationGenerated (List.filter hasCase l) ds /\
             declarations prisma' = declarations prisma ++ ds.
Proof.
  revert prisma. induction l as [|d l IH]; intros prisma; cbn.
  - intros [= <-]. exists []. split; [constructor | apply eq_sym, app_nil_r].
  - destruct (generateDeclaration gen version prisma d) as [prisma1|e] eqn:H1;
      cbn; [|discriminate].
    intros H2. apply generateDeclaration_appends in H1.
    apply IH in H2 as (ds & Hds & Heq).
    destruct (hasCase d).
    + destruct H1 as (d' & Hd' & ->). exists (d' :: ds).
      split; [constructor; assumption|].
      rewrite Heq. cbn. rewrite <- app_assoc. reflexivity.
    + subst prisma1. exists ds. split; assumption.
Qed.

Lemma declarationGenerated_key (d : AbstractDeclaration) (d' : PrismaDeclaration) :
  declarationGenerated d d' -> sourceKey d = targetKey d'.
Proof.
  destruct d as [s|e|m|g|t], d' as [s'|g'|e'|m']; cbn; try contradiction.
  - intros [-> _]. reflexivity.
  - intros [-> _]. reflexivity.
  - intros [-> _]. reflexivity.
  - intros ->. reflexivity.
Qed.

Lemma Forall2_declarationGenerated_keys
    (l : list AbstractDeclaration) (l' : list PrismaDeclaration) :
  Forall2 declarationGenerated l l' -> map sourceKey l = map targetKey l'.
Proof.
  induction 1 as [|d d' l l' Hd _ IH]; [reflexivity|].
  cbn. rewrite IH, (declarationGenerated_key d d' Hd). reflexivity.
Qed.

(** C8. The target document that the driver builds has one declaration per
    data source, enum, model or view, and generator of the input, of the
    same kind and name and in the order of the input; within each model and
    enum the target fields are those of the source fields, one for one and
    in order, and the container attributes are those of the emittable
    source attributes, in order.  Nothing is reordered, sorted or
    deduplicated. *)
Theorem generate_preserves_order
    (gen : DataModelAttribute -> string) (version : option SemVer)
    (model : Model) (prisma : PrismaModel) :
  generate gen version model = Ok prisma ->
  map targetKey (declarations prisma)
  = map sourceKey (List.filter hasCase (model_declarations model)) /\
  Forall2 declarationGenerated
    (List.filter hasCase (model_declarations model)) (declarations prisma).
Proof.
  unfold generate. intros H.
  apply forEachM_generateDeclaration in H as (ds & Hds & Heq).
  rewrite Heq. cbn [declarations newPrismaModel app]. split; [|exact Hds].
  apply eq_sym, Forall2_declarationGenerated_keys. exact Hds.
Qed.

(** ** JSON text: what is printed parses back *)

Lemma append_cons (x : ascii) (a b : string) : String x a +:+ b = String x (a +:+ b).
Proof. reflexivity. Qed.

Lemma append_nil_l (a : string) : "" +:+ a = a.
Proof. reflexivity. Qed.

Ltac push_append := rewrite ?append_cons, ?append_nil_l.

Lemma append_assoc (a b c : string) : (a +:+ b) +:+ c = a +:+ (b +:+ c).
Proof.
  induction a as [|x a IH]; [reflexivity|].
  rewrite !append_cons, IH. reflexivity.
Qed.

Lemma append_nil_r (a : string) : a +:+ "" = a.
Proof.
  induction a as [|x a IH]; [reflexivity|].
  rewrite append_cons, IH. reflexivity.
Qed.

Lemma length_append (a b : string) :
  String.length (a +:+ b) = (String.length a + String.length b)%nat.
Proof.
  induction a as [|x a IH]; [reflexivity|].
  rewrite append_cons. cbn [String.length]. rewrite IH. reflexivity.
Qed.

(** Strings. *)

Lemma parse_chars_escape_char (c : ascii) (tail : string) :
  parse_chars (escape_char c +:+ tail) = cons_char c (parse_chars tail).
Proof.
  destruct c as [[|] [|] [|] [|] [|] [|] [|] [|]]; reflexivity.
Qed.

Lemma parse_chars_escape_string (s rest : string) :
  parse_chars (escape_string s +:+ String dq rest) = Some (s, rest).
Proof.
  induction s as [|c s IH]; cbn [escape_string].
  - reflexivity.
  - rewrite append_assoc, parse_chars_escape_char, IH. reflexivity.
Qed.

(** Numbers. *)

Lemma parse_digits_terminated (rest : string) :
  terminated rest = true -> parse_digits rest = (Decimal.Nil, rest).
Proof.
  destruct rest as [|c r]; [reflexivity|]. cbn.
  destruct (digit_of c); [discriminate | reflexivity].
Qed.

Lemma parse_digits_string_of_uint (d : Decimal.uint) (rest : string) :
  terminated rest = true ->
  parse_digits (NilEmpty.string_of_uint d +:+ rest) = (d, rest).
Proof.
  intros Hrest.
  induction d as [|d IH|d IH|d IH|d IH|d IH|d IH|d IH|d IH|d IH|d IH];
    cbn [NilEmpty.string_of_uint]; push_append;
    [apply parse_digits_terminated; exact Hrest | ..];
    cbn; rewrite IH; reflexivity.
Qed.

Lemma terminated_starts_fraction (rest : string) :
  terminated rest = true -> starts_fraction rest = false.
Proof.
  destruct rest as [|c r]; [reflexivity|]. unfold terminated.
  destruct (digit_of c); [discriminate|]. intros H. apply negb_true_iff in H. exact H.
Qed.

Lemma to_uint_shape (p : positive) :
  Pos.to_uint p <> Decimal.Nil /\ forall d, Pos.to_uint p <> Decimal.D0 d.
Proof.
  split; [apply DecimalPos.Unsigned.to_uint_nonnil|].
  intros d Hd.
  pose proof (DecimalPos.Unsigned.to_of (Pos.to_uint p)) as Hn.
  rewrite DecimalPos.Unsigned.of_to in Hn. cbn in Hn.
  pose proof (DecimalPos.Unsigned.to_uint_nonzero p) as Hz.
  assert (Hnz : Decimal.nzhead (Pos.to_uint p) <> Decimal.Nil).
  { intros Hnil. apply Hz. rewrite Hn. apply DecimalFacts.unorm_0. exact Hnil. }
  rewrite (DecimalFacts.unorm_nzhead _ Hnz) in Hn.
  apply (DecimalFacts.nzhead_nonzero (Pos.to_uint p) d). congruence.
Qed.

Lemma parse_unsigned_to_uint (p : positive) (rest : string) :
  terminated rest = true ->
  parse_unsigned (NilEmpty.string_of_uint (Pos.to_uint p) +:+ rest)
  = Some (Pos.to_uint p, rest).
Proof.
  intros Hrest. unfold parse_unsigned.
  rewrite parse_digits_string_of_uint by exact Hrest.
  rewrite (terminated_starts_fraction rest Hrest).
  destruct (to_uint_shape p) as [Hnil Hd0].
  destruct (Pos.to_uint p) as [|d|d|d|d|d|d|d|d|d|d]; try reflexivity.
  - congruence.
  - exfalso. apply (Hd0 d). reflexivity.
Qed.

Lemma string_of_uint_head (p : positive) :
  exists c s, NilEmpty.string_of_uint (Pos.to_uint p) = String c s /\
              Ascii.eqb c "-" = false /\ digit_of c <> None.
Proof.
  destruct (to_uint_shape p) as [Hnil _].
  destruct (Pos.to_uint p) as [|d|d|d|d|d|d|d|d|d|d]; [congruence | ..];
    eexists _, _; (split; [reflexivity|]); split; (reflexivity || discriminate).
Qed.

Lemma NilZero_string_of_uint_to_uint (p : positive) :
  NilZero.string_of_uint (Pos.to_uint p) = NilEmpty.string_of_uint (Pos.to_uint p).
Proof.
  destruct (to_uint_shape p) as [Hnil _]. unfold NilZero.string_of_uint.
  destruct (Pos.to_uint p); [congruence | reflexivity ..].
Qed.

Lemma parse_number_unsigned (c : ascii) (s : string) :
  Ascii.eqb c "-" = false ->
  parse_number (String c s) =
  match parse_unsigned (String c s) with
  | Some (u, rest) => Some (JsNumber (Z.of_int (Decimal.Pos u)), rest)
  | None => None
  end.
Proof. intros H. unfold parse_number. rewrite H. reflexivity. Qed.

Lemma parse_number_minus (s : string) :
  parse_number (String "-" s) =
  match parse_unsigned s with
  | Some (u, rest) => Some (JsNumber (Z.of_int (Decimal.Neg u)), rest)
  | None => None
  end.
Proof. reflexivity. Qed.

Lemma parse_unsigned_zero (rest : string) :
  terminated rest = true ->
  parse_unsigned (String "0" rest) = Some (Decimal.D0 Decimal.Nil, rest).
Proof.
  intros Hrest. unfold parse_unsigned.
  change (String "0" rest) with (NilEmpty.string_of_uint (Decimal.D0 Decimal.Nil) +:+ rest).
  rewrite parse_digits_string_of_uint by exact Hrest.
  rewrite (terminated_starts_fraction rest Hrest). reflexivity.
Qed.

Lemma parse_number_toString (z : Z) (rest : string) :
  terminated rest = true ->
  parse_number (Z_toString z +:+ rest) = Some (JsNumber z, rest).
Proof.
  intros Hrest. unfold Z_toString.
  pose proof (DecimalZ.of_to z) as Hz.
  destruct z as [|p|p]; cbn [Z.to_int NilZero.string_of_int] in *.
  - change (NilZero.string_of_uint (Decimal.D0 Decimal.Nil) +:+ rest) with (String "0" rest).
    rewrite parse_number_unsigned by reflexivity.
    rewrite parse_unsigned_zero by exact Hrest. reflexivity.
  - rewrite NilZero_string_of_uint_to_uint.
    destruct (string_of_uint_head p) as (c & s & Hs & Hminus & _).
    rewrite Hs, append_cons, parse_number_unsigned by exact Hminus.
    rewrite <- append_cons, <- Hs.
    rewrite parse_unsigned_to_uint by exact Hrest. rewrite Hz. reflexivity.
  - rewrite NilZero_string_of_uint_to_uint, append_cons, parse_number_minus.
    rewrite parse_unsigned_to_uint by exact Hrest. rewrite Hz. reflexivity.
Qed.

(** Values. *)

Lemma parse_value_number (fuel : nat) (s : string) :
  starts_number s = true -> parse_value (S fuel) s = parse_number s.
Proof.
  destruct s as [|c s]; [discriminate|].
  destruct c as [[|] [|] [|] [|] [|] [|] [|] [|]]; try discriminate; reflexivity.
Qed.

Lemma Z_toString_head (z : Z) :
  exists c s, Z_toString z = String c s /\ starts_number (String c s) = true.
Proof.
  unfold Z_toString. destruct z as [|p|p]; cbn [Z.to_int NilZero.string_of_int].
  - eexists _, _. split; reflexivity.
  - rewrite NilZero_string_of_uint_to_uint.
    destruct (string_of_uint_head p) as (c & s & Hs & _ & Hd).
    exists c, s. split; [exact Hs|]. cbn. destruct (digit_of c); [|congruence].
    apply orb_true_r.
  - eexists _, _. split; reflexivity.
Qed.

Lemma starts_number_not_ws (c : ascii) (s : string) :
  starts_number (String c s) = true -> is_ws c = false /\ Ascii.eqb c "]" = false.
Proof.
  destruct c as [[|] [|] [|] [|] [|] [|] [|] [|]]; try discriminate; split; reflexivity.
Qed.

(** The printed value starts with a character that is neither white space
    nor a closing bracket. *)
Lemma JSON_stringify_head (v : JsValue) :
  exists c s, JSON_stringify v = String c s /\ is_ws c = false /\ Ascii.eqb c "]" = false.
Proof.
  destruct v as [|[|]|z|t|items]; cbn [JSON_stringify];
    try (eexists _, _; split; [reflexivity | split; reflexivity]).
  destruct (Z_toString_head z) as (c & s & Hs & Hn).
  exists c, s. split; [exact Hs|]. eapply starts_number_not_ws. exact Hn.
Qed.

Lemma skip_ws_head (c : ascii) (s : string) :
  is_ws c = false -> skip_ws (String c s) = String c s.
Proof. intros H. cbn. rewrite H. reflexivity. Qed.

Lemma join_cons2 (sep x y : string) (l : list string) :
  join sep (x :: y :: l) = x +:+ sep +:+ join sep (y :: l).
Proof. reflexivity. Qed.

Lemma parse_value_array (fuel : nat) (r : string) :
  parse_value (S fuel) (String "[" r) =
  match skip_ws r with
  | String c' r' =>
      if Ascii.eqb c' "]" then Some (JsArray [], r')
      else match parse_elements fuel r with
           | Some (items, rest) => Some (JsArray items, rest)
           | None => None
           end
  | EmptyString => None
  end.
Proof. reflexivity. Qed.

Lemma parse_elements_step (fuel : nat) (s : string) :
  parse_elements (S fuel) s =
  match parse_value fuel s with
  | Some (v, rest) =>
      match skip_ws rest with
      | String c r =>
          if Ascii.eqb c "," then
            match parse_elements fuel r with
            | Some (vs, rest') => Some (v :: vs, rest')
            | None => None
            end
          else if Ascii.eqb c "]" then Some ([v], r)
          else None
      | EmptyString => None
      end
  | None => None
  end.
Proof. reflexivity. Qed.

Lemma parse_elements_stringify (l : list JsValue) :
  Forall parses_back l -> l <> [] ->
  forall fuel rest,
    (elements_weight l < fuel)%nat ->
    parse_elements fuel (join "," (map JSON_stringify l) +:+ String "]" rest) = Some (l, rest).
Proof.
  induction 1 as [|v l Hv Hl IH]; [congruence|]. intros _ fuel rest Hfuel.
  destruct fuel as [|fuel]; [lia|]. cbn [elements_weight fold_right] in Hfuel.
  fold (elements_weight l) in Hfuel.
  rewrite parse_elements_step. destruct l as [|v2 l].
  - cbn [map join]. rewrite (Hv fuel (String "]" rest)) by (lia || reflexivity).
    reflexivity.
  - cbn [map]. rewrite join_cons2, !append_assoc. push_append.
    rewrite (Hv fuel _) by (lia || reflexivity).
    rewrite skip_ws_head by reflexivity. cbn [Ascii.eqb Bool.eqb].
    change (JSON_stringify v2 :: map JSON_stringify l)
      with (map JSON_stringify (v2 :: l)).
    rewrite IH by (congruence || lia). reflexivity.
Qed.

Lemma parse_value_stringify (v : JsValue) : parses_back v.
Proof.
  induction v as [|b|z|t|items IH] using JsValue_nested_ind;
    intros fuel rest Hfuel Hrest; (destruct fuel as [|fuel]; [lia|]).
  - reflexivity.
  - destruct b; reflexivity.
  - cbn [JSON_stringify]. destruct (Z_toString_head z) as (c & s & Hs & Hn).
    rewrite parse_value_number by (rewrite Hs, append_cons; exact Hn).
    apply parse_number_toString. exact Hrest.
  - cbn [JSON_stringify]. unfold quote_string. rewrite append_cons, append_assoc.
    push_append.
    change (parse_value (S fuel) (String dq (escape_string t +:+ String dq rest)))
      with (match parse_chars (escape_string t +:+ String dq rest) with
            | Some (t', rest') => Some (JsString t', rest')
            | None => None
            end).
    rewrite parse_chars_escape_string. reflexivity.
  - cbn [JSON_stringify]. rewrite !append_cons, append_nil_l, append_assoc. push_append.
    rewrite parse_value_array. destruct items as [|v items].
    + reflexivity.
    + destruct (JSON_stringify_head v) as (c & s & Hs & Hws & Hclose).
      assert (Hhead : exists s', join "," (map JSON_stringify (v :: items)) +:+ String "]" rest
                                 = String c s').
      { destruct items as [|v2 items].
        - cbn [map join]. rewrite Hs, append_cons. eauto.
        - cbn [map]. rewrite join_cons2, Hs, !append_cons. eauto. }
      destruct Hhead as (s' & Hhead).
      rewrite Hhead at 1. rewrite skip_ws_head by exact Hws. rewrite Hclose.
      rewrite parse_elements_stringify; [reflexivity | exact IH | congruence |].
      cbn [weight] in Hfuel. fold (elements_weight (v :: items)) in Hfuel. lia.
Qed.

Lemma elements_weight_length (l : list JsValue) :
  Forall (fun v => (weight v <= String.length (JSON_stringify v))%nat) l ->
  (elements_weight l <= String.length (join "," (map JSON_stringify l)) + 1)%nat.
Proof.
  induction 1 as [|v l Hv Hl IH]; [cbn; lia|].
  cbn [elements_weight fold_right]. fold (elements_weight l).
  destruct l as [|v2 l].
  - cbn [map join elements_weight fold_right]. lia.
  - cbn [map]. rewrite join_cons2, !length_append. cbn [map] in IH.
    cbn [String.length]. lia.
Qed.

Lemma weight_length (v : JsValue) : (weight v <= String.length (JSON_stringify v))%nat.
Proof.
  induction v as [|b|z|t|items IH] using JsValue_nested_ind; try (cbn; lia).
  cbn [weight JSON_stringify]. fold (elements_weight items).
  rewrite append_cons, append_nil_l. cbn [String.length]. rewrite length_append.
  apply elements_weight_length in IH. cbn [String.length]. lia.
Qed.

(** [JSON.parse(JSON.stringify(v))] is [v]. *)
Lemma JSON_parse_stringify (v : JsValue) : JSON_parse (JSON_stringify v) = Some v.
Proof.
  unfold JSON_parse.
  pose proof (parse_value_stringify v (S (String.length (JSON_stringify v))) "") as H.
  rewrite append_nil_r in H. rewrite H; [reflexivity | | reflexivity].
  pose proof (weight_length v). lia.
Qed.

(** ** Preview features of the generator block *)

Lemma includes_app (l l' : list JsValue) (flag : string) :
  includes (l ++ l') flag = includes l flag || includes l' flag.
Proof. unfold includes. apply existsb_app. Qed.

Lemma addPreviewFeatures_below (v : SemVer) (pf : list JsValue) :
  semver_lt v v5_0_0 = true -> addPreviewFeatures v pf = withFlags pf.
Proof.
  intros Hlt. unfold addPreviewFeatures, withFlags, pushIfAbsent. rewrite Hlt.
  destruct (includes pf "extendedWhereUnique") eqn:H1.
  - rewrite app_nil_l. destruct (includes pf "fieldReference"); rewrite ?app_nil_r; reflexivity.
  - rewrite includes_app. cbn [includes existsb String.eqb Ascii.eqb Bool.eqb].
    rewrite !orb_false_r.
    destruct (includes pf "fieldReference"); rewrite <- ?app_assoc; reflexivity.
Qed.

Lemma addPreviewFeatures_not_below (v : SemVer) (pf : list JsValue) :
  semver_lt v v5_0_0 = false -> addPreviewFeatures v pf = pf.
Proof. intros Hlt. unfold addPreviewFeatures. rewrite Hlt. reflexivity. Qed.

Lemma includes_withFlags (pf : list JsValue) :
  includes (withFlags pf) "extendedWhereUnique" = true /\
  includes (withFlags pf) "fieldReference" = true.
Proof.
  unfold withFlags. rewrite !includes_app.
  destruct (includes pf "extendedWhereUnique"), (includes pf "fieldReference");
    split; reflexivity.
Qed.

Lemma withFlags_idempotent (pf : list JsValue) : withFlags (withFlags pf) = withFlags pf.
Proof.
  destruct (includes_withFlags pf) as [H1 H2].
  unfold withFlags at 1. rewrite H1, H2, !app_nil_r. reflexivity.
Qed.

Lemma withFlags_nonempty (pf : list JsValue) : (0 <? length (withFlags pf))%nat = true.
Proof.
  destruct (includes_withFlags pf) as [H1 _].
  destruct (withFlags pf); [discriminate | reflexivity].
Qed.

Lemma countFlag_app (flag : string) (l l' : list JsValue) :
  countFlag flag (l ++ l') = (countFlag flag l + countFlag flag l')%nat.
Proof. unfold countFlag. rewrite List.filter_app, List.length_app. reflexivity. Qed.

Lemma includes_countFlag (flag : string) (l : list JsValue) :
  includes l flag = (0 <? countFlag flag l)%nat.
Proof.
  unfold includes, countFlag. induction l as [|x l IH]; [reflexivity|].
  cbn [existsb List.filter]. fold (isFlag flag x). destruct (isFlag flag x); [reflexivity|].
  cbn [orb]. exact IH.
Qed.

Lemma countFlag_withFlags (pf : list JsValue) :
  countFlag "extendedWhereUnique" (withFlags pf)
  = Nat.max 1 (countFlag "extendedWhereUnique" pf) /\
  countFlag "fieldReference" (withFlags pf) = Nat.max 1 (countFlag "fieldReference" pf).
Proof.
  unfold withFlags. rewrite !countFlag_app, !includes_countFlag.
  destruct (Nat.ltb_spec 0 (countFlag "extendedWhereUnique" pf)),
           (Nat.ltb_spec 0 (countFlag "fieldReference" pf)); cbn; lia.
Qed.

Lemma findField_name (name : string) (fields : list SimpleField) (f : SimpleField) :
  findField name fields = Some f -> sf_name f = name.
Proof.
  unfold findField. intros H. apply find_some in H as [_ H].
  apply String.eqb_eq. exact H.
Qed.

Lemma findField_setFieldText_same (name text : string) (fields : list SimpleField)
    (f : SimpleField) :
  findField name fields = Some f ->
  findField name (setFieldText name text fields) = Some (MkSimpleField name text).
Proof.
  unfold findField. induction fields as [|x fields IH]; [discriminate|].
  cbn [List.find setFieldText]. destruct (String.eqb (sf_name x) name) eqn:Hx.
  - intros _. cbn [List.find sf_name]. rewrite Hx. apply String.eqb_eq in Hx.
    rewrite Hx. reflexivity.
  - intros H. cbn [List.find]. rewrite Hx. apply IH. exact H.
Qed.

Lemma findField_setFieldText_other (name other text : string) (fields : list SimpleField) :
  name <> other ->
  findField other (setFieldText name text fields) = findField other fields.
Proof.
  intros Hne. unfold findField. induction fields as [|x fields IH]; [reflexivity|].
  cbn [List.find setFieldText]. destruct (String.eqb (sf_name x) name) eqn:Hx.
  - cbn [List.find sf_name]. apply String.eqb_eq in Hx.
    assert (Ho : String.eqb (sf_name x) other = false).
    { apply String.eqb_neq. congruence. }
    rewrite Ho. reflexivity.
  - cbn [List.find]. destruct (String.eqb (sf_name x) other); [reflexivity | exact IH].
Qed.

Lemma findField_app (name : string) (l l' : list SimpleField) :
  findField name (l ++ l') =
  match findField name l with
  | Some f => Some f
  | None => findField name l'
  end.
Proof.
  unfold findField. induction l as [|x l IH]; [reflexivity|].
  cbn [List.find app]. destruct (String.eqb (sf_name x) name); [reflexivity | exact IH].
Qed.

Lemma setFieldText_same (name text : string) (fields : list SimpleField) :
  findField name fields = Some (MkSimpleField name text) ->
  setFieldText name text fields = fields.
Proof.
  unfold findField. induction fields as [|x fields IH]; [reflexivity|].
  cbn [List.find setFieldText]. destruct (String.eqb (sf_name x) name) eqn:Hx.
  - intros [= ->]. reflexivity.
  - intros H. rewrite (IH H). reflexivity.
Qed.

Lemma configurePreviewFeatures_cases (version : option SemVer) (fields : list SimpleField) :
  configurePreviewFeatures version fields =
  if isClientProvider fields then
    match version with
    | None => Ok fields
    | Some v =>
        match previewFeaturesOf fields with
        | None => Err SyntaxError
        | Some (JsArray pf) =>
            if (0 <? length (addPreviewFeatures v pf))%nat
            then Ok (updatePreviewFeatures fields
                       (JSON_stringify (JsArray (addPreviewFeatures v pf))))
            else Ok fields
        | Some _ => Err previewFeaturesNotArray
        end
    end
  else Ok fields.
Proof.
  unfold configurePreviewFeatures, isClientProvider, previewFeaturesOf, updatePreviewFeatures.
  destruct (findField "provider" fields) as [provider|]; [|reflexivity].
  destruct (String.eqb (sf_text provider) _); [|reflexivity].
  destruct version as [v|]; [|reflexivity].
  destruct (JSON_parse _) as [[| | | |pf]|]; try reflexivity.
  destruct (0 <? length (addPreviewFeatures v pf))%nat; [|reflexivity].
  destruct (findField "previewFeatures" fields); reflexivity.
Qed.

Lemma findField_updatePreviewFeatures (fields : list SimpleField) (text : string) :
  findField "previewFeatures" (updatePreviewFeatures fields text)
  = Some (MkSimpleField "previewFeatures" text).
Proof.
  unfold updatePreviewFeatures.
  destruct (findField "previewFeatures" fields) as [f|] eqn:Hf.
  - eapply findField_setFieldText_same. exact Hf.
  - rewrite findField_app, Hf. reflexivity.
Qed.

Lemma isClientProvider_updatePreviewFeatures (fields : list SimpleField) (text : string) :
  isClientProvider fields = true ->
  isClientProvider (updatePreviewFeatures fields text) = true.
Proof.
  unfold isClientProvider, updatePreviewFeatures. intros H.
  destruct (findField "provider" fields) as [provider|] eqn:Hp; [|discriminate].
  destruct (findField "previewFeatures" fields).
  - rewrite findField_setFieldText_other by discriminate. rewrite Hp. exact H.
  - rewrite findField_app, Hp. exact H.
Qed.

Lemma previewFeaturesOf_updatePreviewFeatures (fields : list SimpleField) (pf : list JsValue) :
  previewFeaturesOf (updatePreviewFeatures fields (JSON_stringify (JsArray pf)))
  = Some (JsArray pf).
Proof.
  unfold previewFeaturesOf. rewrite findField_updatePreviewFeatures. cbn [sf_text].
  apply JSON_parse_stringify.
Qed.

Lemma updatePreviewFeatures_again (fields : list SimpleField) (text : string) :
  updatePreviewFeatures (updatePreviewFeatures fields text) text
  = updatePreviewFeatures fields text.
Proof.
  unfold updatePreviewFeatures at 1. rewrite findField_updatePreviewFeatures.
  apply setFieldText_same. apply findField_updatePreviewFeatures.
Qed.

(** Running the step on its own output changes nothing. *)
Lemma configurePreviewFeatures_again (v : SemVer) (fields : list SimpleField)
    (pf : list JsValue) :
  isClientProvider fields = true ->
  semver_lt v v5_0_0 = true ->
  let fields' := updatePreviewFeatures fields (JSON_stringify (JsArray (withFlags pf))) in
  configurePreviewFeatures (Some v) fields' = Ok fields'.
Proof.
  intros Hp Hlt fields'. rewrite configurePreviewFeatures_cases.
  unfold fields'. rewrite isClientProvider_updatePreviewFeatures by exact Hp.
  rewrite previewFeaturesOf_updatePreviewFeatures.
  rewrite addPreviewFeatures_below by exact Hlt.
  rewrite withFlags_idempotent, withFlags_nonempty, updatePreviewFeatures_again.
  reflexivity.
Qed.

(** C7. For a generator whose [provider] is [prisma-client-js], with a
    detected Prisma version below 5.0.0, the flags [extendedWhereUnique] and
    [fieldReference] are appended to the [previewFeatures] array each only
    if absent: a flag already there keeps its number of occurrences, one
    that was absent occurs once, and running the step again on its own
    output changes nothing.  With a version at or above 5.0.0 the array is
    the one of the input; with no detected version or another provider the
    generator's fields are those of the input. *)
Theorem preview_features_negotiation
    (version : option SemVer) (prisma : PrismaModel) (decl : GeneratorDecl)
    (fields : list SimpleField) :
  mapM configFieldToSimpleField (gen_fields decl) = Ok fields ->
  let added fields' :=
    generateGenerator version prisma decl
    = Ok (addDeclaration prisma (PGenerator (MkPrismaGenerator (gen_name decl) fields'))) in
  if isClientProvider fields then
    match version with
    | None => added fields
    | Some v =>
        match previewFeaturesOf fields with
        | Some (JsArray pf) =>
            if semver_lt v v5_0_0 then
              exists fields',
                added fields' /\
                previewFeaturesOf fields' = Some (JsArray (withFlags pf)) /\
                countFlag "extendedWhereUnique" (withFlags pf)
                = Nat.max 1 (countFlag "extendedWhereUnique" pf) /\
                countFlag "fieldReference" (withFlags pf)
                = Nat.max 1 (countFlag "fieldReference" pf) /\
                configurePreviewFeatures version fields' = Ok fields'
            else
              exists fields',
                added fields' /\ previewFeaturesOf fields' = Some (JsArray pf)
        | Some _ => generateGenerator version prisma decl = Err previewFeaturesNotArray
        | None => generateGenerator version prisma decl = Err SyntaxError
        end
    end
  else added fields.
Proof.
  intros Hfields added. unfold added, generateGenerator. rewrite Hfields. cbn [mbind result_bind].
  rewrite configurePreviewFeatures_cases.
  destruct (isClientProvider fields) eqn:Hp; [|reflexivity].
  destruct version as [v|]; [|reflexivity].
  destruct (previewFeaturesOf fields) as [[| | | |pf]|] eqn:Hpf; try reflexivity.
  destruct (semver_lt v v5_0_0) eqn:Hlt.
  - rewrite addPreviewFeatures_below by exact Hlt. rewrite withFlags_nonempty.
    eexists. split; [reflexivity|]. split; [apply previewFeaturesOf_updatePreviewFeatures|].
    destruct (countFlag_withFlags pf) as [H1 H2]. split; [exact H1|]. split; [exact H2|].
    apply configurePreviewFeatures_again; assumption.
  - rewrite addPreviewFeatures_not_below by exact Hlt.
    destruct (0 <? length pf)%nat eqn:Hlen.
    + eexists. split; [reflexivity|]. apply previewFeaturesOf_updatePreviewFeatures.
    + exists fields. split; [reflexivity|]. destruct pf; [exact Hpf | discriminate].
Qed.

Lemma preview_features_negotiation_witness :
  exists fields',
    generateGenerator (Some prisma_4_16_2) newPrismaModel sampleGenerator
    = Ok (addDeclaration newPrismaModel (PGenerator (MkPrismaGenerator "client" fields'))) /\
    previewFeaturesOf fields'
    = Some (JsArray (withFlags [JsString "extendedWhereUnique"; JsString "views"])) /\
    countFlag "extendedWhereUnique" (withFlags [JsString "extendedWhereUnique"; JsString "views"])
    = Nat.max 1 (countFlag "extendedWhereUnique" [JsString "extendedWhereUnique"; JsString "views"]) /\
    countFlag "fieldReference" (withFlags [JsString "extendedWhereUnique"; JsString "views"])
    = Nat.max 1 (countFlag "fieldReference" [JsString "extendedWhereUnique"; JsString "views"]) /\
    configurePreviewFeatures (Some prisma_4_16_2) fields' = Ok fields'.
Proof.
  exact (preview_features_negotiation (Some prisma_4_16_2) newPrismaModel sampleGenerator
           sampleGeneratorFields eq_refl).
Defined.

Example withFlags_sample :
  withFlags [JsString "extendedWhereUnique"; JsString "views"]
  = [JsString "extendedWhereUnique"; JsString "views"; JsString "fieldReference"].
Proof. reflexivity. Qed.

Example generateGenerator_sample_text :
  match generateGenerator (Some prisma_4_16_2) newPrismaModel sampleGenerator with
  | Ok (MkPrismaModel [PGenerator g]) =>
      option_map sf_text (findField "previewFeatures" (pg_fields g))
      = Some (JSON_stringify (JsArray [JsString "extendedWhereUnique"; JsString "views";
                                       JsString "fieldReference"]))
  | _ => False
  end.
Proof. vm_compute. reflexivity. Qed.

(** ** A whole document *)

Lemma generate_preserves_order_witness :
  exists prisma,
    generate sampleGen (Some prisma_4_16_2) sampleDocument = Ok prisma /\
    map targetKey (declarations prisma)
    = [("model", "User"); ("generator", "client"); ("enum", "Role");
       ("datasource", "db"); ("model", "User")] /\
    Forall2 declarationGenerated
      (List.filter hasCase (model_declarations sampleDocument)) (declarations prisma).
Proof.
  eexists. split.
  - vm_compute. reflexivity.
  - apply (generate_preserves_order sampleGen (Some prisma_4_16_2) sampleDocument).
    vm_compute. reflexivity.
Defined.

(** ** Checks on concrete inputs *)

Example generateModelField_unresolved :
  generateModelField sampleGen (MkPrismaDataModel "User" false [] [] [])
    (MkDataModelField "User" "profile"
       (MkDataModelFieldType None (Some (MkReference "Profile" None)) None false true) [] [])
  = Err (PluginError plugin_name "Field type is not resolved: User.profile").
Proof. reflexivity. Qed.

Example generateModelField_unsupported :
  generateModelField sampleGen (MkPrismaDataModel "User" false [] [] [])
    (MkDataModelField "User" "area"
       (MkDataModelFieldType None None
          (Some (MkUnsupportedFieldType (ELiteral (StringLiteral "circle")))) false false)
       [] ["// raw type"])
  = Ok (MkPrismaDataModel "User" false
          [MkPrismaModelField "area"
             (MkModelFieldType ("Unsupported(" +:+ dquote +:+ "circle" +:+ dquote +:+ ")")
                false false)
             [] ["// raw type"]]
          [] []).
Proof. reflexivity. Qed.

Example makeFieldAttribute_passthrough_text :
  makeFieldAttribute
    (passThroughInstance "@prisma.passthrough" (MkAttribute "@prisma.passthrough" [])
       [MkAttributeArg None (ELiteral (StringLiteral "@unique(sort: Desc)"))])
  = Ok (PrismaPassThroughAttribute (JsString "@unique(sort: Desc)")).
Proof. reflexivity. Qed.

Example JSON_stringify_escapes :
  JSON_stringify (JsString (String dq (String (ascii_of_nat 10) (String (ascii_of_nat 31) "z"))))
  = String dq (String backslash (String dq ("\n\u001fz" +:+ String dq ""))).
Proof. vm_compute. reflexivity. Qed.

Example JSON_parse_escapes :
  JSON_parse (String dq ("\u0041\/" +:+ String dq "")) = Some (JsString "A/").
Proof. vm_compute. reflexivity. Qed.

Example JSON_parse_config_array :
  JSON_parse (configArrayToText [ItemLiteral (StringLiteral "views");
                                 ItemLiteral (NumberLiteral (-12));
                                 ItemLiteral (BooleanLiteral true)])
  = Some (JsArray [JsString "views"; JsNumber (-12); JsBoolean true]).
Proof. vm_compute. reflexivity. Qed.

Example JSON_parse_config_invocation :
  JSON_parse (configArrayToText [ItemInvocation "postgis" [MkConfigInvocationArg "version"
                                                             (StringLiteral "3")]])
  = None.
Proof. vm_compute. reflexivity. Qed.

Example JSON_parse_leading_zero : JSON_parse "[01]" = None.
Proof. vm_compute. reflexivity. Qed.

Example semver_lt_prerelease :
  semver_lt (MkSemVer 5 0 0 [AlphaId "dev"; NumericId 3]) v5_0_0 = true /\
  semver_lt v5_0_0 v5_0_0 = false /\
  semver_lt (MkSemVer 4 16 2 []) v5_0_0 = true /\
  semver_lt (MkSemVer 5 1 0 []) v5_0_0 = false.
Proof. repeat split. Qed.

Example generateGenerator_v5 :
  generateGenerator (Some (MkSemVer 5 7 1 [])) newPrismaModel sampleGenerator
  = Ok (MkPrismaModel [PGenerator (MkPrismaGenerator "client"
          [MkSimpleField "provider" (JSON_stringify (JsString "prisma-client-js"));
           MkSimpleField "previewFeatures"
             (JSON_stringify (JsArray [JsString "extendedWhereUnique"; JsString "views"]))])]).
Proof. vm_compute. reflexivity. Qed.

(** * Further properties *)

(** ** Attribute arguments *)

Lemma mapM_result_Ok {A B : Type} (f : A -> result B) (l : list A) (k : list B) :
  mapM f l = Ok k -> Forall2 (fun x y => f x = Ok y) l k.
Proof.
  revert k. induction l as [|x l IH]; intros k.
  - intros [= <-]. constructor.
  - rewrite mapM_result_cons. destruct (f x) as [y|e] eqn:Hx; [|discriminate].
    destruct (mapM f l) as [k'|e]; [|discriminate].
    intros [= <-]. constructor; [exact Hx | apply IH; reflexivity].
Qed.

Lemma mapM_result_is_Ok {A B : Type} (f : A -> result B) (l : list A) :
  is_Ok (mapM f l) = true <-> Forall (fun x => is_Ok (f x) = true) l.
Proof.
  induction l as [|x l IH].
  - split; [constructor | reflexivity].
  - rewrite mapM_result_cons. split.
    + intros H. destruct (f x) as [y|e] eqn:Hx; [|discriminate].
      destruct (mapM f l) as [k|e]; [|discriminate].
      constructor; [rewrite Hx; reflexivity | apply IH; reflexivity].
    + intros H. inversion H as [|? ? Hx Hl]; subst.
      destruct (f x); [|discriminate]. apply IH in Hl.
      destruct (mapM f l); [reflexivity | discriminate].
Qed.

Lemma makeFunctionCall_is_Ok (function : Reference FunctionDecl) (args : list Argument) :
  is_Ok (makeFunctionCall function args) = true <->
  exists f, ref function = Some f /\ forallb literalOrNull args = true.
Proof.
  unfold makeFunctionCall, resolved.
  destruct (ref function) as [f|]; cbn.
  - pose proof (mapM_makeFunctionCallArg args) as H.
    destruct (forallb literalOrNull args).
    + destruct H as (args' & -> & _). cbn. split; [eauto | reflexivity].
    + rewrite H. cbn. split; [discriminate | intros (? & _ & ?); discriminate].
  - split; [discriminate | intros (? & ? & _); discriminate].
Qed.

(** X1. [makeAttributeArgValue] succeeds exactly on the expressions built
    from literals, arrays, references to a resolved target and calls of a
    resolved function on literals and null; on every other expression (a
    binary or unary expression, [this], [null], a member access, an object,
    an unresolved reference, at any depth inside arrays) it throws. *)
Theorem makeAttributeArgValue_succeeds_iff (node : Expression) :
  is_Ok (makeAttributeArgValue node) = true <-> Translatable node.
Proof.
  induction node as [l|items IH|target args|function args _| | | | | |]
    using Expression_nested_ind;
    try (cbn; split; [discriminate | intros Htr; inversion Htr]).
  - destruct l; split; (reflexivity || constructor).
  - cbn [makeAttributeArgValue]. split.
    + intros H. constructor.
      destruct (mapM makeAttributeArgValue items) as [k|e] eqn:Hk; [|discriminate].
      assert (Hall : Forall (fun x => is_Ok (makeAttributeArgValue x) = true) items).
      { apply (proj1 (mapM_result_is_Ok _ _)). rewrite Hk. reflexivity. }
      clear Hk H. induction IH as [|x l Hx _ IHl]; [constructor|].
      inversion Hall; subst. constructor; [apply Hx; assumption | apply IHl; assumption].
    + intros H. inversion H as [|items' Hitems| |]; subst.
      assert (Hall : Forall (fun x => is_Ok (makeAttributeArgValue x) = true) items).
      { clear H. induction IH as [|x l Hx _ IHl]; [constructor|].
        inversion Hitems; subst. constructor; [apply Hx; assumption | apply IHl; assumption]. }
      apply (proj2 (mapM_result_is_Ok _ _)) in Hall.
      destruct (mapM makeAttributeArgValue items); [reflexivity | discriminate].
  - cbn [makeAttributeArgValue]. unfold resolved.
    destruct (ref target) as [t|] eqn:Ht; cbn.
    + split; [intros _; econstructor; exact Ht | reflexivity].
    + split; [discriminate | intros H; inversion H; congruence].
  - cbn [makeAttributeArgValue].
    pose proof (makeFunctionCall_is_Ok function args) as Hfc.
    destruct (makeFunctionCall function args) as [fc|e]; cbn in *.
    + split; [|reflexivity]. intros _. destruct (proj1 Hfc eq_refl) as (f & Hf & Hargs).
      econstructor; eassumption.
    + split; [discriminate|]. intros H. inversion H; subst.
      apply Hfc. eauto.
Qed.

(** ** Field attributes and field documentation *)

Lemma mapM_makeAttributeArg_names (args : list AttributeArg) (args' : list PrismaAttributeArg) :
  mapM makeAttributeArg args = Ok args' -> map paa_name args' = map aa_name args.
Proof.
  revert args'. induction args as [|a args IH]; intros args'.
  - intros [= <-]. reflexivity.
  - rewrite mapM_result_cons. unfold makeAttributeArg at 1.
    destruct (makeAttributeArgValue (aa_value a)) as [v|e]; cbn; [|discriminate].
    destruct (mapM makeAttributeArg args) as [k|e]; [|discriminate].
    intros [= <-]. cbn. rewrite (IH k eq_refl). reflexivity.
Qed.

Lemma makeFieldAttribute_emits (attr : DataModelAttribute) (out : PrismaAttribute) :
  makeFieldAttribute attr = Ok out -> fieldEmits attr out.
Proof.
  unfold makeFieldAttribute, fieldEmits, resolved.
  destruct (ref (decl attr)) as [d|]; cbn; [|discriminate].
  unfold FIELD_PASSTHROUGH_ATTR.
  destruct (String.eqb (attr_name d) "@prisma.passthrough") eqn:Hname.
  - destruct (args attr) as [|arg0 rest]; [discriminate|].
    destruct (getLiteral (aa_value arg0)) as [text|] eqn:Hlit; [|discriminate].
    destruct (truthy text) eqn:Htext; [|discriminate].
    intros [= <-]. exists d. split; [reflexivity|]. rewrite Hname.
    exists arg0, rest, text. auto.
  - destruct (mapM makeAttributeArg (args attr)) as [args'|e] eqn:Hargs; cbn; [|discriminate].
    intros [= <-]. exists d. split; [reflexivity|]. rewrite Hname.
    exists args'. split; [reflexivity|]. split; [|reflexivity].
    apply mapM_makeAttributeArg_names. exact Hargs.
Qed.

Lemma mapM_makeFieldAttribute_emits (l : list DataModelAttribute) (outs : list PrismaAttribute) :
  mapM makeFieldAttribute l = Ok outs -> Forall2 fieldEmits l outs.
Proof.
  intros H. apply mapM_result_Ok in H.
  induction H as [|attr out l outs Hattr _ IH]; constructor; [|exact IH].
  apply makeFieldAttribute_emits. exact Hattr.
Qed.



(** X3. The documentation of a generated model field is one [/// ] line per
    resolved non-emittable attribute of the field, in attribute order,
    followed by the field's own comments in their order.  This holds also
    when the field's attributes are suppressed by an [auth()] default. *)
Theorem generateModelField_documentation
    (gen : DataModelAttribute -> string) (model model' : PrismaDataModel)
    (field : DataModelField) :
  generateModelField gen model field = Ok model' ->
  exists f,
    model' = addField model f /\
    pmf_documentations f
    = map (fun a => "/// " +:+ gen a) (List.filter documented (field_attributes field))
        ++ field_comments field.
Proof.
  unfold generateModelField.
  destruct (resolveFieldType (field_type field)) as [t|]; [|discriminate].
  destruct (getAttributesToGenerate field) as [attributes|e]; cbn; [|discriminate].
  rewrite fold_addFieldComment, filter_isNonPrismaResolved. cbn.
  intros [= <-]. eexists. split; reflexivity.
Qed.

Lemma generateModelField_documentation_witness :
  exists f,
    MkPrismaDataModel "User" false
      [MkPrismaModelField "id" (MkModelFieldType "Int" false false) sampleFieldAttributes
         ["/// @allow"; "// the key"]] [] []
    = addField (MkPrismaDataModel "User" false [] [] []) f /\
    pmf_documentations f
    = map (fun a => "/// " +:+ sampleGen a) (List.filter documented (field_attributes sampleField))
        ++ field_comments sampleField.
Proof.
  apply (generateModelField_documentation sampleGen (MkPrismaDataModel "User" false [] [] [])).
  vm_compute. reflexivity.
Defined.

(** X4. [generateEnumField] appends exactly one target field of the same
    name; its attributes correspond one for one to the emittable source
    attributes, and its documentation is one [/// ] line per resolved
    non-emittable attribute.  The comments written on the enum field are
    not carried over. *)
Theorem generateEnumField_shape
    (gen : DataModelAttribute -> string) (e e' : PrismaEnum) (field : EnumField) :
  generateEnumField gen e field = Ok e' ->
  exists f,
    e' = addEnumField e f /\
    pef_name f = ef_name field /\
    Forall2 fieldEmits (List.filter isPrismaAttribute (ef_attributes field)) (pef_attributes f) /\
    pef_documentations f
    = map (fun a => "/// " +:+ gen a) (List.filter documented (ef_attributes field)).
Proof.
  unfold generateEnumField.
  destruct (mapM makeFieldAttribute (List.filter isPrismaAttribute (ef_attributes field)))
    as [attributes|err] eqn:Ha; cbn; [|discriminate].
  rewrite filter_isNonPrismaResolved. intros [= <-].
  eexists. split; [reflexivity|]. cbn. split; [reflexivity|].
  split; [apply mapM_makeFieldAttribute_emits; exact Ha | reflexivity].
Qed.

Lemma generateEnumField_shape_witness :
  exists f,
    MkPrismaEnum "Role"
      [MkPrismaEnumField "ADMIN"
         [PrismaFieldAttribute "@map" [MkPrismaAttributeArg None (AVString "admin")]]
         ["/// @deprecated"]] [] []
    = addEnumField (MkPrismaEnum "Role" [] [] []) f /\
    pef_name f = "ADMIN" /\
    Forall2 fieldEmits (List.filter isPrismaAttribute (ef_attributes sampleEnumField))
      (pef_attributes f) /\
    pef_documentations f
    = map (fun a => "/// " +:+ sampleGen a)
        (List.filter documented (ef_attributes sampleEnumField)).
Proof.
  apply (generateEnumField_shape sampleGen (MkPrismaEnum "Role" [] [] [])
           (MkPrismaEnum "Role"
              [MkPrismaEnumField "ADMIN"
                 [PrismaFieldAttribute "@map" [MkPrismaAttributeArg None (AVString "admin")]]
                 ["/// @deprecated"]] [] [])
           sampleEnumField).
  vm_compute. reflexivity.
Defined.

(** ** Configuration arrays parse back *)

Lemma parse_value_skip_space (fuel : nat) (s : string) :
  parse_value fuel (String " " s) = parse_value fuel s.
Proof. destruct fuel; reflexivity. Qed.

Lemma parse_elements_skip_space (fuel : nat) (s : string) :
  parse_elements fuel (String " " s) = parse_elements fuel s.
Proof.
  destruct fuel as [|fuel]; [reflexivity|].
  rewrite !parse_elements_step, parse_value_skip_space. reflexivity.
Qed.

Lemma weight_literal_value (l : LiteralExpr) : weight (literal_value l) = 0%nat.
Proof. destruct l; reflexivity. Qed.

Lemma parse_value_literalToText (l : LiteralExpr) (fuel : nat) (rest : string) :
  (0 < fuel)%nat -> terminated rest = true ->
  parse_value fuel (literalToText l +:+ rest) = Some (literal_value l, rest).
Proof.
  intros Hfuel Hrest. unfold literalToText.
  apply parse_value_stringify; [rewrite weight_literal_value; exact Hfuel | exact Hrest].
Qed.

Lemma parse_elements_literals (lits : list LiteralExpr) :
  lits <> [] ->
  forall fuel rest,
    (length lits < fuel)%nat ->
    parse_elements fuel (join ", " (map literalToText lits) +:+ String "]" rest)
    = Some (map literal_value lits, rest).
Proof.
  induction lits as [|l lits IH]; [congruence|]. intros _ fuel rest Hfuel.
  destruct fuel as [|fuel]; [lia|]. cbn [length] in Hfuel.
  rewrite parse_elements_step. destruct lits as [|l2 lits].
  - cbn [map join]. cbn [length] in Hfuel.
    rewrite parse_value_literalToText by (lia || reflexivity). reflexivity.
  - cbn [map]. rewrite join_cons2, !append_assoc. push_append.
    rewrite parse_value_literalToText by (cbn [length] in Hfuel; lia || reflexivity).
    rewrite skip_ws_head by reflexivity. cbn [Ascii.eqb Bool.eqb].
    rewrite parse_elements_skip_space.
    change (literalToText l2 :: map literalToText lits)
      with (map literalToText (l2 :: lits)).
    rewrite IH by (congruence || lia). reflexivity.
Qed.

Lemma literalToText_head (l : LiteralExpr) :
  exists c s, literalToText l = String c s /\ is_ws c = false /\ Ascii.eqb c "]" = false.
Proof. apply JSON_stringify_head. Qed.

Lemma length_join_literals (lits : list LiteralExpr) :
  (length lits <= String.length (join ", " (map literalToText lits)))%nat.
Proof.
  induction lits as [|l lits IH]; [cbn; lia|].
  destruct (literalToText_head l) as (c & s & Hs & _).
  destruct lits as [|l2 lits].
  - cbn [map join length]. rewrite Hs. cbn [String.length]. lia.
  - cbn [map]. rewrite join_cons2, !length_append, Hs. cbn [map] in IH.
    cbn [String.length length] in *. lia.
Qed.

Lemma configArrayToText_parses_back_aux (lits : list LiteralExpr) :
  JSON_parse (configArrayToText (map ItemLiteral lits))
  = Some (JsArray (map literal_value lits)).
Proof.
  unfold configArrayToText. rewrite map_map. cbn [configArrayItemToText].
  change (map (fun x : LiteralExpr => literalToText x) lits) with (map literalToText lits).
  unfold JSON_parse.
  set (J := join ", " (map literalToText lits)).
  assert (Hlen : String.length ("[" +:+ J +:+ "]") = S (S (String.length J))).
  { rewrite append_cons, append_nil_l. cbn [String.length].
    rewrite length_append. cbn [String.length]. lia. }
  rewrite Hlen. rewrite append_cons, append_nil_l, parse_value_array.
  destruct lits as [|l lits].
  - reflexivity.
  - destruct (literalToText_head l) as (c & s & Hs & Hws & Hclose).
    assert (Hhead : exists s', J +:+ "]" = String c s').
    { unfold J. destruct lits as [|l2 lits].
      - cbn [map join]. rewrite Hs, append_cons. eauto.
      - cbn [map]. rewrite join_cons2, Hs, !append_cons. eauto. }
    destruct Hhead as (s' & Hhead). rewrite Hhead at 1.
    rewrite skip_ws_head by exact Hws. rewrite Hclose.
    unfold J. rewrite parse_elements_literals; [reflexivity | congruence |].
    pose proof (length_join_literals (l :: lits)) as Hj. cbn [length] in *. lia.
Qed.

(** X5. What the configuration renderers write, [JSON.parse] reads back: a
    literal written by [literalToText] parses to its value, and an array of
    literals written by [configArrayToText] parses to the array of exactly
    these values, in order (strings with any characters, integers,
    booleans). *)
Theorem configArrayToText_parses_back (l : LiteralExpr) (lits : list LiteralExpr) :
  JSON_parse (literalToText l) = Some (literal_value l) /\
  JSON_parse (configArrayToText (map ItemLiteral lits))
  = Some (JsArray (map literal_value lits)).
Proof.
  split.
  - unfold literalToText. apply JSON_parse_stringify.
  - apply configArrayToText_parses_back_aux.
Qed.

(** ** The generator block, from the source's side *)

Lemma findField_mapM_Some (name : string) (cfs : list ConfigField) (fields : list SimpleField)
    (cf : ConfigField) (text : string) :
  mapM configFieldToSimpleField cfs = Ok fields ->
  findConfigField name cfs = Some cf ->
  configExprToText (cf_value cf) = Ok text ->
  findField name fields = Some (MkSimpleField name text).
Proof.
  unfold findConfigField, findField. revert fields.
  induction cfs as [|x cfs IH]; intros fields; [discriminate|].
  rewrite mapM_result_cons. unfold configFieldToSimpleField at 1.
  destruct (configExprToText (cf_value x)) as [t|e] eqn:Hx; cbn [mbind result_bind]; [|discriminate].
  destruct (mapM configFieldToSimpleField cfs) as [k|e]; [|discriminate].
  intros [= <-]. cbn [List.find sf_name].
  destruct (String.eqb (cf_name x) name) eqn:Hname.
  - intros [= <-] Ht. apply String.eqb_eq in Hname. congruence.
  - intros Hfind Ht. apply (IH k eq_refl Hfind Ht).
Qed.

Lemma findField_mapM_None (name : string) (cfs : list ConfigField) (fields : list SimpleField) :
  mapM configFieldToSimpleField cfs = Ok fields ->
  findConfigField name cfs = None ->
  findField name fields = None.
Proof.
  unfold findConfigField, findField. revert fields.
  induction cfs as [|x cfs IH]; intros fields.
  - intros [= <-] _. reflexivity.
  - rewrite mapM_result_cons. unfold configFieldToSimpleField at 1.
    destruct (configExprToText (cf_value x)) as [t|e]; cbn [mbind result_bind]; [|discriminate].
    destruct (mapM configFieldToSimpleField cfs) as [k|e]; [|discriminate].
    intros [= <-]. cbn [List.find sf_name].
    destruct (String.eqb (cf_name x) name); [discriminate|].
    apply (IH k eq_refl).
Qed.

Lemma isClientProvider_source (cfs : list ConfigField) (fields : list SimpleField)
    (cf : ConfigField) :
  mapM configFieldToSimpleField cfs = Ok fields ->
  findConfigField "provider" cfs = Some cf ->
  cf_value cf = clientProviderValue ->
  isClientProvider fields = true.
Proof.
  intros Hfields Hfind Hvalue. unfold isClientProvider.
  rewrite (findField_mapM_Some "provider" cfs fields cf
             (JSON_stringify (JsString "prisma-client-js")) Hfields Hfind).
  - apply String.eqb_refl.
  - rewrite Hvalue. reflexivity.
Qed.

(** X6. For a generator whose first [provider] field is the literal
    [prisma-client-js] and whose first [previewFeatures] field is an array
    of literals, with a detected Prisma version below 5.0.0,
    [generateGenerator] keeps all fields in place and sets the text of
    [previewFeatures] to the JSON of the written values followed by each of
    [extendedWhereUnique] and [fieldReference] that was not among them. *)
Theorem generateGenerator_array_below_5
    (v : SemVer) (prisma : PrismaModel) (decl : GeneratorDecl) (fields : list SimpleField)
    (provider previewFeatures : ConfigField) (lits : list LiteralExpr) :
  mapM configFieldToSimpleField (gen_fields decl) = Ok fields ->
  findConfigField "provider" (gen_fields decl) = Some provider ->
  cf_value provider = clientProviderValue ->
  findConfigField "previewFeatures" (gen_fields decl) = Some previewFeatures ->
  cf_value previewFeatures = ConfigArrayExpr (map ItemLiteral lits) ->
  semver_lt v v5_0_0 = true ->
  generateGenerator (Some v) prisma decl
  = generatorAdded prisma decl
      (setFieldText "previewFeatures"
         (JSON_stringify (JsArray (withFlags (map literal_value lits)))) fields).
Proof.
  intros Hfields Hp Hpv Hf Hfv Hlt.
  unfold generateGenerator, generatorAdded. rewrite Hfields. cbn [mbind result_bind].
  rewrite configurePreviewFeatures_cases.
  rewrite (isClientProvider_source _ _ _ Hfields Hp Hpv).
  assert (Hfind : findField "previewFeatures" fields
                  = Some (MkSimpleField "previewFeatures"
                            (configArrayToText (map ItemLiteral lits)))).
  { apply (findField_mapM_Some _ _ _ previewFeatures _ Hfields Hf). rewrite Hfv. reflexivity. }
  unfold previewFeaturesOf, updatePreviewFeatures. rewrite Hfind. cbn [sf_text].
  rewrite configArrayToText_parses_back_aux.
  rewrite addPreviewFeatures_below by exact Hlt. rewrite withFlags_nonempty. reflexivity.
Qed.

Lemma generateGenerator_array_below_5_witness :
  generateGenerator (Some prisma_4_16_2) newPrismaModel sampleGenerator
  = generatorAdded newPrismaModel sampleGenerator
      (setFieldText "previewFeatures"
         (JSON_stringify (JsArray (withFlags (map literal_value
            [StringLiteral "extendedWhereUnique"; StringLiteral "views"]))))
         sampleGeneratorFields).
Proof.
  apply (generateGenerator_array_below_5 prisma_4_16_2 newPrismaModel sampleGenerator
           sampleGeneratorFields
           (MkConfigField "provider" clientProviderValue)
           (MkConfigField "previewFeatures"
              (ConfigArrayExpr (map ItemLiteral
                 [StringLiteral "extendedWhereUnique"; StringLiteral "views"])))
           [StringLiteral "extendedWhereUnique"; StringLiteral "views"]);
    reflexivity.
Defined.

(** X7. For a generator whose first [provider] field is the literal
    [prisma-client-js] and which has no [previewFeatures] field, with a
    detected Prisma version below 5.0.0, [generateGenerator] keeps the
    fields and appends a [previewFeatures] field holding exactly the two
    flags [extendedWhereUnique] and [fieldReference]. *)
Theorem generateGenerator_absent_below_5
    (v : SemVer) (prisma : PrismaModel) (decl : GeneratorDecl) (fields : list SimpleField)
    (provider : ConfigField) :
  mapM configFieldToSimpleField (gen_fields decl) = Ok fields ->
  findConfigField "provider" (gen_fields decl) = Some provider ->
  cf_value provider = clientProviderValue ->
  findConfigField "previewFeatures" (gen_fields decl) = None ->
  semver_lt v v5_0_0 = true ->
  generateGenerator (Some v) prisma decl
  = generatorAdded prisma decl
      (fields ++ [MkSimpleField "previewFeatures" (JSON_stringify (JsArray bothFlags))]).
Proof.
  intros Hfields Hp Hpv Hf Hlt.
  unfold generateGenerator, generatorAdded. rewrite Hfields. cbn [mbind result_bind].
  rewrite configurePreviewFeatures_cases.
  rewrite (isClientProvider_source _ _ _ Hfields Hp Hpv).
  unfold previewFeaturesOf, updatePreviewFeatures.
  rewrite (findField_mapM_None _ _ _ Hfields Hf).
  change (JSON_parse "[]") with (Some (JsArray [])). cbv beta iota.
  rewrite addPreviewFeatures_below by exact Hlt. reflexivity.
Qed.

Lemma generateGenerator_absent_below_5_witness :
  generateGenerator (Some prisma_4_16_2) newPrismaModel
    (MkGeneratorDecl "client" [MkConfigField "provider" clientProviderValue])
  = generatorAdded newPrismaModel
      (MkGeneratorDecl "client" [MkConfigField "provider" clientProviderValue])
      ([MkSimpleField "provider" (JSON_stringify (JsString "prisma-client-js"))]
         ++ [MkSimpleField "previewFeatures" (JSON_stringify (JsArray bothFlags))]).
Proof.
  apply (generateGenerator_absent_below_5 prisma_4_16_2 newPrismaModel
           (MkGeneratorDecl "client" [MkConfigField "provider" clientProviderValue])
           [MkSimpleField "provider" (JSON_stringify (JsString "prisma-client-js"))]
           (MkConfigField "provider" clientProviderValue));
    reflexivity.
Defined.

(** X8. For a generator whose first [provider] field is the literal
    [prisma-client-js], with a detected Prisma version (any), a
    [previewFeatures] field written as a single literal (a string, a number
    or a boolean, not an array) makes [generateGenerator] throw the plugin
    error that says [previewFeatures] must be an array. *)
Theorem generateGenerator_literal_previewFeatures
    (v : SemVer) (prisma : PrismaModel) (decl : GeneratorDecl) (fields : list SimpleField)
    (provider previewFeatures : ConfigField) (l : LiteralExpr) :
  mapM configFieldToSimpleField (gen_fields decl) = Ok fields ->
  findConfigField "provider" (gen_fields decl) = Some provider ->
  cf_value provider = clientProviderValue ->
  findConfigField "previewFeatures" (gen_fields decl) = Some previewFeatures ->
  cf_value previewFeatures = ConfigLiteral l ->
  generateGenerator (Some v) prisma decl = Err previewFeaturesNotArray.
Proof.
  intros Hfields Hp Hpv Hf Hfv.
  unfold generateGenerator. rewrite Hfields. cbn [mbind result_bind].
  rewrite configurePreviewFeatures_cases.
  rewrite (isClientProvider_source _ _ _ Hfields Hp Hpv).
  assert (Hfind : findField "previewFeatures" fields
                  = Some (MkSimpleField "previewFeatures" (literalToText l))).
  { apply (findField_mapM_Some _ _ _ previewFeatures _ Hfields Hf). rewrite Hfv. reflexivity. }
  unfold previewFeaturesOf. rewrite Hfind. cbn [sf_text].
  unfold literalToText. rewrite JSON_parse_stringify. destruct l; reflexivity.
Qed.

Lemma generateGenerator_literal_previewFeatures_witness :
  generateGenerator (Some (MkSemVer 5 7 1 [])) newPrismaModel
    (MkGeneratorDecl "client"
       [MkConfigField "provider" clientProviderValue;
        MkConfigField "previewFeatures" (ConfigLiteral (StringLiteral "views"))])
  = Err previewFeaturesNotArray.
Proof.
  apply (generateGenerator_literal_previewFeatures (MkSemVer 5 7 1 []) newPrismaModel
           (MkGeneratorDecl "client"
              [MkConfigField "provider" clientProviderValue;
               MkConfigField "previewFeatures" (ConfigLiteral (StringLiteral "views"))])
           [MkSimpleField "provider" (JSON_stringify (JsString "prisma-client-js"));
            MkSimpleField "previewFeatures" (JSON_stringify (JsString "views"))]
           (MkConfigField "provider" clientProviderValue)
           (MkConfigField "previewFeatures" (ConfigLiteral (StringLiteral "views")))
           (StringLiteral "views"));
    reflexivity.
Defined.

Lemma map_sf_name_setFieldText (name text : string) (fields : list SimpleField) :
  map sf_name (setFieldText name text fields) = map sf_name fields.
Proof.
  induction fields as [|x fields IH]; [reflexivity|].
  cbn [setFieldText]. destruct (String.eqb (sf_name x) name); cbn; [reflexivity|].
  rewrite IH. reflexivity.
Qed.

Lemma lookup_setFieldText_other (name text : string) (fields : list SimpleField)
    (i : nat) (f : SimpleField) :
  fields !! i = Some f -> sf_name f <> name ->
  setFieldText name text fields !! i = Some f.
Proof.
  revert i. induction fields as [|x fields IH]; intros i; [discriminate|].
  cbn [setFieldText]. destruct (String.eqb (sf_name x) name) eqn:Hx.
  - destruct i as [|i]; cbn.
    + intros [= ->] Hne. apply String.eqb_eq in Hx. contradiction.
    + auto.
  - destruct i as [|i]; cbn; [auto|]. apply IH.
Qed.

(** X9. Whatever [generateGenerator] does to the preview features, the
    generator it adds has the source's fields in the source's order, then
    at most one appended field, which is called [previewFeatures] and is
    appended only when the source has no field of that name; every field
    not called [previewFeatures] keeps its position and its text. *)
Theorem generateGenerator_keeps_fields
    (version : option SemVer) (prisma prisma' : PrismaModel) (decl : GeneratorDecl)
    (fields : list SimpleField) :
  mapM configFieldToSimpleField (gen_fields decl) = Ok fields ->
  generateGenerator version prisma decl = Ok prisma' ->
  exists fields',
    prisma' = addDeclaration prisma (PGenerator (MkPrismaGenerator (gen_name decl) fields')) /\
    (map sf_name fields' = map cf_name (gen_fields decl)
     \/ (findConfigField "previewFeatures" (gen_fields decl) = None /\
         map sf_name fields' = map cf_name (gen_fields decl) ++ ["previewFeatures"])) /\
    (forall i f, fields !! i = Some f -> sf_name f <> "previewFeatures" ->
                 fields' !! i = Some f).
Proof.
  intros Hfields. unfold generateGenerator. rewrite Hfields. cbn [mbind result_bind].
  pose proof (mapM_configFieldToSimpleField_names _ _ Hfields) as Hnames.
  rewrite configurePreviewFeatures_cases.
  assert (Hsame : forall p,
            Ok (addDeclaration prisma (PGenerator (MkPrismaGenerator (gen_name decl) fields)))
            = Ok p ->
            exists fields',
              p = addDeclaration prisma (PGenerator (MkPrismaGenerator (gen_name decl) fields')) /\
              (map sf_name fields' = map cf_name (gen_fields decl)
               \/ (findConfigField "previewFeatures" (gen_fields decl) = None /\
                   map sf_name fields' = map cf_name (gen_fields decl) ++ ["previewFeatures"])) /\
              (forall i f, fields !! i = Some f -> sf_name f <> "previewFeatures" ->
                           fields' !! i = Some f)).
  { intros p [= <-]. exists fields. split; [reflexivity|]. split; [left; exact Hnames | auto]. }
  destruct (isClientProvider fields); [|apply Hsame].
  destruct version as [v|]; [|apply Hsame].
  destruct (previewFeaturesOf fields) as [[| | | |pf]|]; try discriminate.
  destruct (0 <? length (addPreviewFeatures v pf))%nat; [|apply Hsame].
  cbn [mbind result_bind]. intros [= <-]. eexists. split; [reflexivity|].
  unfold updatePreviewFeatures.
  destruct (findField "previewFeatures" fields) as [f0|] eqn:Hfind.
  - split.
    + left. rewrite map_sf_name_setFieldText. exact Hnames.
    + intros i f Hi Hne. apply lookup_setFieldText_other; assumption.
  - split.
    + right. split.
      * destruct (findConfigField "previewFeatures" (gen_fields decl)) as [cf|] eqn:Hcf;
          [|reflexivity].
        exfalso.
        assert (Hok : is_Ok (mapM configFieldToSimpleField (gen_fields decl)) = true)
          by (rewrite Hfields; reflexivity).
        apply (proj1 (mapM_result_is_Ok _ _)) in Hok.
        assert (Hin : In cf (gen_fields decl)).
        { unfold findConfigField in Hcf. apply find_some in Hcf. tauto. }
        rewrite List.Forall_forall in Hok. specialize (Hok cf Hin).
        unfold configFieldToSimpleField in Hok.
        destruct (configExprToText (cf_value cf)) as [t|e] eqn:Ht; [|discriminate].
        rewrite (findField_mapM_Some _ _ _ cf t Hfields Hcf Ht) in Hfind. discriminate.
      * rewrite map_app, Hnames. reflexivity.
    + intros i f Hi Hne. apply lookup_app_l_Some. exact Hi.
Qed.

Lemma generateGenerator_keeps_fields_witness :
  exists fields',
    MkPrismaModel [PGenerator (MkPrismaGenerator "client"
      (setFieldText "previewFeatures"
         (JSON_stringify (JsArray [JsString "extendedWhereUnique"; JsString "views";
                                   JsString "fieldReference"]))
         sampleGeneratorFields))]
    = addDeclaration newPrismaModel
        (PGenerator (MkPrismaGenerator (gen_name sampleGenerator) fields')) /\
    (map sf_name fields' = map cf_name (gen_fields sampleGenerator)
     \/ (findConfigField "previewFeatures" (gen_fields sampleGenerator) = None /\
         map sf_name fields' = map cf_name (gen_fields sampleGenerator) ++ ["previewFeatures"])) /\
    (forall i f, sampleGeneratorFields !! i = Some f -> sf_name f <> "previewFeatures" ->
                 fields' !! i = Some f).
Proof.
  apply (generateGenerator_keeps_fields (Some prisma_4_16_2) newPrismaModel _ sampleGenerator
           sampleGeneratorFields).
  - reflexivity.
  - vm_compute. reflexivity.
Defined.

(** ** Runtime: id fields and error classes *)

Lemma toLowerCase_idempotent (c : ascii) : toLowerCase (toLowerCase c) = toLowerCase c.
Proof. destruct c as [[|] [|] [|] [|] [|] [|] [|] [|]]; reflexivity. Qed.

Lemma lowerCaseFirst_idempotent (s : string) :
  lowerCaseFirst (lowerCaseFirst s) = lowerCaseFirst s.
Proof. destruct s as [|c s]; [reflexivity|]. cbn. rewrite toLowerCase_idempotent. reflexivity. Qed.

(** X10. [getIdFields] looks the model up by its name with the first letter
    in lower case, so the case of the first letter of the model name does
    not matter: the name and its lower-case-first form throw in the same
    cases and otherwise return the same fields. *)
Theorem getIdFields_first_letter_case
    (modelMeta : ModelMeta) (model : string) (throwIfNotFound : bool) :
  is_Ok (getIdFields modelMeta (lowerCaseFirst model) throwIfNotFound)
  = is_Ok (getIdFields modelMeta model throwIfNotFound) /\
  forall r,
    getIdFields modelMeta model throwIfNotFound = Ok r ->
    getIdFields modelMeta (lowerCaseFirst model) throwIfNotFound = Ok r.
Proof.
  unfold getIdFields. rewrite lowerCaseFirst_idempotent.
  destruct (fields modelMeta !! lowerCaseFirst model) as [table|]; cbn.
  - destruct ((length (List.filter isId (Object_values table)) =? 0)%nat && throwIfNotFound);
      split; (reflexivity || (intros r H; (discriminate || exact H))).
  - destruct throwIfNotFound; cbn; split; (reflexivity || (intros r H; (discriminate || exact H))).
Qed.

Lemma getIdFields_first_letter_case_witness :
  exists r,
    getIdFields sampleMeta "User" true = Ok r /\
    getIdFields sampleMeta (lowerCaseFirst "User") true = Ok r.
Proof.
  eexists. split; [reflexivity|].
  apply (proj2 (getIdFields_first_letter_case sampleMeta "User" true)).
  reflexivity.
Defined.

Lemma toLowerCase_not_upper (c : ascii) :
  let n := N_of_ascii (toLowerCase c) in ((65 <=? n) && (n <=? 90))%N = false.
Proof. destruct c as [[|] [|] [|] [|] [|] [|] [|] [|]]; reflexivity. Qed.

(** X11. A field table stored in the metadata under a key that starts with
    an upper-case letter is never found: removing it changes the result of
    [getIdFields] for no model name. *)
Theorem getIdFields_capitalised_key_unused
    (modelMeta : ModelMeta) (c : ascii) (key : string) (model : string)
    (throwIfNotFound : bool) :
  ((65 <=? N_of_ascii c) && (N_of_ascii c <=? 90))%N = true ->
  getIdFields (MkModelMeta (delete (String c key) (fields modelMeta))) model throwIfNotFound
  = getIdFields modelMeta model throwIfNotFound.
Proof.
  intros Hupper. unfold getIdFields. cbn [fields].
  rewrite lookup_delete_ne; [reflexivity|].
  destruct model as [|m model]; [discriminate|]. cbn [lowerCaseFirst].
  intros [= Hc _]. pose proof (toLowerCase_not_upper m) as Hm. cbn zeta in Hm.
  rewrite <- Hc in Hm. congruence.
Qed.

Lemma getIdFields_capitalised_key_unused_witness :
  getIdFields (MkModelMeta (delete "User" (fields sampleMeta))) "User" true
  = getIdFields sampleMeta "User" true.
Proof.
  apply (getIdFields_capitalised_key_unused sampleMeta "U" "ser" "User" true).
  reflexivity.
Defined.

Lemma runErrorCall_keeps_validation (st : ErrorClasses) (c : ErrorCall) (cls : ErrorClass) :
  _PrismaClientValidationError st = Some cls ->
  _PrismaClientValidationError (runErrorCall st c) = Some cls.
Proof.
  intros H. destruct c as [m message|m args|m args]; cbn.
  - unfold prismaClientValidationError. rewrite H. cbn. rewrite H. exact H.
  - unfold prismaClientKnownRequestError.
    destruct (_PrismaClientKnownRequestError st) eqn:Hk; cbn.
    + rewrite Hk. exact H.
    + destruct (PrismaClientKnownRequestError m); exact H.
  - unfold prismaClientUnknownRequestError.
    destruct (_PrismaClientUnknownRequestError st) eqn:Hu; cbn.
    + rewrite Hu. exact H.
    + destruct (PrismaClientUnknownRequestError m); exact H.
Qed.

(** X12. The validation-error class is looked up once: after a call of
    [prismaClientValidationError] with a module that has the class, and
    whatever calls of the three helpers follow, a call with any other module
    still throws an instance of the first module's class, built with the
    message given and with the client version of the module passed to that
    call. *)
Theorem prismaClientValidationError_memoised
    (st : ErrorClasses) (first other : PrismaModule) (cls : ErrorClass)
    (message1 message2 : string) (calls : list ErrorCall) :
  _PrismaClientValidationError st = None ->
  PrismaClientValidationError first = Some cls ->
  let st1 := fst (prismaClientValidationError st first message1) in
  let st2 := fold_left runErrorCall calls st1 in
  prismaClientValidationError st2 other message2
  = (st2, Thrown (New cls (MkValidationArgs message2 (_clientVersion other)))).
Proof.
  intros Hnone Hcls st1 st2.
  assert (H1 : _PrismaClientValidationError st1 = Some cls).
  { unfold st1, prismaClientValidationError. rewrite Hnone. cbn. rewrite Hcls. reflexivity. }
  assert (H2 : _PrismaClientValidationError st2 = Some cls).
  { unfold st2. generalize st1 H1.
    induction calls as [|c calls IH]; intros s0 H0; [exact H0|].
    cbn [fold_left]. apply IH. apply runErrorCall_keeps_validation. exact H0. }
  unfold prismaClientValidationError. rewrite H2. cbn. rewrite H2. reflexivity.
Qed.

Lemma prismaClientValidationError_memoised_witness :
  let st1 := fst (prismaClientValidationError noErrorClasses sampleModuleA "first") in
  let st2 := fold_left runErrorCall [CallKnown sampleModuleB ["P2002"]] st1 in
  prismaClientValidationError st2 sampleModuleB "second"
  = (st2, Thrown (New (MkErrorClass "A.PrismaClientValidationError")
                    (MkValidationArgs "second" "5.7.1"))).
Proof.
  apply (prismaClientValidationError_memoised noErrorClasses sampleModuleA sampleModuleB
           (MkErrorClass "A.PrismaClientValidationError") "first" "second"
           [CallKnown sampleModuleB ["P2002"]]);
    reflexivity.
Defined.

(** ** The tRPC helpers *)

(** Case analysis on an operation name against the labels of a [switch]. *)
Ltac switch_on op :=
  repeat match goal with
         | |- context [String.eqb op ?label] =>
             let H := fresh "Hop" in
             destruct (String.eqb op label) eqn:H;
             [apply String.eqb_eq in H; subst op; try reflexivity |]
         end.

Lemma procedure_type_iff_input_schema_aux (opName modelName : string) :
  isSome (getInputSchemaByOpName opName modelName)
  = isSome (fst (getProcedureTypeByOpName opName)) /\
  snd (getProcedureTypeByOpName opName)
  = (if isSome (getInputSchemaByOpName opName modelName) then [] else [MkConsoleLine opName]).
Proof.
  unfold getInputSchemaByOpName, getProcedureTypeByOpName, oneOf, queryOps, mutationOps.
  cbn [existsb]. switch_on opName; try (split; reflexivity).
Qed.

(** X13. The operations that have a procedure type are exactly those that
    have an input schema, whatever the model; and [getProcedureTypeByOpName]
    logs the operation name exactly when it has none. *)
Theorem procedure_type_iff_input_schema (opName modelName : string) :
  isSome (getInputSchemaByOpName opName modelName)
  = isSome (fst (getProcedureTypeByOpName opName)) /\
  snd (getProcedureTypeByOpName opName)
  = (if isSome (getInputSchemaByOpName opName modelName) then [] else [MkConsoleLine opName]).
Proof.
  unfold getInputSchemaByOpName, getProcedureTypeByOpName, oneOf, queryOps, mutationOps.
  cbn [existsb]. switch_on opName; try (split; reflexivity).
Qed.

(** X14. [generateProcedure] never touches what was written before.  It
    writes exactly one procedure when the base operation is one that has an
    input schema, and otherwise writes nothing and logs the base operation;
    the operation type itself plays no part in that. *)
Theorem generateProcedure_writes_once
    (writer : list WriterCall) (opType typeName modelName baseOpType : string) :
  exists written,
    fst (generateProcedure writer opType typeName modelName baseOpType) = writer ++ written /\
    length written
    = (if isSome (getInputSchemaByOpName baseOpType modelName) then 1 else 0)%nat /\
    snd (generateProcedure writer opType typeName modelName baseOpType)
    = (if isSome (getInputSchemaByOpName baseOpType modelName)
       then [] else [MkConsoleLine baseOpType]).
Proof.
  destruct (procedure_type_iff_input_schema_aux baseOpType modelName) as [Hsome Hlog].
  unfold generateProcedure.
  destruct (getProcedureTypeByOpName baseOpType) as [procType console] eqn:Hp.
  cbn [fst snd] in *. rewrite Hsome. rewrite Hsome in Hlog.
  subst console.
  assert (Hkind : procType = Some "query" \/ procType = Some "mutation" \/ procType = None).
  { revert Hp. unfold getProcedureTypeByOpName.
    destruct (oneOf baseOpType queryOps); [intros [= <- _]; auto|].
    destruct (oneOf baseOpType mutationOps); intros [= <- _]; auto. }
  destruct Hkind as [-> | [-> | ->]]; cbn.
  - eexists. split; [reflexivity|]. split; reflexivity.
  - eexists. split; [reflexivity|]. split; reflexivity.
  - exists []. rewrite app_nil_r. split; [reflexivity|]. split; reflexivity.
Qed.

Lemma getPrismaOperationTypes_cases (name model operation : string) :
  match getPrismaOperationTypes name model operation with
  | Ok _ => oneOf operation typedOperations = true
  | Err e => oneOf operation typedOperations = false /\ e = unsupportedOperation name operation
  end.
Proof.
  unfold getPrismaOperationTypes, oneOf, typedOperations. cbn [existsb].
  switch_on operation; try (vm_compute; reflexivity).
  split; reflexivity.
Qed.

(** X15. [generateRouterTyping] looks the typing of [opType] up before it
    writes anything: it throws "Unsupported operation" exactly when [opType]
    is not one of the fifteen operations [getPrismaOperationTypes] knows
    (so also for [findRaw], [aggregateRaw] and the [...One] names), whatever
    the base operation.  Otherwise it appends exactly one block to the
    writer, which holds one typing when the base operation has a procedure
    type and is empty when it has none. *)
Theorem generateRouterTyping_supported
    (name : string) (writer : list WriterCall) (opType modelName baseOpType : string) :
  match snd (generateRouterTyping name writer opType modelName baseOpType) with
  | Ok writer' =>
      oneOf opType typedOperations = true /\
      exists body,
        writer' = writer ++ [Block body] /\
        length body = (if isSome (fst (getProcedureTypeByOpName baseOpType)) then 1 else 0)%nat
  | Err e =>
      oneOf opType typedOperations = false /\ e = unsupportedOperation name opType
  end.
Proof.
  unfold generateRouterTyping.
  pose proof (getPrismaOperationTypes_cases name modelName opType) as Hty.
  destruct (getProcedureTypeByOpName baseOpType) as [procType console] eqn:Hp.
  cbn [fst snd].
  destruct (getPrismaOperationTypes name modelName opType) as [[g a r]|e]; [|exact Hty].
  split; [exact Hty|].
  assert (Hkind : procType = Some "query" \/ procType = Some "mutation" \/ procType = None).
  { revert Hp. unfold getProcedureTypeByOpName.
    destruct (oneOf baseOpType queryOps); [intros [= <- _]; auto|].
    destruct (oneOf baseOpType mutationOps); intros [= <- _]; auto. }
  destruct Hkind as [-> | [-> | ->]]; cbn [procTypeIs String.eqb Ascii.eqb Bool.eqb isSome];
    eexists; split; reflexivity.
Qed.

Example generateRouterTyping_findRaw :
  snd (generateRouterTyping "trpc" [] "findRaw" "post" "findRaw")
  = Err (unsupportedOperation "trpc" "findRaw").
Proof. vm_compute. reflexivity. Qed.



(** ** The TanStack Query plugin generator *)

Lemma forEachM_appends {A : Type} (body : SourceFile -> A -> result SourceFile)
  (P : A -> FunctionDeclaration -> Prop) (xs : list A) :
  (forall sf x, In x xs -> exists f, body sf x = Ok (sf ++ [SourceFunction f]) /\ P x f) ->
  forall sf, exists fs,
    forEachM body sf xs = Ok (sf ++ map SourceFunction fs) /\ Forall2 P xs fs.
Proof.
  induction xs as [|x xs IH]; intros Hbody sf.
  - exists []. cbn. rewrite app_nil_r. split; [reflexivity|constructor].
  - destruct (Hbody sf x (or_introl eq_refl)) as (f & Hf & HP).
    destruct (IH (fun sf' y Hy => Hbody sf' y (or_intror Hy)) (sf ++ [SourceFunction f]))
      as (fs & Hfs & HPs).
    exists (f :: fs). split.
    + cbn [forEachM]. rewrite Hf. cbn. rewrite Hfs. rewrite <- app_assoc. reflexivity.
    + constructor; assumption.
Qed.

Lemma String_eqb_length (a b : string) :
  String.eqb a b = true -> String.length a = String.length b.
Proof. intros H. apply String.eqb_eq in H. now subst. Qed.

Lemma concat_empty_cons (x : string) (xs : list string) :
  String.concat "" (x :: xs) = x +:+ String.concat "" xs.
Proof.
  destruct xs as [|y ys]; cbn [String.concat].
  - symmetry. apply append_nil_r.
  - rewrite append_nil_l. reflexivity.
Qed.

Lemma concat_empty_app (l1 l2 : list string) :
  String.concat "" (l1 ++ l2) = String.concat "" l1 +:+ String.concat "" l2.
Proof.
  induction l1 as [|x l1 IH].
  - cbn [app String.concat]. rewrite append_nil_l. reflexivity.
  - change ((x :: l1) ++ l2) with (x :: (l1 ++ l2)).
    rewrite !concat_empty_cons, IH, append_assoc. reflexivity.
Qed.

(** Only the end of a text decides what it ends with. *)
Lemma String_endsWith_append (x lit suffix : string) :
  String.length suffix <= String.length lit ->
  String_endsWith (x +:+ lit) suffix = String_endsWith lit suffix.
Proof.
  intros Hlen. induction x as [|c x IH]; [reflexivity|].
  change (String c x +:+ lit) with (String c (x +:+ lit)).
  cbn [String_endsWith]. rewrite IH.
  destruct (String.eqb (String c (x +:+ lit)) suffix) eqn:E; [|reflexivity].
  apply String_eqb_length in E. cbn in E. rewrite length_append in E. lia.
Qed.

Lemma supported_cases (target : string) :
  In target supportedTargets -> target = "react" \/ target = "vue" \/ target = "svelte".
Proof. cbn. intuition. Qed.

Lemma unsupported_cases (target : string) :
  ~ In target supportedTargets ->
  String.eqb target "react" = false /\ String.eqb target "vue" = false /\
  String.eqb target "svelte" = false.
Proof.
  intros Hnot. repeat split; apply String.eqb_neq; intros ->; apply Hnot; cbn; auto.
Qed.

Lemma makeGetContext_supported (name target : string) :
  In target supportedTargets -> exists context, makeGetContext name target = Ok context.
Proof.
  intros H. apply supported_cases in H. destruct H as [-> | [-> | ->]]; eexists; reflexivity.
Qed.

Lemma makeQueryOptions_supported (name target returnType dataType : string)
  (infinite suspense : bool) (version : TanStackVersion) :
  In target supportedTargets ->
  exists options,
    makeQueryOptions name target returnType dataType infinite suspense version = Ok options.
Proof.
  intros H. apply supported_cases in H. destruct H as [-> | [-> | ->]]; eexists; reflexivity.
Qed.

Lemma makeMutationOptions_supported (name target returnType argsType : string) :
  In target supportedTargets ->
  exists options, makeMutationOptions name target returnType argsType = Ok options.
Proof.
  intros H. apply supported_cases in H. destruct H as [-> | [-> | ->]]; eexists; reflexivity.
Qed.

Lemma makeBaseImports_supported (name target : string) (version : TanStackVersion) :
  In target supportedTargets ->
  exists imports, makeBaseImports name target version = Ok imports.
Proof.
  intros H. apply supported_cases in H. destruct H as [-> | [-> | ->]]; eexists; reflexivity.
Qed.

(** One round of the loop of [generateQueryHook] appends one function. *)
Lemma generateQueryHookMode_function (name target : string) (version : TanStackVersion)
  (model operation : string) (returnArray optionalInput : bool)
  (overrideReturnType overrideInputType : option string)
  (overrideTypeParameters : option (list string)) (supportOptimistic : bool)
  (sf : SourceFile) (generateMode : string) :
  In target supportedTargets ->
  exists func,
    generateQueryHookMode name target version model operation returnArray optionalInput
      overrideReturnType overrideInputType overrideTypeParameters supportOptimistic
      sf generateMode = Ok (sf ++ [SourceFunction func]) /\
    queryHookOf model operation supportOptimistic generateMode func.
Proof.
  intros Hin.
  destruct (makeQueryOptions_supported name target "TQueryFnData" "TData"
              (String_includes "Infinite" generateMode) (String_includes "Suspense" generateMode)
              version Hin) as (optionsType & Hopt).
  destruct (makeGetContext_supported name target Hin) as (context & Hctx).
  unfold generateQueryHookMode. cbv zeta. rewrite Hopt. cbn [mbind result_bind].
  rewrite Hctx. cbn [mbind result_bind].
  eexists. split; [reflexivity|]. unfold queryHookOf.
  split; [destruct (isV5 version && _ && _); reflexivity|].
  split; [destruct (isV5 version && _ && _); reflexivity|].
  assert (Hdecl : forall b : bool,
    existsb (fun p => String.eqb (param_name p) "optimisticUpdate")
      ([MkParameterDeclaration (if optionalInput then "args?" else "args")
          (makeQueryArgsType target
             (default (String.concat "" ["Prisma."; model; upperCaseFirst operation; "Args"])
                overrideInputType)) None;
        MkParameterDeclaration "options?" optionsType None]
       ++ (if b then [MkParameterDeclaration "optimisticUpdate" "boolean" (Some "true")]
           else [])) = b).
  { intros b. destruct optionalInput, b; reflexivity. }
  split.
  - destruct (isV5 version && _ && _); unfold declaresOptimisticUpdate;
      cbn [func_parameters func_addStatements]; apply Hdecl.
  - set (optimistic := supportOptimistic && negb (String_includes "Infinite" generateMode)).
    assert (Hpass : forall pre : list string,
      String_endsWith
        (String.concat ""
           (pre ++ ["`, args, options, fetch";
                    if optimistic then ", optimisticUpdate" else ""; ");"]))
        ", optimisticUpdate);" = optimistic).
    { intros pre. rewrite concat_empty_app.
      destruct optimistic; (rewrite String_endsWith_append; [reflexivity | vm_compute; lia]). }
    destruct (isV5 version && _ && _); unfold passesOptimisticUpdate, declaresOptimisticUpdate;
      cbn [func_parameters func_statements func_addStatements];
      rewrite Hdecl; cbn [app map last];
      exact (Hpass ["return use"; generateMode; "ModelQuery<TQueryFnData, TData, TError>('";
                    model; "', `${endpoint}/"; lowerCaseFirst model; "/"; operation]).
Qed.

Lemma generateQueryHook_functions (name target : string) (version : TanStackVersion)
  (sf : SourceFile) (model operation : string) (returnArray optionalInput : bool)
  (overrideReturnType overrideInputType : option string)
  (overrideTypeParameters : option (list string)) (supportInfinite supportOptimistic : bool) :
  In target supportedTargets ->
  exists funcs,
    generateQueryHook name target version sf model operation returnArray optionalInput
      overrideReturnType overrideInputType overrideTypeParameters supportInfinite
      supportOptimistic = Ok (sf ++ map SourceFunction funcs) /\
    Forall2 (queryHookOf model operation supportOptimistic)
      (List.filter (modeGenerated target version supportInfinite) allModes) funcs.
Proof.
  intros Hin. unfold generateQueryHook. cbv zeta.
  match goal with
  | |- context [forEachM _ sf ?modes] =>
      replace modes with (List.filter (modeGenerated target version supportInfinite) allModes)
  end.
  2:{ unfold modeGenerated.
      destruct supportInfinite, (String.eqb target "react"), version; reflexivity. }
  apply forEachM_appends. intros sf' mode _.
  apply generateQueryHookMode_function. exact Hin.
Qed.

Lemma generateQueryHook_extends (name target : string) (version : TanStackVersion)
  (sf : SourceFile) (model operation : string) (returnArray optionalInput : bool)
  (overrideReturnType overrideInputType : option string)
  (overrideTypeParameters : option (list string)) (supportInfinite supportOptimistic : bool) :
  In target supportedTargets ->
  exists ext,
    generateQueryHook name target version sf model operation returnArray optionalInput
      overrideReturnType overrideInputType overrideTypeParameters supportInfinite
      supportOptimistic = Ok (sf ++ ext).
Proof.
  intros Hin.
  destruct (generateQueryHook_functions name target version sf model operation returnArray
              optionalInput overrideReturnType overrideInputType overrideTypeParameters
              supportInfinite supportOptimistic Hin) as (funcs & H & _).
  eauto.
Qed.

Lemma generateQueryHook_unsupported (name target : string) (version : TanStackVersion)
  (sf : SourceFile) (model operation : string) (returnArray optionalInput : bool)
  (overrideReturnType overrideInputType : option string)
  (overrideTypeParameters : option (list string)) (supportInfinite supportOptimistic : bool) :
  ~ In target supportedTargets ->
  generateQueryHook name target version sf model operation returnArray optionalInput
    overrideReturnType overrideInputType overrideTypeParameters supportInfinite
    supportOptimistic = Err (unsupportedTarget name target).
Proof.
  intros Hnot. apply unsupported_cases in Hnot. destruct Hnot as (Hr & Hv & Hs).
  unfold generateQueryHook. cbv zeta. rewrite Hr. cbn [andb].
  destruct supportInfinite; cbn [app forEachM]; unfold generateQueryHookMode, makeQueryOptions;
    cbv zeta; rewrite Hr, Hv, Hs; reflexivity.
Qed.

Lemma Forall2_queryHook_names (model operation : string) (supportOptimistic : bool)
  (modes : list string) (funcs : list FunctionDeclaration) :
  Forall2 (queryHookOf model operation supportOptimistic) modes funcs ->
  map func_name funcs = map (queryHookName model operation) modes /\
  Forall (fun func => func_isExported func = true) funcs /\
  Forall (fun func => passesOptimisticUpdate func = declaresOptimisticUpdate func) funcs.
Proof.
  induction 1 as [|mode func modes funcs (Hn & He & _ & Hp) _ (IHn & IHe & IHp)].
  - repeat split; constructor.
  - repeat split.
    + cbn [map]. rewrite Hn, IHn. reflexivity.
    + constructor; assumption.
    + constructor; assumption.
Qed.

(** X17. For a supported target [generateQueryHook] leaves what the file
    holds as it is and appends one exported function per mode, named
    [use<Mode><Operation><model>]: the plain mode always, an infinite mode
    only with [supportInfinite], a suspense mode only for React with
    TanStack Query v5. *)
Theorem generateQueryHook_modes (name target : string) (version : TanStackVersion)
  (sf : SourceFile) (model operation : string) (returnArray optionalInput : bool)
  (overrideReturnType overrideInputType : option string)
  (overrideTypeParameters : option (list string)) (supportInfinite supportOptimistic : bool) :
  In target supportedTargets ->
  exists funcs,
    generateQueryHook name target version sf model operation returnArray optionalInput
      overrideReturnType overrideInputType overrideTypeParameters supportInfinite
      supportOptimistic = Ok (sf ++ map SourceFunction funcs) /\
    map func_name funcs
      = map (queryHookName model operation)
          (List.filter (modeGenerated target version supportInfinite) allModes) /\
    Forall (fun func => func_isExported func = true) funcs.
Proof.
  intros Hin.
  destruct (generateQueryHook_functions name target version sf model operation returnArray
              optionalInput overrideReturnType overrideInputType overrideTypeParameters
              supportInfinite supportOptimistic Hin) as (funcs & H & Hall).
  apply Forall2_queryHook_names in Hall. destruct Hall as (Hn & He & _).
  exists funcs. auto.
Qed.

Lemma generateQueryHook_modes_witness :
  In "react" supportedTargets /\
  exists funcs,
    generateQueryHook samplePlugin "react" v5 [] "Post" "findMany" true true None None None
      true true = Ok ([] ++ map SourceFunction funcs) /\
    map func_name funcs
      = map (queryHookName "Post" "findMany")
          (List.filter (modeGenerated "react" v5 true) allModes) /\
    Forall (fun func => func_isExported func = true) funcs.
Proof.
  split; [left; reflexivity|].
  apply (generateQueryHook_modes samplePlugin "react" v5 [] "Post" "findMany" true true
           None None None true true).
  left; reflexivity.
Defined.

(** X18. Every hook that [generateQueryHook] generates declares the parameter
    [optimisticUpdate] exactly when the call it returns passes
    [optimisticUpdate] on; and some generated hook declares it exactly when
    [supportOptimistic] is set. *)
Theorem generateQueryHook_optimisticUpdate (name target : string) (version : TanStackVersion)
  (sf : SourceFile) (model operation : string) (returnArray optionalInput : bool)
  (overrideReturnType overrideInputType : option string)
  (overrideTypeParameters : option (list string)) (supportInfinite supportOptimistic : bool) :
  In target supportedTargets ->
  exists funcs,
    generateQueryHook name target version sf model operation returnArray optionalInput
      overrideReturnType overrideInputType overrideTypeParameters supportInfinite
      supportOptimistic = Ok (sf ++ map SourceFunction funcs) /\
    Forall (fun func => passesOptimisticUpdate func = declaresOptimisticUpdate func) funcs /\
    existsb declaresOptimisticUpdate funcs = supportOptimistic.
Proof.
  intros Hin.
  destruct (generateQueryHook_functions name target version sf model operation returnArray
              optionalInput overrideReturnType overrideInputType overrideTypeParameters
              supportInfinite supportOptimistic Hin) as (funcs & H & Hall).
  exists funcs. split; [exact H|]. split.
  - apply Forall2_queryHook_names in Hall. tauto.
  - clear H.
    assert (Hnone : supportOptimistic = false ->
              forall modes fs, Forall2 (queryHookOf model operation supportOptimistic) modes fs ->
              existsb declaresOptimisticUpdate fs = false).
    { intros -> modes fs HF.
      induction HF as [|? ? ? ? (_ & _ & Hd & _) _ IH]; [reflexivity|].
      cbn [existsb]. rewrite Hd, IH. reflexivity. }
    destruct supportOptimistic; [|eapply Hnone; eauto].
    change (List.filter (modeGenerated target version supportInfinite) allModes)
      with ("" :: List.filter (modeGenerated target version supportInfinite)
                    ["Infinite"; "Suspense"; "SuspenseInfinite"]) in Hall.
    inversion Hall as [|? ? ? ? (_ & _ & Hd & _) _]; subst.
    cbn [existsb]. rewrite Hd. reflexivity.
Qed.

Lemma generateQueryHook_optimisticUpdate_witness :
  In "svelte" supportedTargets /\
  exists funcs,
    generateQueryHook samplePlugin "svelte" v5 [] "Post" "findMany" true true None None None
      true true = Ok ([] ++ map SourceFunction funcs) /\
    Forall (fun func => passesOptimisticUpdate func = declaresOptimisticUpdate func) funcs /\
    existsb declaresOptimisticUpdate funcs = true.
Proof.
  split; [right; right; left; reflexivity|].
  apply (generateQueryHook_optimisticUpdate samplePlugin "svelte" v5 [] "Post" "findMany"
           true true None None None true true).
  right; right; left; reflexivity.
Defined.

Lemma generateMutationHook_function (name target : string) (sf : SourceFile)
  (model operation httpVerb : string) (checkReadBack : bool) (overrideReturnType : option string) :
  In target supportedTargets ->
  exists func,
    generateMutationHook name target sf model operation httpVerb checkReadBack
      overrideReturnType = Ok (sf ++ [SourceFunction func]) /\
    mutationHookOf model operation func.
Proof.
  intros Hin. unfold generateMutationHook. cbv zeta.
  match goal with
  | |- context [mbind _ (makeMutationOptions name target ?r ?a)] =>
      destruct (makeMutationOptions_supported name target r a Hin) as (options & ->)
  end.
  cbn [mbind result_bind].
  match goal with
  | |- context [mbind _ (makeMutationOptions name target ?r ?a)] =>
      destruct (makeMutationOptions_supported name target r a Hin) as (options' & ->)
  end.
  cbn [mbind result_bind].
  destruct (makeGetContext_supported name target Hin) as (context & ->).
  cbn [mbind result_bind].
  apply supported_cases in Hin.
  destruct Hin as [-> | [-> | ->]]; cbn [oneOf existsb];
    (eexists; split; [reflexivity|]; repeat split; repeat eexists).
Qed.

Lemma generateMutationHook_extends (name target : string) (sf : SourceFile)
  (model operation httpVerb : string) (checkReadBack : bool) (overrideReturnType : option string) :
  In target supportedTargets ->
  exists ext,
    generateMutationHook name target sf model operation httpVerb checkReadBack
      overrideReturnType = Ok (sf ++ ext).
Proof.
  intros Hin.
  destruct (generateMutationHook_function name target sf model operation httpVerb checkReadBack
              overrideReturnType Hin) as (func & H & _).
  eauto.
Qed.

(** X19. For a supported target [generateMutationHook] leaves what the file
    holds as it is and appends one exported function [use<Operation><model>]
    with the parameters [options?], [invalidateQueries = true] and
    [optimisticUpdate = false], whose body is the context statement, the
    constants [_mutation] and [mutation], and [return mutation;]. *)
Theorem generateMutationHook_shape (name target : string) (sf : SourceFile)
  (model operation httpVerb : string) (checkReadBack : bool) (overrideReturnType : option string) :
  In target supportedTargets ->
  exists func,
    generateMutationHook name target sf model operation httpVerb checkReadBack
      overrideReturnType = Ok (sf ++ [SourceFunction func]) /\
    mutationHookOf model operation func.
Proof.
  intros Hin. apply generateMutationHook_function. exact Hin.
Qed.

Lemma generateMutationHook_shape_witness :
  In "vue" supportedTargets /\
  exists func,
    generateMutationHook samplePlugin "vue" [] "Post" "create" "post" true None
      = Ok ([] ++ [SourceFunction func]) /\
    mutationHookOf "Post" "create" func.
Proof.
  split; [right; left; reflexivity|].
  apply (generateMutationHook_shape samplePlugin "vue" [] "Post" "create" "post" true None).
  right; left; reflexivity.
Defined.

Lemma ifMapped_extends (c : bool) (step : SourceFile -> result SourceFile) :
  (forall sf, exists ext, step sf = Ok (sf ++ ext)) ->
  forall sf, exists ext, ifMapped c step sf = Ok (sf ++ ext).
Proof.
  intros Hstep sf. destruct c; cbn [ifMapped]; [apply Hstep|].
  exists []. rewrite app_nil_r. reflexivity.
Qed.

Ltac extend_step Hin :=
  match goal with
  | |- context [mbind _ (ifMapped ?c ?step ?sf)] =>
      let ext := fresh "ext" in
      let Hstep := fresh "Hstep" in
      assert (Hstep : forall sf', exists ext', step sf' = Ok (sf' ++ ext'));
      [ intros sf'; cbv beta;
        lazymatch step with
        | context [generateMutationHook] => apply generateMutationHook_extends
        | _ => apply generateQueryHook_extends
        end; exact Hin
      | destruct (ifMapped_extends c step Hstep sf) as (ext & ->); clear Hstep;
        cbn [mbind result_bind] ]
  end.

Lemma generateModelHooks_file (name : string) (paramCase : string -> string)
  (path_join : string -> string -> string) (getPrismaClientImportSpec : string -> string)
  (getPrismaVersion : option SemVer) (target : string) (version : TanStackVersion)
  (project : Project) (outDir : string) (model : DataModel) (mapping : ModelMapping) :
  In target supportedTargets ->
  exists sf funcs,
    generateModelHooks name paramCase path_join getPrismaClientImportSpec getPrismaVersion
      target version project outDir model mapping
      = Ok (<[hooksFilePath paramCase path_join outDir model
              := sf ++ map SourceFunction funcs]> project) /\
    hooksFileHeader getPrismaClientImportSpec outDir model `prefix_of` sf /\
    Forall2 (queryHookOf (dm_name model) "count" false)
      (List.filter (modeGenerated target version false) allModes) funcs.
Proof.
  intros Hin. unfold generateModelHooks. cbv zeta.
  destruct (makeBaseImports_supported name target version Hin) as (imports & ->).
  cbn [mbind result_bind].
  do 12 extend_step Hin.
  match goal with
  | |- context [mbind _ (generateQueryHook name target version ?sf ?m ?o ?ra ?oi ?ort ?oit
                           ?otp ?si ?so)] =>
      destruct (generateQueryHook_functions name target version sf m o ra oi ort oit otp si so
                  Hin) as (funcs & -> & Hall)
  end.
  cbn [mbind result_bind].
  eexists _, funcs. split; [reflexivity|]. split; [|exact Hall].
  do 13 apply prefix_app_r. reflexivity.
Qed.

(** X20. For a supported target [generateModelHooks] succeeds whatever the
    mapping holds; the file it creates starts with the lint pragma and the
    type-only import of [Prisma] and the model, and ends with the count
    hook: [useCount<model>], or [useSuspenseCount<model>] for React with
    TanStack Query v5. *)
Theorem generateModelHooks_count_hook (name : string) (paramCase : string -> string)
  (path_join : string -> string -> string) (getPrismaClientImportSpec : string -> string)
  (getPrismaVersion : option SemVer) (target : string) (version : TanStackVersion)
  (project : Project) (outDir : string) (model : DataModel) (mapping : ModelMapping) :
  In target supportedTargets ->
  exists sf func,
    generateModelHooks name paramCase path_join getPrismaClientImportSpec getPrismaVersion
      target version project outDir model mapping
      = Ok (<[hooksFilePath paramCase path_join outDir model := sf]> project) /\
    hooksFileHeader getPrismaClientImportSpec outDir model `prefix_of` sf /\
    last sf = Some (SourceFunction func) /\
    func_name func
      = queryHookName (dm_name model) "count"
          (if String.eqb target "react" && isV5 version then "Suspense" else "").
Proof.
  intros Hin.
  destruct (generateModelHooks_file name paramCase path_join getPrismaClientImportSpec
              getPrismaVersion target version project outDir model mapping Hin)
    as (sf & funcs & Hgen & Hpre & Hall).
  assert (Hlast : exists func,
            last funcs = Some func /\
            func_name func
              = queryHookName (dm_name model) "count"
                  (if String.eqb target "react" && isV5 version then "Suspense" else "")).
  { unfold modeGenerated in Hall.
    destruct (String.eqb target "react" && isV5 version); cbn in Hall.
    - inversion Hall as [|? f1 ? ? _ Hrest]; subst.
      inversion Hrest as [|? f2 ? ? (Hn & _) Hnil]; subst.
      inversion Hnil; subst. exists f2. split; [reflexivity|exact Hn].
    - inversion Hall as [|? f1 ? ? (Hn & _) Hnil]; subst.
      inversion Hnil; subst. exists f1. split; [reflexivity|exact Hn]. }
  destruct Hlast as (func & Hlast & Hname).
  exists (sf ++ map SourceFunction funcs), func.
  split; [exact Hgen|]. split; [apply prefix_app_r; exact Hpre|]. split; [|exact Hname].
  change (map SourceFunction funcs) with (SourceFunction <$> funcs).
  rewrite last_app, fmap_last, Hlast. reflexivity.
Qed.

Lemma generateModelHooks_count_hook_witness :
  In "react" supportedTargets /\
  exists sf func,
    generateModelHooks samplePlugin String_toLowerCase joinSegments (fun outDir => "@prisma/client")
      None "react" v5 ∅ "hooks" (sampleDataModel "Post") sampleMapping
      = Ok (<[hooksFilePath String_toLowerCase joinSegments "hooks" (sampleDataModel "Post")
              := sf]> ∅) /\
    hooksFileHeader (fun outDir => "@prisma/client") "hooks" (sampleDataModel "Post")
      `prefix_of` sf /\
    last sf = Some (SourceFunction func) /\
    func_name func = queryHookName "Post" "count" "Suspense".
Proof.
  split; [left; reflexivity|].
  apply (generateModelHooks_count_hook samplePlugin String_toLowerCase joinSegments
           (fun outDir => "@prisma/client") None "react" v5 ∅ "hooks" (sampleDataModel "Post")
           sampleMapping).
  left; reflexivity.
Defined.

(** X21. For a target that is not supported the generators fail with
    [Unsupported target: <target>], the message of [makeMutationOptions],
    [makeQueryOptions] and [makeBaseImports]: the quoted message of
    [makeGetContext] and of the [switch] of [generateMutationHook] is never
    what they throw. *)
Theorem unsupported_target_message (name : string) (paramCase : string -> string)
  (path_join : string -> string -> string) (getPrismaClientImportSpec : string -> string)
  (getPrismaVersion : option SemVer) (target : string) (version : TanStackVersion)
  (sf : SourceFile) (model operation httpVerb : string)
  (returnArray optionalInput checkReadBack : bool)
  (overrideReturnType overrideInputType : option string)
  (overrideTypeParameters : option (list string)) (supportInfinite supportOptimistic : bool)
  (project : Project) (outDir : string) (dataModel : DataModel) (mapping : ModelMapping) :
  ~ In target supportedTargets ->
  generateMutationHook name target sf model operation httpVerb checkReadBack overrideReturnType
    = Err (unsupportedTarget name target) /\
  generateQueryHook name target version sf model operation returnArray optionalInput
    overrideReturnType overrideInputType overrideTypeParameters supportInfinite
    supportOptimistic = Err (unsupportedTarget name target) /\
  generateModelHooks name paramCase path_join getPrismaClientImportSpec getPrismaVersion
    target version project outDir dataModel mapping = Err (unsupportedTarget name target).
Proof.
  intros Hnot. split; [|split].
  - apply unsupported_cases in Hnot. destruct Hnot as (Hr & Hv & Hs).
    unfold generateMutationHook, makeMutationOptions. cbv zeta.
    rewrite Hr, Hv, Hs. reflexivity.
  - apply generateQueryHook_unsupported. exact Hnot.
  - apply unsupported_cases in Hnot. destruct Hnot as (Hr & Hv & Hs).
    unfold generateModelHooks, makeBaseImports. cbv zeta.
    rewrite Hr, Hv, Hs. reflexivity.
Qed.

Lemma unsupported_target_message_witness :
  ~ In "angular" supportedTargets /\
  generateMutationHook samplePlugin "angular" [] "Post" "create" "post" true None
    = Err (unsupportedTarget samplePlugin "angular") /\
  generateQueryHook samplePlugin "angular" v4 [] "Post" "create" true true None None None
    true true = Err (unsupportedTarget samplePlugin "angular") /\
  generateModelHooks samplePlugin String_toLowerCase joinSegments
    (fun outDir => "@prisma/client") None "angular" v4 ∅ "hooks" (sampleDataModel "Post")
    sampleMapping = Err (unsupportedTarget samplePlugin "angular").
Proof.
  assert (Hnot : ~ In "angular" supportedTargets).
  { intros [H | [H | [H | []]]]; discriminate H. }
  split; [exact Hnot|].
  apply (unsupported_target_message samplePlugin String_toLowerCase joinSegments
           (fun outDir => "@prisma/client") None "angular" v4 [] "Post" "create" "post"
           true true true None None None true true ∅ "hooks" (sampleDataModel "Post")
           sampleMapping Hnot).
Defined.

(** The file that [generateModelHooks] writes does not depend on what the
    project holds. *)
Lemma generateModelHooks_project (name : string) (paramCase : string -> string)
  (path_join : string -> string -> string) (getPrismaClientImportSpec : string -> string)
  (getPrismaVersion : option SemVer) (target : string) (version : TanStackVersion)
  (project1 project2 : Project) (outDir : string) (model : DataModel)
  (mapping : ModelMapping) :
  match generateModelHooks name paramCase path_join getPrismaClientImportSpec
          getPrismaVersion target version project1 outDir model mapping,
        generateModelHooks name paramCase path_join getPrismaClientImportSpec
          getPrismaVersion target version project2 outDir model mapping with
  | Ok p1, Ok p2 =>
      exists sf,
        p1 = <[hooksFilePath paramCase path_join outDir model := sf]> project1 /\
        p2 = <[hooksFilePath paramCase path_join outDir model := sf]> project2
  | Err e1, Err e2 => e1 = e2
  | _, _ => False
  end.
Proof.
  unfold generateModelHooks. cbv zeta.
  repeat (match goal with
          | |- context [mbind _ ?m] => destruct m
          end; cbn [mbind result_bind]; [|reflexivity]).
  eexists. split; reflexivity.
Qed.

(** X22. The hooks file of a model whose param-case name is [index] takes
    the place of the index file: generating the index first, as [generate]
    does, makes no difference to what [generateModelHooks] leaves in the
    project. *)
Theorem generateModelHooks_replaces_index (name : string) (paramCase : string -> string)
  (path_join : string -> string -> string) (getPrismaClientImportSpec : string -> string)
  (getPrismaVersion : option SemVer) (target : string) (version : TanStackVersion)
  (project : Project) (outDir : string) (models : list DataModel) (model : DataModel)
  (mapping : ModelMapping) :
  paramCase (dm_name model) = "index" ->
  generateModelHooks name paramCase path_join getPrismaClientImportSpec getPrismaVersion
    target version (generateIndex paramCase path_join project outDir models target version)
    outDir model mapping
  = generateModelHooks name paramCase path_join getPrismaClientImportSpec getPrismaVersion
      target version project outDir model mapping.
Proof.
  intros Hindex.
  pose proof (generateModelHooks_project name paramCase path_join getPrismaClientImportSpec
                getPrismaVersion target version
                (generateIndex paramCase path_join project outDir models target version)
                project outDir model mapping) as H.
  destruct (generateModelHooks _ _ _ _ _ _ _ (generateIndex _ _ _ _ _ _ _) _ _ _) as [p1|e1];
    destruct (generateModelHooks _ _ _ _ _ _ _ project _ _ _) as [p2|e2];
    try contradiction.
  - destruct H as (sf & -> & ->). f_equal.
    unfold hooksFilePath, generateIndex. cbv zeta. rewrite Hindex.
    apply insert_insert_eq.
  - f_equal. exact H.
Qed.

Lemma generateModelHooks_replaces_index_witness :
  String_toLowerCase (dm_name (sampleDataModel "Index")) = "index" /\
  generateModelHooks samplePlugin String_toLowerCase joinSegments
    (fun outDir => "@prisma/client") None "react" v5
    (generateIndex String_toLowerCase joinSegments ∅ "hooks" [sampleDataModel "Index"]
       "react" v5)
    "hooks" (sampleDataModel "Index") sampleMapping
  = generateModelHooks samplePlugin String_toLowerCase joinSegments
      (fun outDir => "@prisma/client") None "react" v5 ∅ "hooks" (sampleDataModel "Index")
      sampleMapping.
Proof.
  split; [reflexivity|].
  apply (generateModelHooks_replaces_index samplePlugin String_toLowerCase joinSegments
           (fun outDir => "@prisma/client") None "react" v5 ∅ "hooks"
           [sampleDataModel "Index"] (sampleDataModel "Index") sampleMapping).
  reflexivity.
Defined.
